(** * A model of the repository documenter (main.py)

    The program scans a source tree, asks a language model to describe every
    file, asks it once more for the sections of a README and renders the
    document.  This development embeds the scanner, the model client, the
    per-file analyser, the section synthesiser and the renderer as Rocq
    functions, and states the properties the specification gives for them.

    Everything outside the program (the file system, the HTTP endpoint, the
    parsers of the Python library) is an explicit input: an [environment].
    Console output is not modelled. *)

From Stdlib Require Import String Ascii List ZArith Bool DecimalString.
From stdpp Require Import base gmap strings list.

Open Scope string_scope.
Open Scope list_scope.
Set Warnings "-register-all".

(** * Python strings

    A Python [str] is modelled as a Rocq [string], one element for each
    character.  The literals of the program that hold non-ASCII text (its
    Russian prompts and placeholders) are written in their UTF-8 spelling;
    the operations the program applies to them ([in], [replace], [+], [==],
    [join]) give the same answer on that spelling as on the characters. *)
Module PyStr.

(** The double quote and the newline, as one-character strings. *)
Definition dq : string := String (ascii_of_nat 34) "".
Definition nl : string := String (ascii_of_nat 10) "".

(** [len(s)] *)
Definition len (s : string) : nat := String.length s.

(** [s.lower()], on the ASCII letters.  Apart from A-Z only the Kelvin sign
    has a lower-case form among a-z, so comparing [s.lower()] with an ASCII
    literal that has no letter k is exact. *)
Definition lower_char (c : ascii) : ascii :=
  let n := nat_of_ascii c in
  if ((65 <=? n) && (n <=? 90))%nat then ascii_of_nat (n + 32) else c.

Fixpoint lower (s : string) : string :=
  match s with
  | "" => ""
  | String c r => String (lower_char c) (lower r)
  end.

Fixpoint drop (n : nat) (s : string) : string :=
  match n, s with
  | 0, _ => s
  | S _, "" => ""
  | S k, String _ r => drop k r
  end.

Fixpoint take (n : nat) (s : string) : string :=
  match n, s with
  | 0, _ => ""
  | S _, "" => ""
  | S k, String c r => String c (take k r)
  end.

(** [s[i:j]] for [0 <= i] and [0 <= j] *)
Definition slice (i j : nat) (s : string) : string := take (j - i) (drop i s).

(** [s.endswith(p)] *)
Definition endswith (s p : string) : bool :=
  (len p <=? len s)%nat && String.eqb (drop (len s - len p) s) p.

(** [sub in s] *)
Fixpoint contains (sub s : string) : bool :=
  match s with
  | "" => String.prefix sub ""
  | String _ r => String.prefix sub s || contains sub r
  end.

(** [s.replace(old, new)]: every occurrence of [old], found left to right
    without overlap, becomes [new].  [skip] counts the characters of the
    occurrence just replaced that are still to be passed over. *)
Fixpoint replace_from (old new : string) (skip : nat) (s : string) : string :=
  match s with
  | "" => match old with "" => new | _ => "" end
  | String c r =>
      match skip with
      | S k => replace_from old new k r
      | 0 =>
          match old with
          | "" => new +:+ String c (replace_from old new 0 r)
          | _ =>
              if String.prefix old s
              then new +:+ replace_from old new (len old - 1) r
              else String c (replace_from old new 0 r)
          end
      end
  end.

Definition replace (s old new : string) : string := replace_from old new 0 s.

(** [s.count(sub)] for a non-empty [sub]. *)
Fixpoint count_from (sub : string) (skip : nat) (s : string) : nat :=
  match s with
  | "" => 0
  | String _ r =>
      match skip with
      | S k => count_from sub k r
      | 0 =>
          if String.prefix sub s
          then S (count_from sub (len sub - 1) r)
          else count_from sub 0 r
      end
  end.

Definition count (s sub : string) : nat := count_from sub 0 s.

(** [sep.join(parts)] *)
Definition join (sep : string) (parts : list string) : string :=
  String.concat sep parts.

(** [s * n] *)
Fixpoint times (s : string) (n : nat) : string :=
  match n with
  | 0 => ""
  | S k => s +:+ times s k
  end.

(** [s.split(c)] for a one-character separator [c]; the result is never
    empty. *)
Fixpoint split (c : ascii) (s : string) : list string :=
  match s with
  | "" => [""]
  | String a r =>
      if Ascii.eqb a c then "" :: split c r
      else match split c r with
           | [] => [String a ""]
           | w :: ws => String a w :: ws
           end
  end.

(** [s.strip()]: the white space of [str.isspace] goes at both ends.  Among
    the characters a [string] holds (code points 0 to 255) the white space
    is 9 to 13, 28 to 32, U+0085 (next line) and U+00A0 (no-break space). *)
Definition is_space (c : ascii) : bool :=
  let n := nat_of_ascii c in
  (((9 <=? n) && (n <=? 13)) || ((28 <=? n) && (n <=? 32))
   || (n =? 133) || (n =? 160))%nat.

Fixpoint lstrip (s : string) : string :=
  match s with
  | "" => ""
  | String c r => if is_space c then lstrip r else s
  end.

Fixpoint rstrip (s : string) : string :=
  match s with
  | "" => ""
  | String c r =>
      match rstrip r with
      | "" => if is_space c then "" else String c ""
      | r' => String c r'
      end
  end.

Definition strip (s : string) : string := rstrip (lstrip s).

(** [str(n)] for a natural number. *)
Definition of_nat (n : nat) : string := NilZero.string_of_uint (Nat.to_uint n).

(** [x in xs] for a list of strings. *)
Definition mem (x : string) (xs : list string) : bool := existsb (String.eqb x) xs.

(** [range(start, stop, step)] for a positive [step]; [stop - start] rounds
    are always enough. *)
Fixpoint range_fuel (fuel i stop step : nat) : list nat :=
  match fuel with
  | 0 => []
  | S f => if (i <? stop)%nat then i :: range_fuel f (i + step) stop step else []
  end.

Definition range (start stop step : nat) : list nat :=
  range_fuel (stop - start) start stop step.

End PyStr.

(** * Paths (posixpath) *)
Module OsPath.

Definition sep : string := "/".

(** [os.path.join(a, b)] *)
Definition join (a b : string) : string :=
  if String.prefix sep b then b
  else if String.eqb a "" || PyStr.endswith a sep then a +:+ b
  else a +:+ sep +:+ b.

(** [os.path.basename(p)]: what follows the last separator. *)
Definition basename (p : string) : string := List.last (PyStr.split "/" p) "".

(** [os.path.splitext(p)[1]]: the extension starts at the last dot of the
    base name, unless only dots stand before it. *)
Fixpoint only_dots (s : string) : bool :=
  match s with
  | "" => true
  | String c r => Ascii.eqb c "." && only_dots r
  end.

Definition splitext_ext (p : string) : string :=
  let name := basename p in
  let parts := PyStr.split "." name in
  match parts with
  | [] | [_] => ""
  | _ =>
      let ext := "." +:+ List.last parts "" in
      let stem := PyStr.take (PyStr.len name - PyStr.len ext) name in
      if only_dots stem then "" else ext
  end.

(** [os.path.relpath(os.path.join(root, file), top)] for a [root] that
    [os.walk(top)] yields: the directory names below [top], then the file. *)
Definition relpath (below : list string) (file : string) : string :=
  PyStr.join sep (below ++ [file]).

End OsPath.

(** * Values, exceptions, the environment *)

(** What a file descriptor holds under a key: [None] or a [str]. *)
Inductive pyval : Type :=
| VNone
| VStr (s : string).

(** A parsed JSON document, as [json.loads] and [response.json()] return it.
    A number keeps its literal. *)
Inductive jvalue : Type :=
| JNull
| JBool (b : bool)
| JNum (literal : string)
| JStr (s : string)
| JArr (items : list jvalue)
| JObj (fields : gmap string jvalue).

(** The exception classes that can reach the program; all of them are
    subclasses of [Exception].  KeyboardInterrupt and SystemExit are outside
    the model. *)
Inductive exn : Type :=
| ConnectionError          (* requests.exceptions *)
| Timeout                  (* requests.exceptions *)
| HTTPError                (* requests.exceptions, from raise_for_status *)
| RequestsJSONDecodeError  (* requests.exceptions, also a json.JSONDecodeError *)
| JSONDecodeError          (* json *)
| AttributeError
| KeyError.

Definition is_RequestException (e : exn) : bool :=
  match e with
  | ConnectionError | Timeout | HTTPError | RequestsJSONDecodeError => true
  | _ => false
  end.

Definition is_JSONDecodeError (e : exn) : bool :=
  match e with
  | RequestsJSONDecodeError | JSONDecodeError => true
  | _ => false
  end.

(** The outcome of a call: a value, or an exception that propagates. *)
Inductive result (A : Type) : Type :=
| Ok (a : A)
| Raise (e : exn).
Arguments Ok {A} a.
Arguments Raise {A} e.

#[global] Instance result_ret : MRet result := fun A a => Ok a.
#[global] Instance result_bind : MBind result := fun A B f m =>
  match m with
  | Ok a => f a
  | Raise e => Raise e
  end.

(** ** The file system *)

(** What [open(path, encoding=...).read()] does for one encoding. *)
Inductive read_outcome : Type :=
| ReadOk (text : string)
| ReadUnicodeDecodeError
| ReadError.               (* any other exception, PermissionError for one *)

Record file : Type := {
  read_utf8 : read_outcome;
  read_latin1 : read_outcome
}.

(** A directory as [os.walk] lists it: the sub-directories and the files,
    each in listing order.  Symbolic links are not modelled. *)
Inductive dir : Type :=
| MkDir (subdirs : list (string * dir)) (files : list (string * file)).

(** One step of [os.walk]: [root], the directory names from the top down to
    it, and the files it lists. *)
Record walk_item : Type := {
  root : string;
  below : list string;
  filenames : list (string * file)
}.

(** [os.walk(top)], top down.  [keep] is the consumer's
    [dirs[:] = [d for d in dirs if keep d]], done before the descent. *)
Fixpoint os_walk (keep : string -> bool) (top : string) (path : list string)
    (d : dir) : list walk_item :=
  match d with
  | MkDir subdirs files =>
      {| root := top; below := path; filenames := files |}
      :: flat_map (fun entry : string * dir =>
                     let '(name, sub) := entry in
                     if keep name
                     then os_walk keep (OsPath.join top name) (path ++ [name]) sub
                     else [])
                  subdirs
  end.

(** ** The HTTP endpoint *)

(** The JSON body [requests.post] sends ([data]) and where it goes. *)
Record request : Type := {
  url : string;
  data_model : string;
  data_prompt : string;
  data_stream : bool;
  data_format : option string;
  data_options : option (gmap string jvalue)
}.

Inductive json_outcome : Type :=
| JsonRaises (e : exn)
| JsonReturns (v : jvalue).

Record response : Type := {
  status_code : Z;
  json : json_outcome;     (* what [response.json()] does *)
  text : string
}.

Inductive post_outcome : Type :=
| PostRaises (e : exn)
| PostReturns (r : response).

(** Everything the program reads from outside itself. *)
Record environment : Type := {
  (** the tree found at [self.repo_path] *)
  repo_tree : dir;
  (** what [_get_remote_url] and [_get_last_commit_info] read from git *)
  git_remote_url : string;
  git_last_commit : gmap string string;
  (** [requests.post], given the requests made so far *)
  requests_post : list request -> request -> post_outcome;
  (** [json.loads]; [None] stands for a JSONDecodeError *)
  json_loads : string -> option jvalue;
  (** [urlparse(u).path] *)
  urlparse_path : string -> string;
  (** [str(v)] for a parsed JSON value that is no string *)
  str_of_json : jvalue -> string
}.

(** The fields of [self] the pipeline reads. *)
Record documenter : Type := {
  repo_path : string;
  model_name : string;
  ollama_url : string
}.

(** ** Dictionaries *)

(** A file descriptor is a [dict] from keys to [None] or [str]. *)
Abbreviation descriptor := (gmap string pyval).

(** [d[k]] *)
Definition getitem (d : descriptor) (k : string) : result pyval :=
  match d !! k with
  | Some v => Ok v
  | None => Raise KeyError
  end.

(** Truth value of [None] or a [str]. *)
Definition truthy (v : pyval) : bool :=
  match v with
  | VNone => false
  | VStr s => negb (String.eqb s "")
  end.

(** [f"{v}"] *)
Definition format (v : pyval) : string :=
  match v with
  | VNone => "None"
  | VStr s => s
  end.

(** [v in xs] for a list of [str] *)
Definition val_in (v : pyval) (xs : list string) : bool :=
  match v with
  | VNone => false
  | VStr s => PyStr.mem s xs
  end.

(** [v.lower()] *)
Definition val_lower (v : pyval) : result string :=
  match v with
  | VNone => Raise AttributeError
  | VStr s => Ok (PyStr.lower s)
  end.

(** A [dict] with [str] keys in insertion order, as an association list
    without repeated keys. *)
Fixpoint assoc {V : Type} (k : string) (d : list (string * V)) : option V :=
  match d with
  | [] => None
  | (k', v) :: rest => if String.eqb k k' then Some v else assoc k rest
  end.

(** [stats[k] = stats.get(k, 0) + 1] *)
Fixpoint increment (k : string) (stats : list (string * nat)) : list (string * nat) :=
  match stats with
  | [] => [(k, 1)]
  | (k', n) :: rest =>
      if String.eqb k k' then (k', n + 1) :: rest else (k', n) :: increment k rest
  end.

(** * The literals of the program *)

Import PyStr (dq, nl).

(** [prompt_template] of [analyze_file] (line 398).  It is an f-string: the
    doubled braces around [chunk_content] in the source are its escape for
    one brace each, so the text holds [{chunk_content}] with single braces. *)
Definition prompt_template (path language tag : string) : string :=
    "
        Ты - опытный тимлид и главный архитектор проекта. Твоя задача - проанализировать предоставленный фрагмент кода и предоставить информацию в следующем формате, используя русский язык и markdown разметку.
        Будь точным, лаконичным и максимально полезным для понимания проекта.
        **Особое внимание удели основной ЦЕЛИ и РОЛИ этого файла в контексте всего проекта, как будто ты объясняешь это новому члену команды.**
        **Избегай любых формулировок, которые могли бы намекнуть на то, что текст сгенерирован ИИ. Пиши естественно, как человек.**
        
        Пример желаемого тона и стиля:
        " +:+ dq +:+ "Этот файл - сердце нашего модуля аутентификации. Здесь мы не только обрабатываем входные данные пользователя, но и обеспечиваем безопасность сессий. Важно понимать, что каждое изменение здесь влияет на общую стабильность системы." +:+ dq +:+ "

        ### Назначение файла
        Краткое описание на русском языке (1-2 предложения), объясняющее основную цель и роль файла в контексте проекта. Например: " +:+ dq +:+ "Этот файл отвечает за маршрутизацию HTTP-запросов" +:+ dq +:+ ", " +:+ dq +:+ "Здесь реализована бизнес-логика для обработки заказов" +:+ dq +:+ ", " +:+ dq +:+ "Этот модуль содержит утилитарные функции для работы с датами" +:+ dq +:+ ".

        ### Основные компоненты
        - **Классы**: Список названий классов, определенных в файле, с очень кратким описанием каждого.
        - **Функции/Методы**: Список названий функций или методов, определенных в файле, с очень кратким описанием каждого.
        - **Переменные/Константы**: Список ключевых глобальных переменных или констант, определенных в файле, с очень кратким описанием.

        ### Зависимости
        Список внешних библиотек, модулей или фреймворков, которые импортируются или используются в файле.

        ### Дополнительная информация
        Любая другая полезная информация, например, паттерны проектирования, особенности реализации, потенциальные проблемы или важные комментарии.

        ---
        Файл: "
    +:+ path
    +:+ "
        Язык: "
    +:+ language
    +:+ "
        Содержимое файла:
        ```"
    +:+ tag
    +:+ "
        {chunk_content}
        ```
        ".

(** [combine_prompt] of [analyze_file] (line 447): what stands before and
    after the joined partial analyses. *)
Definition combine_prompt_head : string :=
    "
            Ты получил несколько частей анализа одного и того же файла. Объедини их в единый связный анализ, 
            сохраняя структуру: " +:+ dq +:+ "Назначение файла" +:+ dq +:+ ", " +:+ dq +:+ "Основные компоненты" +:+ dq +:+ ", " +:+ dq +:+ "Зависимости" +:+ dq +:+ ", " +:+ dq +:+ "Дополнительная информация" +:+ dq +:+ ".
            **Особое внимание удели основной ЦЕЛИ и РОЛИ этого файла в контексте всего проекта, как будто ты объясняешь это новому члену команды.**
            **Избегай любых формулировок, которые могли бы намекнуть на то, что текст сгенерирован ИИ. Пиши естественно, как человек.**
            Убедись, что информация не дублируется и представлена лаконично.

            Части анализа:
            ".

Definition combine_prompt_tail : string :=
    "
            ".

Definition combine_prompt (analysis_results : list string) : string :=
    combine_prompt_head +:+ PyStr.join nl analysis_results +:+ combine_prompt_tail.

(** [llm_prompt_for_sections] of [generate_readme] (line 519). *)
Definition llm_prompt_for_sections (name remote_url languages message author date files_analysis : string) : string :=
    "
        Ты - опытный тимлид и главный архитектор проекта. Твоя задача - сгенерировать контент для различных секций README.md.
        Сгенерируй JSON-объект, строго соответствующий следующей схеме. Все текстовые поля должны быть на русском языке.
        Будь максимально полезным и информативным, как будто ты объясняешь проект новому члену команды.
        Избегай любых формулировок, которые могли бы намекнуть на то, что текст сгенерирован ИИ. Пиши естественно, как человек.

        Информация о проекте для анализа:
        Название репозитория: "
    +:+ name
    +:+ "
        URL репозитория: "
    +:+ remote_url
    +:+ "
        Основные языки (по количеству файлов): "
    +:+ languages
    +:+ "
        Последний коммит:
            Сообщение: "
    +:+ message
    +:+ "
            Автор: "
    +:+ author
    +:+ "
            Дата: "
    +:+ date
    +:+ "

        Анализ ключевых файлов (используй эту информацию для формирования разделов):
        "
    +:+ files_analysis
    +:+ "

        ---
        Сгенерируй JSON-объект, содержащий контент для секций README.md, согласно предоставленной схеме.
        ".

(** [readme_template_content] of [generate_readme], first part (line 562). *)
Definition readme_banner (name : string) : string :=
    "
<p align=" +:+ dq +:+ "center" +:+ dq +:+ "><img src=" +:+ dq +:+ "https://i.gifer.com/GwyA.gif" +:+ dq +:+ " width=" +:+ dq +:+ "200" +:+ dq +:+ "/></p>
<h3 align=" +:+ dq +:+ "center" +:+ dq +:+ ">check out my channels</h3>
<div id=" +:+ dq +:+ "badges" +:+ dq +:+ " align=" +:+ dq +:+ "center" +:+ dq +:+ ">
    <a href=" +:+ dq +:+ "http://t.me/+13262155064" +:+ dq +:+ ">
        <img src=" +:+ dq +:+ "https://w7.pngwing.com/pngs/1/41/png-transparent-telegram-button-icon.png" +:+ dq +:+ " alt=" +:+ dq +:+ "telegram Badge" +:+ dq +:+ " height=" +:+ dq +:+ "30px" +:+ dq +:+ "/>
    </a>
    <a href=" +:+ dq +:+ "https://www.youtube.com/@Mr.Helperus" +:+ dq +:+ ">
        <img src=" +:+ dq +:+ "https://img.shields.io/badge/YouTube-red?style=for-the-badge&logo=youtube&logoColor=white" +:+ dq +:+ " alt=" +:+ dq +:+ "YouTube Badge" +:+ dq +:+ "/>
    </a>
    <a href=" +:+ dq +:+ "https://www.tiktok.com/@4elobrek9_original" +:+ dq +:+ ">
        <img src=" +:+ dq +:+ "https://w7.pngwing.com/pngs/262/918/png-transparent-tiktok-button-icon.png" +:+ dq +:+ " alt=" +:+ dq +:+ "TikTok Badge" +:+ dq +:+ " height=" +:+ dq +:+ "30px" +:+ dq +:+ " />
    </a>
    <a href=" +:+ dq +:+ "https://discord.gg/qsvPPE9YvJ" +:+ dq +:+ ">
        <img src=" +:+ dq +:+ "https://encrypted-tbn0.gstatic.com/images?q=tbn:ANd9GcTl21OxPjOzA5qABz2Hle_7SoOxtIoOOsHXBQ&s" +:+ dq +:+ " alt=" +:+ dq +:+ "Discord Badge" +:+ dq +:+ " height=" +:+ dq +:+ "35px" +:+ dq +:+ "/>
    </a>
</div>
</p>
<p align=" +:+ dq +:+ "center" +:+ dq +:+ "><img src=" +:+ dq +:+ "https://komarev.com/ghpvc/?username=4elobre9&style=flat-square&color=blue" +:+ dq +:+ " alt=" +:+ dq +:+ dq +:+ "></p>
<h1 align=" +:+ dq +:+ "center" +:+ dq +:+ ">読者の皆さん、こんにちは。 <img src=" +:+ dq +:+ "https://media.giphy.com/media/hvRJCLFzcasrR4ia7z/giphy.gif" +:+ dq +:+ " width=" +:+ dq +:+ "40" +:+ dq +:+ "></h1>
<p align=" +:+ dq +:+ "center" +:+ dq +:+ "><img src=" +:+ dq +:+ "https://cdna.artstation.com/p/assets/images/images/028/102/058/original/pixel-jeff-matrix-s.gif?1593487263" +:+ dq +:+ " width=" +:+ dq +:+ "600" +:+ dq +:+ " height=" +:+ dq +:+ "300" +:+ dq +:+ " /></p>

### :woman_technologist: About Me :
Я Full Stack разработчик.
- 🔱 Я работаю инженером-программистом и вношу свой вклад во фронтенд для создания веб-приложений. <img src=" +:+ dq +:+ "h" +:+ dq +:+ " alt=" +:+ dq +:+ dq +:+ " height=" +:+ dq +:+ "20px" +:+ dq +:+ " />
- ⚙️ Я пишу ботов для Discord и их бэкенд-примеры на своем Discord сервере. <a href=" +:+ dq +:+ "https://discord.gg/qsvPPE9YvJ" +:+ dq +:+ ">
        <img src=" +:+ dq +:+ "https://encrypted-tbn0.gstatic.com/images?q=tbn:ANd9GcTT4je-CowV-arhhLNwE84rd___C9IiS1-gHPxB_mM1oqbsAJEeX71iH5QHBZ28EhFhf68&usqp=CAU" +:+ dq +:+ " alt=" +:+ dq +:+ dq +:+ " height=" +:+ dq +:+ "20px" +:+ dq +:+ " />
    </a>
- ⚡ В свободное время я решаю задачи на GeeksforGeeks и прокачиваю свой мозг.

---

# "
    +:+ name
    +:+ "
<p>
".

(** The icon appended for one language (line 624). *)
Definition devicon_img (url lang : string) : string :=
    "<img src=" +:+ dq
    +:+ url
    +:+ dq +:+ " title=" +:+ dq
    +:+ lang
    +:+ dq +:+ " alt=" +:+ dq
    +:+ lang
    +:+ dq +:+ " width=" +:+ dq +:+ "40" +:+ dq +:+ " height=" +:+ dq +:+ "40" +:+ dq +:+ "/> ".

(** The badges appended for a GitHub repository (line 629). *)
Definition project_badges (github_user github_repo_name : string) : string :=
    "
![GitHub repo size](https://img.shields.io/github/repo-size/"
    +:+ github_user
    +:+ "/"
    +:+ github_repo_name
    +:+ ")
![GitHub last commit](https://img.shields.io/github/last-commit/"
    +:+ github_user
    +:+ "/"
    +:+ github_repo_name
    +:+ ")
![GitHub top language](https://img.shields.io/github/languages/top/"
    +:+ github_user
    +:+ "/"
    +:+ github_repo_name
    +:+ ")
".

(** [readme_template_content], last part (line 634).  It is an f-string: the
    three placeholders, written with doubled braces in the source, are
    escapes for single braces, so the text holds
    [{project_structure_content}], [{contributing_content}] and
    [{license_content}]. *)
Definition readme_sections (description overview features technologies installation usage structure : string) : string :=
    "
        
"
    +:+ description
    +:+ "

## Содержание

- [Описание](#описание)
- [Функциональные возможности](#функциональные-возможности)
- [Технологический стек](#технологический-стек)
- [Установка](#установка)
- [Примеры использования](#примеры-использования)
- [Лицензия](#лицензия)
- [Контакты](#контакты)

## Описание
"
    +:+ overview
    +:+ "

## Функциональные возможности
"
    +:+ features
    +:+ "

## Технологический стек
"
    +:+ technologies
    +:+ "

## Установка
"
    +:+ installation
    +:+ "

## Примеры использования
"
    +:+ usage
    +:+ "

## Структура проекта
"
    +:+ structure
    +:+ "
{project_structure_content}

## Вклад
{contributing_content}

## Лицензия
{license_content}

## Контакты
- **TELEGRAM**: [4elobrek9](http://t.me/+13262155064)
- **GitHub**: [4elobrek9](https://github.com/4elobrek9)
- **Discord**: [qsvPPE9YvJ](https://discord.gg/qsvPPE9YvJ)
- **TikTok**: [4elobrek9_original](https://www.tiktok.com/@4elobrek9_original)

---

### 🔥 My Stats :
[![Top Langs](https://github-readme-stats.vercel.app/api/top-langs/?username=4elobre9&layout=compact&theme=vision-friendly-dark)](https://github.com/anuraghazra/github-readme-stats)

---

### ✍️ Blog Posts : 
- [Help me understand this software. I wrote it in delirium](https://github.com/4elobrek9/JARVIS)

---

Спасибо за внимание! Надеюсь, вы найдете этот репозиторий полезным!
<p align=" +:+ dq +:+ "center" +:+ dq +:+ "><img src=" +:+ dq +:+ "https://media.giphy.com/media/LnQJEfWOk1Zprd6IA/giphy.gif" +:+ dq +:+ " width=" +:+ dq +:+ "50" +:+ dq +:+ "></p>
".

(** [self.file_extensions] (line 41) *)
Definition file_extensions : list (string * string) :=
    [(".py", "Python");
     (".js", "JavaScript");
     (".ts", "TypeScript");
     (".java", "Java");
     (".kt", "Kotlin");
     (".go", "Go");
     (".rs", "Rust");
     (".rb", "Ruby");
     (".php", "PHP");
     (".sh", "Bash");
     (".md", "Markdown");
     (".html", "HTML");
     (".css", "CSS");
     (".scss", "SASS");
     (".json", "JSON");
     (".yml", "YAML");
     (".yaml", "YAML");
     (".toml", "TOML");
     (".dockerfile", "Docker");
     (".sql", "SQL");
     (".c", "C");
     (".cpp", "C++");
     (".h", "C/C++ Header");
     (".hpp", "C++ Header");
     (".cs", "C#");
     (".swift", "Swift");
     (".r", "R");
     (".pl", "Perl");
     (".lua", "Lua");
     (".vue", "Vue.js");
     (".jsx", "React JSX");
     (".tsx", "React TSX")].

(** [devicon_map] of [generate_readme] (line 598) *)
Definition devicon_map : list (string * string) :=
    [("Python", "https://github.com/devicons/devicon/blob/master/icons/python/python-original.svg?raw=true");
     ("JavaScript", "https://github.com/devicons/devicon/blob/master/icons/javascript/javascript-original.svg?raw=true");
     ("TypeScript", "https://github.com/devicons/devicon/blob/master/icons/typescript/typescript-original.svg?raw=true");
     ("Java", "https://github.com/devicons/devicon/blob/master/icons/java/java-original-wordmark.svg?raw=true");
     ("Go", "https://github.com/devicons/devicon/blob/master/icons/go/go-original.svg?raw=true");
     ("Rust", "https://github.com/devicons/devicon/blob/master/icons/rust/rust-plain.svg?raw=true");
     ("Ruby", "https://github.com/devicons/devicon/blob/master/icons/ruby/ruby-original.svg?raw=true");
     ("PHP", "https://github.com/devicons/devicon/blob/master/icons/php/php-original.svg?raw=true");
     ("HTML", "https://github.com/devicons/devicon/blob/master/icons/html5/html5-original.svg?raw=true");
     ("CSS", "https://github.com/devicons/devicon/blob/master/icons/css3/css3-plain-wordmark.svg?raw=true");
     ("React JSX", "https://github.com/devicons/devicon/blob/master/icons/react/react-original.svg?raw=true");
     ("Vue.js", "https://github.com/devicons/devicon/blob/master/icons/vuejs/vuejs-original.svg?raw=true");
     ("NodeJS", "https://github.com/devicons/devicon/blob/master/icons/nodejs/nodejs-original.svg?raw=true");
     ("MySQL", "https://github.com/devicons/devicon/blob/master/icons/mysql/mysql-original-wordmark.svg?raw=true");
     ("Git", "https://github.com/devicons/devicon/blob/master/icons/git/git-original-wordmark.svg?raw=true");
     ("Spring", "https://github.com/devicons/devicon/blob/master/icons/spring/spring-original-wordmark.svg?raw=true");
     ("Material UI", "https://github.com/devicons/devicon/blob/master/icons/materialui/materialui-original.svg?raw=true");
     ("Flutter", "https://github.com/devicons/devicon/blob/master/icons/flutter/flutter-original.svg?raw=true");
     ("Redux", "https://github.com/devicons/devicon/blob/master/icons/redux/redux-original.svg?raw=true");
     ("Gatsby", "https://github.com/devicons/devicon/blob/master/icons/gatsby/gatsby-original.svg?raw=true");
     ("AWS", "https://github.com/devicons/devicon/blob/master/icons/amazonwebservices/amazonwebservices-plain-wordmark.svg?raw=true");
     ("Postman", "https://www.vectorlogo.zone/logos/getpostman/getpostman-icon.svg")].

(** The sections substituted when the answer does not parse (line 551). *)
Definition fallback_sections : list (string * string) :=
    [("project_description", "Не удалось сгенерировать описание проекта.");
     ("project_overview_content", "Не удалось сгенерировать обзор проекта.");
     ("features_content", "Не удалось сгенерировать функциональные возможности.");
     ("technologies_content", "Не удалось сгенерировать технологический стек.");
     ("installation_content", "Не удалось сгенерировать инструкции по установке.");
     ("usage_examples_content", "Не удалось сгенерировать примеры использования.");
     ("project_structure_description", "Не удалось сгенерировать описание структуры проекта.")].

(** The properties of [response_schema] with their descriptions, and its
    required keys (line 496). *)
Definition schema_properties : list (string * string) :=
    [("project_description", "Краткое, цепляющее описание проекта. 1-2 предложения.");
     ("project_overview_content", "Подробный обзор проекта, его целей и архитектуры. Не менее 3-4 предложений.");
     ("features_content", "Список ключевых функций и возможностей проекта в виде маркированного списка. Каждый пункт должен быть на русском языке.");
     ("technologies_content", "Список основных технологий, языков программирования и фреймворков, использованных в проекте, в виде маркированного списка. Каждый пункт должен быть на русском языке.");
     ("installation_content", "Подробные инструкции по установке и запуску проекта. Включите команды для клонирования, установки зависимостей (примеры для pip, npm) и запуска. Используйте блоки кода Markdown.");
     ("usage_examples_content", "Практические примеры использования проекта. Включите фрагменты кода или сценарии, демонстрирующие основной функционал. Используйте блоки кода Markdown.");
     ("project_structure_description", "Краткое вводное описание логики структуры проекта. Не более 2-3 предложений.")].

Definition required_keys : list string :=
    ["project_description"; "project_overview_content"; "features_content"; "technologies_content"; "installation_content"; "usage_examples_content"; "project_structure_description"].

(** The default of each [generated_sections.get] (lines 636 to 664). *)
Definition section_defaults : list (string * string) :=
    [("project_description", "Краткое описание проекта не сгенерировано.");
     ("project_overview_content", "Обзор проекта не сгенерирован.");
     ("features_content", "Функциональные возможности не сгенерированы.");
     ("technologies_content", "Технологический стек не сгенерирован.");
     ("installation_content", "Инструкции по установке не сгенерированы.");
     ("usage_examples_content", "Примеры использования не сгенерированы.");
     ("project_structure_description", "Описание структуры проекта не сгенерировано.")].

(** The analysis stored when no chunk was analysed (line 461). *)
Definition analysis_failed : string :=
    "Не удалось получить анализ файла.".

(** The text that replaces the contribution token (line 737). *)
Definition contributing_text : string :=
    "Мы приветствуем вклад в этот проект! Если вы хотите внести свой вклад, пожалуйста, следуйте этим рекомендациям:
<ol>
    <li>Форкните репозиторий.</li>
    <li>Создайте новую ветку для ваших изменений: <code>git checkout -b feature/your-feature-name</code></li>
    <li>Внесите свои изменения и закоммитьте их: <code>git commit -m " +:+ dq +:+ "Add new feature" +:+ dq +:+ "</code></li>
    <li>Отправьте изменения в свой форк: <code>git push origin feature/your-feature-name</code></li>
    <li>Создайте Pull Request.</li>
</ol>
Мы всегда рады новым идеям и помощи в развитии проекта!".

(** The two license sentences (lines 751 and 755). *)
Definition license_default_sentence : string :=
    "Этот проект лицензирован под лицензией MIT. Подробности можно найти в файле [LICENSE](LICENSE).".

(** Texts of [_format_files_analysis] and of the section prompt. *)
Definition files_analysis_unavailable : string :=
    "Анализ файлов недоступен.".

Definition languages_undetermined : string :=
    "Не определены".

Definition unknown_text : string :=
    "неизвестно".

Definition license_found_sentence (path remote_url : string) : string :=
    "Этот проект лицензирован под лицензией, указанной в файле [`"
    +:+ path
    +:+ "`]("
    +:+ remote_url
    +:+ "/blob/main/"
    +:+ path
    +:+ ").".

(** One entry of [_format_files_analysis] (line 712). *)
Definition file_analysis_entry (path language analysis : string) : string :=
    "### Файл: `"
    +:+ path
    +:+ "`
Язык: "
    +:+ language
    +:+ "

"
    +:+ analysis
    +:+ "
".

(** [combine_message] of [analyze_file] (line 446). *)
Definition combine_message_text (n path : string) : string :=
    "Объединяем "
    +:+ n
    +:+ " частей анализа для "
    +:+ path.



(** * The program

    [RepositoryDocumenter.__init__] sets the two ignore lists once; the
    table of extensions, [file_extensions], is among the literals above. *)

Definition ignore_dirs : list string :=
  [".git"; "__pycache__"; "node_modules"; "venv"; "env"; ".idea"; ".vscode"; ".github"].

Definition ignore_files : list string :=
  [".gitignore"; "README.md"; "LICENSE"; "CONTRIBUTING.md"; "CODE_OF_CONDUCT.md"].

(** The three deferred placeholders [_postprocess_readme] looks for. *)
Definition project_structure_token : string := "{{project_structure_content}}".
Definition contributing_token : string := "{{contributing_content}}".
Definition license_token : string := "{{license_content}}".

(** The languages [analyze_file] does not analyse. *)
Definition skipped_languages : list string :=
  ["Unknown"; "JSON"; "YAML"; "TOML"; "Markdown"].

Definition max_chunk_size : nat := 5000.

(** [repo_info], the dictionary [get_repo_info] builds. *)
Record repo_info : Type := {
  name : string;
  description : string;
  files : list descriptor;
  last_commit : gmap string string;
  language_stats : list (string * nat);
  remote_url : string
}.

(** [response_schema] of [generate_readme] *)
Definition response_schema : gmap string jvalue :=
  <["type" := JStr "OBJECT"]>
  (<["properties" :=
       JObj (list_to_map
               (map (fun p : string * string =>
                       (fst p, JObj (<["type" := JStr "STRING"]>
                                     (<["description" := JStr (snd p)]> ∅))))
                    schema_properties))]>
  (<["required" := JArr (map JStr required_keys)]> ∅)).

(** The fallback of [generate_readme] when the sections do not parse. *)
Definition fallback_object : jvalue :=
  JObj (list_to_map (map (fun p : string * string => (fst p, JStr (snd p)))
                         fallback_sections)).

(** ** State

    The pipeline is sequential.  Its state is the list of the calls made to
    the model, each with the text [analyze_with_llm] returned for it, and the
    list of the item assignments [file_info[k] = v] done so far. *)
Record state : Type := {
  http_log : list (request * string);
  setitem_log : list (string * pyval)
}.

Definition initial_state : state := {| http_log := []; setitem_log := [] |}.

Definition M (A : Type) : Type := state -> result A * state.

#[global] Instance M_ret : MRet M := fun A a st => (Ok a, st).
#[global] Instance M_bind : MBind M := fun A B f m st =>
  match m st with
  | (Ok a, st') => f a st'
  | (Raise e, st') => (Raise e, st')
  end.

Definition lift {A : Type} (r : result A) : M A := fun st => (r, st).

(** [file_info[k] = v]; the dictionary is handed on, as the one object it is. *)
Definition setitem (d : descriptor) (k : string) (v : pyval) : M descriptor :=
  fun st =>
    (Ok (<[k := v]> d),
     {| http_log := http_log st; setitem_log := setitem_log st ++ [(k, v)] |}).

(** One line of the rendered project structure.  A file line prints the
    name of the file only; the relative path is kept beside it to tell which
    file the line stands for. *)
Inductive tree_line : Type :=
| DirLine (level : nat) (basename : string)
| FileLine (level : nat) (file : string) (rel_path : string).

Definition render_line (l : tree_line) : string :=
  match l with
  | DirLine level basename =>
      PyStr.times (PyStr.times " " 4) level +:+ basename +:+ "/" +:+ nl
  | FileLine level file _ =>
      PyStr.times (PyStr.times " " 4) level +:+ file +:+ nl
  end.

(** [content[i:i+max_chunk_size] for i in range(0, len(content), max_chunk_size)] *)
Definition split_chunks (size : nat) (content : string) : list string :=
  map (fun i => PyStr.slice i (i + size) content)
      (PyStr.range 0 (PyStr.len content) size).

Section RepositoryDocumenter.

Context (env : environment) (self : documenter).

(** *** Scanner *)

Definition _read_file_content (f : file) : pyval :=
  match read_utf8 f with
  | ReadOk content => VStr content
  | ReadUnicodeDecodeError =>
      match read_latin1 f with
      | ReadOk content => VStr content
      | _ => VNone
      end
  | ReadError => VNone
  end.

(** The dictionary literal of [_scan_repository]. *)
Definition file_info (rel_path file_ext language : string) (content : pyval)
  : descriptor :=
  <["path" := VStr rel_path]>
  (<["extension" := VStr file_ext]>
  (<["language" := VStr language]>
  (<["content" := content]>
  (<["analysis" := VNone]> ∅)))).

Definition keep_dir (d : string) : bool := negb (PyStr.mem d ignore_dirs).

Definition file_ext_of (file : string) : string :=
  PyStr.lower (OsPath.splitext_ext file).

Definition scan_directory (item : walk_item) : list descriptor :=
  flat_map (fun entry : string * file =>
              let '(file, f) := entry in
              if PyStr.mem file ignore_files then []
              else
                let file_ext := file_ext_of file in
                [file_info (OsPath.relpath (below item) file)
                           file_ext
                           (default "Unknown" (assoc file_ext file_extensions))
                           (_read_file_content f)])
           (filenames item).

Definition _scan_repository : list descriptor :=
  flat_map scan_directory (os_walk keep_dir (repo_path self) [] (repo_tree env)).

Definition tally (stats : list (string * nat)) (file : string)
  : list (string * nat) :=
  match assoc (file_ext_of file) file_extensions with
  | Some lang => increment lang stats
  | None => stats
  end.

Definition _get_language_stats : list (string * nat) :=
  fold_left (fun stats item =>
               fold_left (fun stats entry => tally stats (fst entry))
                         (filenames item) stats)
            (os_walk keep_dir (repo_path self) [] (repo_tree env))
            [].

Definition get_repo_info : repo_info :=
  let remote_url := git_remote_url env in
  let repo_name :=
    if negb (String.eqb remote_url "") then
      let path_parts := PyStr.split "/" (urlparse_path env remote_url) in
      let repo_name := List.last path_parts "" in
      if PyStr.endswith repo_name ".git"
      then PyStr.take (PyStr.len repo_name - 4) repo_name
      else repo_name
    else if negb (String.eqb (repo_path self) "") then
      OsPath.basename (repo_path self)
    else unknown_text in
  {| name := repo_name;
     description := "Автоматически сгенерированное описание проекта";
     files := _scan_repository;
     last_commit := git_last_commit env;
     language_stats := _get_language_stats;
     remote_url := remote_url |}.

(** *** Language Model Client *)

(** [response.raise_for_status()]: requests raises HTTPError for the client
    and server error statuses, 400 to 599, and for no other. *)
Definition raise_for_status (r : response) : result unit :=
  if ((400 <=? status_code r) && (status_code r <? 600))%Z
  then Raise HTTPError else Ok tt.

Definition llm_request (prompt : string) (response_mime_type : option string)
    (response_schema : option (gmap string jvalue)) : request :=
  {| url := ollama_url self;
     data_model := model_name self;
     data_prompt := prompt;
     data_stream := false;
     data_format :=
       match response_mime_type with
       | Some m =>
           if String.eqb m "" then None
           else Some (List.last (PyStr.split "/" m) "")
       | None => None
       end;
     data_options :=
       match response_schema with
       | Some s =>
           if (size s =? 0)%nat then None
           else Some (<["response_schema" := JObj s]> ∅)
       | None => None
       end |}.

(** The body of the [try]: post, check the status, decode the body, take
    [result.get("response", "").strip()]. *)
Definition post_and_read (history : list request) (req : request)
  : result string :=
  match requests_post env history req with
  | PostRaises e => Raise e
  | PostReturns r =>
      _ ← raise_for_status r;
      match json r with
      | JsonRaises e => Raise e
      | JsonReturns (JObj fields) =>
          match fields !! "response" with
          | None => Ok (PyStr.strip "")
          | Some (JStr s) => Ok (PyStr.strip s)
          | Some _ => Raise AttributeError
          end
      | JsonReturns _ => Raise AttributeError
      end
  end.

Definition analyze_with_llm (prompt : string)
    (response_mime_type : option string)
    (response_schema : option (gmap string jvalue)) : M string :=
  fun st =>
    let req := llm_request prompt response_mime_type response_schema in
    let returns (s : string) : result string * state :=
      (Ok s, {| http_log := http_log st ++ [(req, s)];
                setitem_log := setitem_log st |}) in
    match post_and_read (map fst (http_log st)) req with
    | Ok s => returns s
    | Raise e =>
        if is_RequestException e then returns ""  (* except RequestException *)
        else if is_JSONDecodeError e then returns ""  (* except JSONDecodeError *)
        else returns ""                               (* except Exception *)
    end.

(** *** Per-File Analyzer *)

(** The [for] loop over the chunks. *)
Fixpoint analyze_chunks (template : string) (chunks : list string)
    (analysis_results : list string) : M (list string) :=
  match chunks with
  | [] => mret analysis_results
  | chunk :: rest =>
      analysis ← analyze_with_llm (PyStr.replace template "{{chunk_content}}" chunk)
                                  None None;
      analyze_chunks template rest
        (if String.eqb analysis "" then analysis_results
         else analysis_results ++ [analysis])
  end.

Definition analyze_file (file_info : descriptor) : M descriptor :=
  content ← lift (getitem file_info "content");
  skip ← (if truthy content
          then language ← lift (getitem file_info "language");
               mret (val_in language skipped_languages)
          else mret true);
  if (skip : bool) then mret file_info
  else
    path ← lift (getitem file_info "path");
    language ← lift (getitem file_info "language");
    tag ← lift (val_lower language);
    let template :=
      prompt_template (format path) (format language) (PyStr.replace tag " " "") in
    let chunks := split_chunks max_chunk_size (format content) in
    analysis_results ← analyze_chunks template chunks [];
    if (1 <? length analysis_results)%nat then
      let combine_message :=
        combine_message_text (PyStr.of_nat (length analysis_results)) (format path) in
      analysis ← analyze_with_llm (combine_prompt analysis_results) None None;
      file_info ← setitem file_info "analysis" (VStr analysis);
      setitem file_info "_combine_message" (VStr combine_message)
    else
      file_info ← setitem file_info "analysis"
                    (VStr (match analysis_results with
                           | only :: _ => only
                           | [] => analysis_failed
                           end));
      setitem file_info "_combine_message" VNone.

(** *** Project Summary Synthesizer *)

(** The loop of [_format_files_analysis]. *)
Fixpoint format_files (files : list descriptor) (formatted : list string)
  : result (list string) :=
  match files with
  | [] => Ok formatted
  | file :: rest =>
      analysis ← getitem file "analysis";
      if truthy analysis && negb (String.eqb (format analysis) analysis_failed)
      then
        path ← getitem file "path";
        language ← getitem file "language";
        format_files rest
          (formatted ++ [file_analysis_entry (format path) (format language)
                                              (format analysis)])
      else format_files rest formatted
  end.

Definition _format_files_analysis (files : list descriptor) : result string :=
  formatted ← format_files files [];
  Ok (match formatted with
      | [] => files_analysis_unavailable
      | _ => PyStr.join nl formatted
      end).

(** [github_user] and [github_repo_name] *)
Definition github_parts (remote_url : string) : string * string :=
  if PyStr.contains "github.com" remote_url then
    let path_parts :=
      List.filter (fun part => negb (String.eqb part ""))
                  (PyStr.split "/" (urlparse_path env remote_url)) in
    if (2 <=? length path_parts)%nat
    then (nth (length path_parts - 2) path_parts "",
          PyStr.replace (List.last path_parts "") ".git" "")
    else ("", "")
  else ("", "").

(** [generated_sections], from what [json.loads] does on the answer. *)
Definition generated_sections (loaded : option jvalue) : jvalue :=
  match loaded with
  | Some v => v
  | None => fallback_object
  end.

(** [f"{generated_sections.get(key, default)}"] *)
Definition section_get (generated_sections : jvalue) (key default : string)
  : result string :=
  match generated_sections with
  | JObj fields =>
      match fields !! key with
      | Some (JStr s) => Ok s
      | Some v => Ok (str_of_json env v)
      | None => Ok default
      end
  | _ => Raise AttributeError
  end.

Definition section_default (key : string) : string :=
  default "" (assoc key section_defaults).

Definition section (generated_sections : jvalue) (key : string) : result string :=
  section_get generated_sections key (section_default key).

(** The icons appended for the languages found. *)
Definition devicons (language_stats : list (string * nat)) : string :=
  fold_left (fun acc entry =>
               match assoc (fst entry) devicon_map with
               | Some icon => acc +:+ devicon_img icon (fst entry)
               | None => acc
               end)
            language_stats "".

(** [readme_template_content], as handed to [_postprocess_readme]. *)
Definition readme_template_content (info : repo_info) (generated_sections : jvalue)
  : result string :=
  let '(github_user, github_repo_name) := github_parts (remote_url info) in
  let head :=
    readme_banner (name info) +:+ devicons (language_stats info)
    +:+ nl +:+ "</p>" +:+ nl +:+ nl
    +:+ (if negb (String.eqb github_user "") && negb (String.eqb github_repo_name "")
         then project_badges github_user github_repo_name else "") in
  description ← section generated_sections "project_description";
  overview ← section generated_sections "project_overview_content";
  features ← section generated_sections "features_content";
  technologies ← section generated_sections "technologies_content";
  installation ← section generated_sections "installation_content";
  usage ← section generated_sections "usage_examples_content";
  structure ← section generated_sections "project_structure_description";
  Ok (head +:+ readme_sections description overview features technologies
                               installation usage structure).

(** *** Document Renderer *)

(** The walk of [_postprocess_readme], with no pruning of directories: one
    line for each directory, one for each file whose name is not ignored.
    [project_structure_str] is the lines in order between two fences. *)
Definition structure_of (item : walk_item) : list tree_line :=
  let level :=
    PyStr.count (PyStr.replace (root item) (repo_path self) "") OsPath.sep in
  DirLine level (OsPath.basename (root item))
  :: flat_map (fun entry : string * file =>
                 if PyStr.mem (fst entry) ignore_files then []
                 else [FileLine (level + 1) (fst entry)
                                (OsPath.relpath (below item) (fst entry))])
              (filenames item).

Definition structure_lines : list tree_line :=
  flat_map structure_of
           (os_walk (fun _ => true) (repo_path self) [] (repo_tree env)).

Definition project_structure_str : string :=
  "```" +:+ nl +:+ String.concat "" (map render_line structure_lines)
  +:+ "```" +:+ nl.

(** The search for the license among the scanned files: the path of the
    first one whose lower-cased path is ["license"]. *)
Fixpoint find_license (files : list descriptor) : result (option string) :=
  match files with
  | [] => Ok None
  | file :: rest =>
      path ← getitem file "path";
      lowered ← val_lower path;
      if String.eqb lowered "license" then Ok (Some (format path))
      else find_license rest
  end.

Definition _postprocess_readme (content : string) (info : repo_info)
  : result string :=
  let final_readme := content in
  let final_readme :=
    if PyStr.contains project_structure_token final_readme
    then PyStr.replace final_readme project_structure_token project_structure_str
    else final_readme in
  let final_readme :=
    if PyStr.contains contributing_token final_readme
    then PyStr.replace final_readme contributing_token contributing_text
    else final_readme in
  if PyStr.contains license_token final_readme then
    found ← find_license (files info);
    Ok (PyStr.replace final_readme license_token
          (match found with
           | Some path => license_found_sentence path (remote_url info)
           | None => license_default_sentence
           end))
  else Ok final_readme.

(** *** The pipeline *)

(** The first loop of [generate_readme]. *)
Fixpoint analyze_files (files : list descriptor) : M (list descriptor) :=
  match files with
  | [] => mret []
  | file_info :: rest =>
      file_info ← analyze_file file_info;
      rest ← analyze_files rest;
      mret (file_info :: rest)
  end.

Definition with_files (info : repo_info) (files : list descriptor) : repo_info :=
  {| name := name info;
     description := description info;
     files := files;
     last_commit := last_commit info;
     language_stats := language_stats info;
     remote_url := remote_url info |}.

Definition generate_readme (info : repo_info) : M string :=
  analyzed ← analyze_files (files info);
  let info := with_files info analyzed in
  files_analysis ← lift (_format_files_analysis (files info));
  let languages :=
    match language_stats info with
    | [] => languages_undetermined
    | stats => PyStr.join ", " (map fst stats)
    end in
  let commit (key : string) := default unknown_text (last_commit info !! key) in
  json_content_str ←
    analyze_with_llm
      (llm_prompt_for_sections (name info) (remote_url info) languages
         (commit "message") (commit "author") (commit "date") files_analysis)
      (Some "application/json") (Some response_schema);
  let sections := generated_sections (json_loads env json_content_str) in
  content ← lift (readme_template_content info sections);
  lift (_postprocess_readme content info).

End RepositoryDocumenter.


(** * The working copy

    [__init__] opens the repository: a local path is opened where it is, a
    URL is cloned below [temp_repos], next to the script.  [cleanup] removes
    [temp_repos].  The file system, git and the clock are a [host]: each of
    its answers may depend on the operations done before.  Console output is
    not modelled, and [urlparse] is taken to return. *)
Module Lifecycle.

(** What [shutil.rmtree] does at one call. *)
Inductive rmtree_outcome : Type :=
| Removed
| RaisesPermissionError
| RaisesOther.              (* any other exception *)

(** The operations the program asks for, in order: [os.makedirs],
    [shutil.rmtree], [Repo.clone_from], [Repo(path)], [repo.close()] and
    [time.sleep]. *)
Inductive operation : Type :=
| Makedirs (path : string)
| Rmtree (path : string)
| CloneFrom (url to_path : string)
| OpenRepo (path : string)
| CloseRepo
| Sleep (seconds : nat).

(** For the calls that return nothing of interest, [true] stands for a
    return and [false] for an exception. *)
Record host : Type := {
  (** [os.path.dirname(os.path.abspath(__file__))] *)
  script_dir : string;
  (** [urlparse(u).path] *)
  urlparse_path : string -> string;
  makedirs : list operation -> string -> bool;
  path_exists : list operation -> string -> bool;
  rmtree : list operation -> string -> rmtree_outcome;
  clone_from : list operation -> string -> string -> bool;
  open_repo : list operation -> string -> bool;
  close_repo : list operation -> bool
}.

(** The fields of [self] that opening and cleaning up touch; [repo] tells
    whether [self.repo] holds a [Repo] object ([true]) or [None]. *)
Record instance : Type := {
  repo_path : string;
  temp_dir : option string;
  repo : bool
}.

(** A method returns, or raises an exception; [self] is as the method
    leaves it. *)
Inductive outcome : Type :=
| Returns (self : instance)
| Raises (self : instance).

(** [p.startswith(('http://', 'https://', 'git://'))] *)
Definition startswith_url (p : string) : bool :=
  String.prefix "http://" p || String.prefix "https://" p || String.prefix "git://" p.

Definition initialize_repository (h : host) (self : instance) (done : list operation)
  : outcome * list operation :=
  if startswith_url (repo_path self) then
    let temp_dir := OsPath.join (script_dir h) "temp_repos" in
    let self :=
      {| repo_path := repo_path self; temp_dir := Some temp_dir; repo := repo self |} in
    let created := done ++ [Makedirs temp_dir] in
    if negb (makedirs h done temp_dir) then (Raises self, created)
    else
      let repo_name :=
        List.last (PyStr.split "/" (urlparse_path h (repo_path self))) "" in
      let repo_name :=
        if PyStr.endswith repo_name ".git"
        then PyStr.take (PyStr.len repo_name - 4) repo_name
        else repo_name in
      let clone_path := OsPath.join temp_dir repo_name in
      let failed :=
        {| repo_path := repo_path self; temp_dir := Some temp_dir; repo := false |} in
      let clone (done : list operation) : outcome * list operation :=
        if clone_from h done (repo_path self) clone_path
        then (Returns {| repo_path := clone_path;
                         temp_dir := Some temp_dir;
                         repo := true |},
              done ++ [CloneFrom (repo_path self) clone_path])
        else (Raises failed, done ++ [CloneFrom (repo_path self) clone_path]) in
      if path_exists h created clone_path then
        match rmtree h created clone_path with
        | Removed => clone (created ++ [Rmtree clone_path])
        | _ => (Raises failed, created ++ [Rmtree clone_path])
        end
      else clone created
  else
    let failed :=
      {| repo_path := repo_path self; temp_dir := temp_dir self; repo := false |} in
    if negb (path_exists h done (repo_path self)) then (Raises failed, done)
    else if open_repo h done (repo_path self)
    then (Returns {| repo_path := repo_path self;
                     temp_dir := temp_dir self;
                     repo := true |},
          done ++ [OpenRepo (repo_path self)])
    else (Raises failed, done ++ [OpenRepo (repo_path self)]).

(** [RepositoryDocumenter(repo_path, ...)]: the fields are set, then the
    repository is opened. *)
Definition __init__ (h : host) (repo_path : string) : outcome * list operation :=
  initialize_repository h
    {| repo_path := repo_path; temp_dir := None; repo := false |} [].

Definition max_retries : nat := 5.

(** The loop [for i in range(max_retries)] of [cleanup], from the rounds
    that are left. *)
Fixpoint remove_temp_dir (h : host) (temp_dir : string) (rounds : list nat)
    (done : list operation) : list operation :=
  match rounds with
  | [] => done
  | i :: rest =>
      match rmtree h done temp_dir with
      | Removed => done ++ [Rmtree temp_dir]
      | RaisesPermissionError =>
          if (i <? max_retries - 1)%nat
          then remove_temp_dir h temp_dir rest (done ++ [Rmtree temp_dir] ++ [Sleep 1])
          else remove_temp_dir h temp_dir rest (done ++ [Rmtree temp_dir])
      | RaisesOther => done ++ [Rmtree temp_dir]
      end
  end.

Definition cleanup (h : host) (self : instance) (done : list operation)
  : instance * list operation :=
  match temp_dir self with
  | Some dir =>
      if negb (String.eqb dir "") && path_exists h done dir then
        let '(self, done) :=
          if repo self then
            if close_repo h done
            then ({| repo_path := repo_path self;
                     temp_dir := temp_dir self;
                     repo := false |},
                  done ++ [CloseRepo])
            else (self, done ++ [CloseRepo])
          else (self, done) in
        (self, remove_temp_dir h dir (PyStr.range 0 max_retries 1) done)
      else (self, done)
  | None => (self, done)
  end.

End Lifecycle.

(** * The script

    The name under which the script saves the document (lines 928 and 929):
    the name of the repository with every space, slash and backslash
    turned into an underscore, between a fixed prefix and [.md]. *)

Definition repo_name_for_file (name : string) : string :=
  PyStr.replace (PyStr.replace (PyStr.replace name " " "_") "/" "_") "\" "_".

Definition output_path (name : string) : string :=
  "README_FOR_" +:+ repo_name_for_file name +:+ ".md".

(** * Vocabulary of the properties *)

(** [ceil(n / d)] *)
Definition ceil_div (n d : nat) : nat := (n + d - 1) / d.

(** ** Descriptors *)

(** The path of a descriptor, and whether its extension is in the
    classification table. *)
Definition descriptor_path (d : descriptor) : string :=
  match d !! "path" with
  | Some v => format v
  | None => ""
  end.

Definition classified (d : descriptor) : bool :=
  match d !! "extension" with
  | Some (VStr file_ext) =>
      match assoc file_ext file_extensions with
      | Some _ => true
      | None => false
      end
  | _ => false
  end.

(** A descriptor whose path is a [str], as the scanner builds them. *)
Definition has_path (d : descriptor) : Prop :=
  exists path, d !! "path" = Some (VStr path).

(** The license sentence [_postprocess_readme] picks for a list of
    descriptors: the first whose lower-cased path is ["license"] decides. *)
Definition is_license (d : descriptor) : bool :=
  String.eqb (PyStr.lower (descriptor_path d)) "license".

Definition license_sentence (files : list descriptor) (remote_url : string) : string :=
  match List.find is_license files with
  | Some d => license_found_sentence (descriptor_path d) remote_url
  | None => license_default_sentence
  end.

(** ** The files each traversal sees *)

Section Traversals.

Context (env : environment) (self : documenter).

(** The relative paths in the file listing. *)
Definition listed_paths : list string :=
  map descriptor_path (_scan_repository env self).

(** The files the loop of [_get_language_stats] counts, each with the
    language it is counted under. *)
Definition tallied_in (item : walk_item) : list (string * string) :=
  flat_map (fun entry : string * file =>
              match assoc (file_ext_of (fst entry)) file_extensions with
              | Some lang => [(OsPath.relpath (below item) (fst entry), lang)]
              | None => []
              end)
           (filenames item).

Definition tallied_files : list (string * string) :=
  flat_map tallied_in (os_walk keep_dir (repo_path self) [] (repo_tree env)).

(** The relative paths of the files the project structure shows. *)
Definition rendered_path (l : tree_line) : list string :=
  match l with
  | DirLine _ _ => []
  | FileLine _ _ rel_path => [rel_path]
  end.

Definition rendered_paths : list string :=
  flat_map rendered_path (structure_lines env self).

End Traversals.

(** A step of the walk that lists no ignored file name. *)
Definition none_ignored (item : walk_item) : Prop :=
  forall entry, In entry (filenames item) -> PyStr.mem (fst entry) ignore_files = false.

(** A tree with no excluded directory name and no ignored file name. *)
Fixpoint clean_tree (d : dir) : bool :=
  match d with
  | MkDir subdirs files =>
      forallb (fun entry : string * file => negb (PyStr.mem (fst entry) ignore_files))
              files
      && forallb (fun entry : string * dir =>
                    keep_dir (fst entry) && clean_tree (snd entry))
                 subdirs
  end.

(** ** Section objects *)

(** A section object that holds some of the seven required keys and lacks
    others. *)
Definition holds_key (sections : jvalue) (key : string) : Prop :=
  match sections with
  | JObj fields => is_Some (fields !! key)
  | _ => False
  end.

Definition partial_sections (sections : jvalue) : Prop :=
  exists present absent,
    In present required_keys /\ In absent required_keys /\
    holds_key sections present /\ ~ holds_key sections absent.

(** ** Calls to the model *)

(** A call that failed: the post raised (no connection, a timeout), the
    status is a client or server error, or the body does not decode. *)
Definition call_failed (outcome : post_outcome) : Prop :=
  match outcome with
  | PostRaises _ => True
  | PostReturns r =>
      (400 <= status_code r < 600)%Z \/ exists e, json r = JsonRaises e
  end.

(** The request [analyze_file] makes for one chunk, and the one it makes to
    merge the partial analyses. *)
Definition chunk_request (self : documenter) (template chunk : string) : request :=
  llm_request self (PyStr.replace template "{{chunk_content}}" chunk) None None.

Definition consolidation_request (self : documenter) (analysis_results : list string)
  : request :=
  llm_request self (combine_prompt analysis_results) None None.

Definition nonempty (s : string) : bool := negb (String.eqb s "").

(** The state after one more call. *)
Definition logged (st : state) (req : request) (answer : string) : state :=
  {| http_log := http_log st ++ [(req, answer)]; setitem_log := setitem_log st |}.

(** ** Runs *)


Definition answers_of {A : Type} (run : A * state) : list string :=
  map snd (http_log (snd run)).

Definition document_has {A : Type} (needle : string) (run : result string * A)
  : bool :=
  match fst run with
  | Ok document => PyStr.contains needle document
  | Raise _ => false
  end.

(** ** Characters of a string *)

(** Whether a character stands somewhere in a string, and the last
    character of a string. *)
Fixpoint has_char (c : ascii) (s : string) : bool :=
  match s with
  | "" => false
  | String a r => Ascii.eqb c a || has_char c r
  end.

Fixpoint last_char (s : string) : option ascii :=
  match s with
  | "" => None
  | String a r =>
      match last_char r with
      | None => Some a
      | Some z => Some z
      end
  end.

(** The line that opens and closes the structure block. *)
Definition fence : string := "```" +:+ nl.

(** ** Sample inputs *)

Definition text_file (content : string) : file :=
  {| read_utf8 := ReadOk content; read_latin1 := ReadOk content |}.

Definition sample_self : documenter :=
  {| repo_path := "/tmp/repo";
     model_name := "saiga";
     ollama_url := "http://localhost:11434/api/generate" |}.

(** The repository of the specification's scenario: [a.py] of 200
    characters, [b.json] and [LICENSE]. *)
Definition scenario_tree : dir :=
  MkDir [] [("a.py", text_file (PyStr.times "x" 200));
            ("b.json", text_file "{}");
            ("LICENSE", text_file "MIT License")].

(** A repository with version-control metadata and a README; every file
    has an extension of the classification table. *)
Definition hooked_tree : dir :=
  MkDir [(".git", MkDir [] [("hook.py", text_file "print(0)")])]
        [("main.py", text_file "print(1)");
         ("README.md", text_file "# demo")].

(** A clean repository. *)
Definition tidy_tree : dir :=
  MkDir [("src", MkDir [] [("lib.rs", text_file "fn main() {}")])]
        [("main.py", text_file "print(1)"); ("Makefile", text_file "all:")].

(** A repository whose license file is spelled [License]. *)
Definition licensed_tree : dir :=
  MkDir [] [("main.py", text_file "print(1)"); ("License", text_file "MIT License")].

(** The model endpoint is not reachable: every post raises ConnectionError.
    [json.loads] is then only asked about the empty string, which it
    refuses. *)
Definition offline (tree : dir) : environment :=
  {| repo_tree := tree;
     git_remote_url := "";
     git_last_commit := ∅;
     requests_post := fun _ _ => PostRaises ConnectionError;
     json_loads := fun _ => None;
     urlparse_path := fun u => u;
     str_of_json := fun _ => "" |}.

(** An answer with [status] and the JSON body [{"response": answer}]. *)
Definition answering (status : Z) (answer : string) : response :=
  {| status_code := status;
     json := JsonReturns (JObj (<["response" := JStr answer]> ∅));
     text := "" |}.

(** An endpoint that answers every request with status 300. *)
Definition multiple_choices : environment :=
  {| repo_tree := MkDir [] [];
     git_remote_url := "";
     git_last_commit := ∅;
     requests_post := fun _ _ => PostReturns (answering 300 "ok");
     json_loads := fun _ => None;
     urlparse_path := fun u => u;
     str_of_json := fun _ => "" |}.



(** A text that holds the three tokens. *)
Definition token_text : string :=
  project_structure_token +:+ nl +:+ contributing_token +:+ nl +:+ license_token.

(** Closed statements about sample inputs are settled by evaluation. *)
Ltac by_evaluation :=
  intros; repeat match goal with |- _ /\ _ => split end; vm_compute; reflexivity.


(** ** Trimmed texts *)

(** A text that neither begins nor ends with white space ([PyStr.is_space],
    the white space of [str.isspace]). *)
Definition trimmed (s : string) : bool :=
  match s with
  | "" => true
  | String c _ => negb (PyStr.is_space c)
  end
  && match last_char s with
     | None => true
     | Some z => negb (PyStr.is_space z)
     end.

(** ** The files of the tree *)

(** The files one step of a walk lists, each with the names of the
    directories that lead to it from the top. *)
Definition located_in (item : walk_item) : list (list string * string) :=
  map (fun entry : string * file => (below item, fst entry)) (filenames item).

(** Every file of the tree, in the order of a walk that prunes nothing; the
    path [os.path.relpath] gives for such a file. *)
Definition tree_files (env : environment) (self : documenter)
  : list (list string * string) :=
  flat_map located_in (os_walk (fun _ => true) (repo_path self) [] (repo_tree env)).

Definition path_of (located : list string * string) : string :=
  OsPath.relpath (fst located) (snd located).

(** No directory on the way to the file has an excluded name; the name of
    the file is not ignored; its extension is in the classification table. *)
Definition in_kept_dirs (located : list string * string) : bool :=
  forallb keep_dir (fst located).

Definition not_ignored (located : list string * string) : bool :=
  negb (PyStr.mem (snd located) ignore_files).

Definition known_extension (located : list string * string) : bool :=
  match assoc (file_ext_of (snd located)) file_extensions with
  | Some _ => true
  | None => false
  end.

(** ** Sample remotes *)

(** A repository whose remote URL is [url], with [path] what [urlparse]
    gives as its path; the model is not reachable. *)
Definition cloned_from (url path : string) : environment :=
  {| repo_tree := scenario_tree;
     git_remote_url := url;
     git_last_commit := ∅;
     requests_post := fun _ _ => PostRaises ConnectionError;
     json_loads := fun _ => None;
     urlparse_path := fun _ => path;
     str_of_json := fun _ => "" |}.

(** ** Descriptors along the pipeline *)

(** A descriptor as the scanner builds it, and a descriptor that holds what
    the steps after the analysis read: a path and a language that are
    [str], and an analysis. *)
Definition scanned (d : descriptor) : Prop :=
  exists path ext language content, d = file_info path ext language content.

Definition analysed (d : descriptor) : Prop :=
  (exists path, d !! "path" = Some (VStr path))
  /\ (exists language, d !! "language" = Some (VStr language))
  /\ is_Some (d !! "analysis").

(** The number of chunks [analyze_file] cuts the content of a descriptor
    into; none for a descriptor it skips. *)
Definition chunks_of (d : descriptor) : nat :=
  match d !! "content", d !! "language" with
  | Some content, Some language =>
      if truthy content && negb (val_in language skipped_languages)
      then ceil_div (PyStr.len (format content)) max_chunk_size
      else 0
  | _, _ => 0
  end.

(** Whether the content of a descriptor makes two chunks or more. *)
Definition many_chunks (d : descriptor) : bool := (1 <? chunks_of d)%nat.

(** The request for the sections that [generate_readme] makes with a
    prompt. *)
Definition sections_request (self : documenter) (prompt : string) : request :=
  llm_request self prompt (Some "application/json") (Some response_schema).

(** ** The analyses handed to the sections prompt *)

(** The text a descriptor holds under a key, for the keys that hold one. *)
Definition descriptor_text (key : string) (d : descriptor) : string :=
  match d !! key with
  | Some v => format v
  | None => ""
  end.

(** A descriptor with an analysis to show: a text that is not empty and is
    not the failure sentence; the entry [_format_files_analysis] writes for
    it. *)
Definition usable_analysis (d : descriptor) : bool :=
  match d !! "analysis" with
  | Some analysis =>
      truthy analysis && negb (String.eqb (format analysis) analysis_failed)
  | None => false
  end.

Definition analysis_entry (d : descriptor) : string :=
  file_analysis_entry (descriptor_text "path" d) (descriptor_text "language" d)
                      (descriptor_text "analysis" d).

(** Two analysed descriptors, the second with the failure sentence. *)
Definition analysed_pair : list descriptor :=
  [<["analysis" := VStr "Entry point."]> (file_info "main.py" ".py" "Python" (VStr "print(1)"));
   <["analysis" := VStr analysis_failed]> (file_info "lib.rs" ".rs" "Rust" (VStr "fn f() {}"))].

(** ** Attempts to remove the temporary directory *)

(** [k] attempts that failed, each followed by the pause of one second. *)
Definition retries (dir : string) (k : nat) : list Lifecycle.operation :=
  concat (repeat [Lifecycle.Rmtree dir; Lifecycle.Sleep 1] k).

(** A machine on which everything succeeds, except that the first two
    attempts to remove a directory are refused. *)
Definition busy_host : Lifecycle.host :=
  {| Lifecycle.script_dir := "/opt/tool";
     Lifecycle.urlparse_path := fun _ => "/user/repo.git";
     Lifecycle.makedirs := fun _ _ => true;
     Lifecycle.path_exists := fun _ _ => true;
     Lifecycle.rmtree := fun done _ =>
       if (length done <? 6)%nat then Lifecycle.RaisesPermissionError
       else Lifecycle.Removed;
     Lifecycle.clone_from := fun _ _ _ => true;
     Lifecycle.open_repo := fun _ _ => true;
     Lifecycle.close_repo := fun _ => true |}.

(** The same machine for a URL whose path ends in two dots. *)
Definition dotted_host : Lifecycle.host :=
  {| Lifecycle.script_dir := "/opt/tool";
     Lifecycle.urlparse_path := fun _ => "/user/..";
     Lifecycle.makedirs := fun _ _ => true;
     Lifecycle.path_exists := fun _ _ => true;
     Lifecycle.rmtree := fun _ _ => Lifecycle.Removed;
     Lifecycle.clone_from := fun _ _ _ => true;
     Lifecycle.open_repo := fun _ _ => true;
     Lifecycle.close_repo := fun _ => true |}.

(** A documenter that holds a clone below [/opt/tool/temp_repos]. *)
Definition cloned_instance : Lifecycle.instance :=
  {| Lifecycle.repo_path := "/opt/tool/temp_repos/repo";
     Lifecycle.temp_dir := Some "/opt/tool/temp_repos";
     Lifecycle.repo := true |}.

(** ** The files that go to the model *)

(** A descriptor whose content is a text that is not empty and whose
    extension the table gives a language that is not skipped. *)
Definition sent_to_model (d : descriptor) : bool :=
  match d !! "content", d !! "extension" with
  | Some content, Some (VStr file_ext) =>
      truthy content
      && match assoc file_ext file_extensions with
         | Some language => negb (PyStr.mem language skipped_languages)
         | None => false
         end
  | _, _ => false
  end.

(** ** Indentation of the project structure *)

(** A tree whose names are file names: not empty, no separator in them. *)
Definition proper_name (n : string) : bool :=
  negb (String.eqb n "") && negb (has_char "/" n).

Fixpoint proper_names (d : dir) : bool :=
  match d with
  | MkDir subdirs files =>
      forallb (fun entry : string * file => proper_name (fst entry)) files
      && forallb (fun entry : string * dir =>
                    proper_name (fst entry) && proper_names (snd entry))
                 subdirs
  end.

(** What follows the top in the [root] of a step: a separator before each
    directory name. *)
Definition below_path (below : list string) : string :=
  String.concat "" (map (fun n => OsPath.sep +:+ n) below).

(** The level [_postprocess_readme] computes for a directory: the one of
    the line it writes for it. *)
Definition level_of (self : documenter) (item : walk_item) : nat :=
  match structure_of self item with
  | DirLine level _ :: _ => level
  | _ => 0
  end.

(** A documenter for the relative path [repo]. *)
Definition relative_self : documenter :=
  {| repo_path := "repo";
     model_name := "saiga";
     ollama_url := "http://localhost:11434/api/generate" |}.

(** * Properties *)

(** ** Strings *)
Module PyStrFacts.
Import PyStr.

Lemma len_take (n : nat) (s : string) : len (take n s) = Nat.min n (len s).
Proof.
  revert s; induction n as [|n IH]; intros [|c s]; simpl; auto.
Qed.

Lemma len_drop (n : nat) (s : string) : len (drop n s) = len s - n.
Proof.
  revert s; induction n as [|n IH]; intros [|c s]; simpl; auto.
Qed.

Lemma take_drop (n : nat) (s : string) : take n s +:+ drop n s = s.
Proof.
  revert s; induction n as [|n IH]; intros [|c s]; simpl; auto.
  unfold String.app; simpl. f_equal. apply IH.
Qed.

Lemma drop_drop (n m : nat) (s : string) : drop n (drop m s) = drop (m + n) s.
Proof.
  revert s; induction m as [|m IH]; intros s; simpl; auto.
  destruct s as [|c s]; [destruct n; reflexivity | apply IH].
Qed.

Lemma drop_all (n : nat) (s : string) : len s <= n -> drop n s = "".
Proof.
  revert s; induction n as [|n IH]; intros [|c s]; simpl; intros H; auto; try lia.
  apply IH; lia.
Qed.

Lemma len_slice (i j : nat) (s : string) : len (slice i j s) <= j - i.
Proof. unfold slice. rewrite len_take. lia. Qed.

(** [range] lists the multiples of the step below the stop. *)
Lemma range_fuel_multiples (step fuel i stop : nat) :
  0 < step -> stop - i <= fuel ->
  range_fuel fuel i stop step
  = map (fun k => i + k * step) (seq 0 ((stop - i + step - 1) / step)).
Proof.
  intros Hstep. revert i. induction fuel as [|fuel IH]; intros i Hfuel.
  - replace (stop - i) with 0 by lia. simpl.
    rewrite Nat.div_small by lia. reflexivity.
  - simpl. destruct (Nat.ltb_spec i stop) as [Hlt|Hge].
    + rewrite IH by lia.
      replace ((stop - i + step - 1) / step)
        with (S ((stop - (i + step) + step - 1) / step)).
      * rewrite <- cons_seq, <- seq_shift. simpl. rewrite map_map.
        f_equal; [lia|]. apply map_ext. intros k. lia.
      * destruct (Nat.le_gt_cases stop (i + step)) as [Hle|Hgt].
        -- replace (stop - (i + step)) with 0 by lia. simpl.
           rewrite (Nat.div_small (step - 1)) by lia.
           apply (Nat.div_unique _ _ 1 (stop - i - 1)); lia.
        -- replace (stop - i + step - 1) with (stop - (i + step) + step - 1 + 1 * step) by lia.
           rewrite Nat.div_add by lia. lia.
    + replace (stop - i) with 0 by lia. simpl.
      rewrite Nat.div_small by lia. reflexivity.
Qed.

Lemma range_multiples (stop step : nat) :
  0 < step ->
  range 0 stop step = map (fun k => k * step) (seq 0 ((stop + step - 1) / step)).
Proof.
  intros Hstep. unfold range.
  rewrite range_fuel_multiples by lia.
  rewrite Nat.sub_0_r. reflexivity.
Qed.

(** Joining the slices that start at the elements of a range gives back
    what the range covers. *)
Lemma concat_slices (step : nat) (s : string) (fuel i : nat) :
  0 < step -> len s - i <= fuel ->
  String.concat "" (map (fun j => slice j (j + step) s)
                        (range_fuel fuel i (len s) step))
  = drop i s.
Proof.
  intros Hstep. revert i. induction fuel as [|fuel IH]; intros i Hfuel.
  - simpl. rewrite drop_all by lia. reflexivity.
  - simpl. destruct (Nat.ltb_spec i (len s)) as [Hlt|Hge].
    + simpl map.
      assert (Hcons : forall x l, String.concat "" (x :: l) = x +:+ String.concat "" l).
      { intros x [|y l]; simpl; [|reflexivity].
        clear. induction x; simpl; unfold String.app in *; simpl; congruence. }
      rewrite Hcons, IH by lia.
      unfold slice. replace (i + step - i) with step by lia.
      rewrite <- drop_drop. apply take_drop.
    + simpl. rewrite drop_all by lia. reflexivity.
Qed.

End PyStrFacts.

(** ** Searching and replacing *)

Module ReplaceFacts.
Import PyStr.

Lemma app_cons (c : ascii) (s t : string) : String c s +:+ t = String c (s +:+ t).
Proof. reflexivity. Qed.

Lemma app_assoc (s t u : string) : (s +:+ t) +:+ u = s +:+ (t +:+ u).
Proof.
  induction s as [|c s IH]; [reflexivity|]. rewrite !app_cons, IH. reflexivity.
Qed.

Lemma app_empty_r (s : string) : s +:+ "" = s.
Proof. induction s as [|c s IH]; [reflexivity|]. rewrite app_cons, IH. reflexivity. Qed.

Lemma prefix_empty (s : string) : String.prefix "" s = true.
Proof. destruct s; reflexivity. Qed.

Lemma prefix_cons (a b : ascii) (p s : string) :
  String.prefix (String a p) (String b s)
  = if Ascii.eqb a b then String.prefix p s else false.
Proof.
  simpl. destruct (ascii_dec a b) as [->|Hne].
  - rewrite Ascii.eqb_refl. reflexivity.
  - destruct (Ascii.eqb_spec a b); [contradiction|reflexivity].
Qed.

Lemma prefix_of_empty (p : string) : String.prefix p "" = true -> p = "".
Proof. destruct p; [reflexivity|discriminate]. Qed.

(** [old] is a prefix of [s] exactly when the first [len old] characters of
    [s] are [old]. *)
Lemma prefix_take (p s : string) :
  String.prefix p s = true <-> take (len p) s = p.
Proof.
  revert s. induction p as [|a p IH]; intros s.
  - rewrite prefix_empty. simpl. tauto.
  - destruct s as [|b s]; [simpl; split; discriminate|].
    rewrite prefix_cons. simpl.
    destruct (Ascii.eqb_spec a b) as [->|Hne].
    + rewrite IH. split; [intros ->; reflexivity|intros H; injection H; auto].
    + split; [discriminate|intros H; injection H; intros; congruence].
Qed.

Lemma contains_cons (x : string) (c : ascii) (s : string) :
  contains x (String c s) = String.prefix x (String c s) || contains x s.
Proof. reflexivity. Qed.

Lemma contains_prefix (x s : string) :
  String.prefix x s = true -> contains x s = true.
Proof.
  destruct s as [|c s]; [auto|]. intros H. rewrite contains_cons, H. reflexivity.
Qed.

Lemma contains_drop (x s : string) (k : nat) :
  contains x s = false -> contains x (drop k s) = false.
Proof.
  revert s. induction k as [|k IH]; intros s H; [exact H|].
  destruct s as [|c s]; [exact H|]. simpl drop. apply IH.
  rewrite contains_cons in H. apply orb_false_iff in H. tauto.
Qed.

Lemma contains_empty (x : string) : x <> "" -> contains x "" = false.
Proof. destruct x; [congruence|reflexivity]. Qed.

(** A string with a last character is what stands before it, then it. *)
Lemma last_char_split (s : string) (z : ascii) :
  last_char s = Some z -> exists front, s = front +:+ String z "".
Proof.
  induction s as [|a s IH]; [discriminate|]. simpl.
  destruct (last_char s) as [y|] eqn:E.
  - intros [= ->]. destruct (IH eq_refl) as [front ->].
    exists (String a front). reflexivity.
  - intros [= ->]. destruct s; [|simpl in E; destruct (last_char s); discriminate].
    exists "". reflexivity.
Qed.

Lemma last_char_app (s t : string) (z : ascii) :
  last_char t = Some z -> last_char (s +:+ t) = Some z.
Proof.
  intros H. induction s as [|a s IH]; [exact H|].
  rewrite app_cons. simpl. rewrite IH. reflexivity.
Qed.

(** An occurrence of [x] cannot reach across a character that [x] does not
    hold. *)
Lemma prefix_across (x front : string) (z : ascii) (rest : string) :
  has_char z x = false ->
  String.prefix x ((front +:+ String z "") +:+ rest)
  = String.prefix x (front +:+ String z "").
Proof.
  revert x. induction front as [|c front IH]; intros x Hz.
  - destruct x as [|a x]; [reflexivity|].
    change (("" +:+ String z "") +:+ rest) with (String z rest).
    change ("" +:+ String z "") with (String z "").
    rewrite !prefix_cons. simpl in Hz. apply orb_false_iff in Hz as [Hza _].
    rewrite Ascii.eqb_sym in Hza. rewrite Hza. reflexivity.
  - destruct x as [|a x]; [reflexivity|].
    rewrite !app_cons, !prefix_cons.
    destruct (Ascii.eqb a c); [|reflexivity].
    apply IH. simpl in Hz. apply orb_false_iff in Hz. tauto.
Qed.

Lemma contains_across (x front : string) (z : ascii) (rest : string) :
  x <> "" -> has_char z x = false ->
  contains x ((front +:+ String z "") +:+ rest)
  = contains x (front +:+ String z "") || contains x rest.
Proof.
  intros Hx Hz. induction front as [|c front IH].
  - change (("" +:+ String z "") +:+ rest) with (String z rest).
    change ("" +:+ String z "") with (String z "").
    rewrite !contains_cons, (contains_empty x Hx), orb_false_r.
    f_equal. exact (prefix_across x "" z rest Hz).
  - rewrite !app_cons, !contains_cons, IH, orb_assoc. f_equal. f_equal.
    exact (prefix_across x (String c front) z rest Hz).
Qed.

Lemma contains_app (x s t : string) (z : ascii) :
  x <> "" -> last_char s = Some z -> has_char z x = false ->
  contains x (s +:+ t) = contains x s || contains x t.
Proof.
  intros Hx Hlast Hz. destruct (last_char_split s z Hlast) as [front ->].
  apply contains_across; assumption.
Qed.

(** Joining pieces that each end in a character [x] does not hold: [x]
    occurs in the whole only if it occurs in a piece. *)
Lemma concat_cons (piece : string) (pieces : list string) :
  String.concat "" (piece :: pieces) = piece +:+ String.concat "" pieces.
Proof.
  destruct pieces; simpl; [|reflexivity]. symmetry. apply app_empty_r.
Qed.

Lemma concat_pieces_app (front back : list string) :
  String.concat "" (front ++ back)
  = String.concat "" front +:+ String.concat "" back.
Proof.
  induction front as [|piece front IH]; [reflexivity|].
  rewrite <- List.app_comm_cons, !concat_cons, IH, app_assoc. reflexivity.
Qed.

Lemma contains_concat (x : string) (z : ascii) (pieces : list string) :
  x <> "" -> has_char z x = false ->
  Forall (fun piece => last_char piece = Some z /\ contains x piece = false) pieces ->
  contains x (String.concat "" pieces) = false.
Proof.
  intros Hx Hz Hall. induction Hall as [|piece pieces [Hlast Hfree] _ IH].
  - apply contains_empty, Hx.
  - rewrite concat_cons, (contains_app x piece _ z Hx Hlast Hz), Hfree, IH.
    reflexivity.
Qed.

(** *** [replace] *)

Lemma replace_from_skip (old new : string) (k : nat) (s : string) :
  replace_from old new k s = replace_from old new 0 (drop k s).
Proof.
  revert k. induction s as [|c s IH]; intros k.
  - destruct k; reflexivity.
  - destruct k as [|k]; [reflexivity|]. simpl. apply IH.
Qed.

Lemma replace_cons (o : ascii) (os new : string) (c : ascii) (s : string) :
  replace (String c s) (String o os) new
  = if String.prefix (String o os) (String c s)
    then new +:+ replace (drop (len os) s) (String o os) new
    else String c (replace s (String o os) new).
Proof.
  unfold replace. cbn [replace_from].
  destruct (String.prefix (String o os) (String c s)); [|reflexivity].
  rewrite replace_from_skip.
  replace (len (String o os) - 1) with (len os) by (unfold len; simpl; lia).
  reflexivity.
Qed.

Lemma replace_empty (o : ascii) (os new : string) :
  replace "" (String o os) new = "".
Proof. reflexivity. Qed.

(** Where [old] does not occur nothing is replaced. *)
Lemma replace_absent (s old new : string) :
  contains old s = false -> replace s old new = s.
Proof.
  destruct old as [|o os].
  { destruct s; discriminate. }
  induction s as [|c s IH]; intros H; [reflexivity|].
  rewrite contains_cons in H. apply orb_false_iff in H as [Hhere Hlater].
  rewrite replace_cons, Hhere, IH by exact Hlater. reflexivity.
Qed.

(** Up to the first character of [new], the result of a replacement is the
    text it started from. *)
Lemma replace_take (o : ascii) (os : string) (n : ascii) (ns : string)
    (s : string) (k : nat) :
  has_char n (take k (replace s (String o os) (String n ns))) = false ->
  take k (replace s (String o os) (String n ns)) = take k s.
Proof.
  revert k. induction s as [|c s IH]; intros k.
  - rewrite replace_empty. reflexivity.
  - rewrite replace_cons.
    destruct (String.prefix (String o os) (String c s)).
    + destruct k as [|k]; [reflexivity|].
      rewrite app_cons. simpl. rewrite Ascii.eqb_refl. discriminate.
    + destruct k as [|k]; [reflexivity|]. simpl.
      intros H. apply orb_false_iff in H as [_ H]. rewrite IH by exact H.
      reflexivity.
Qed.

Lemma has_char_take_prefix (z : ascii) (x s : string) :
  has_char z x = false -> String.prefix x s = true ->
  has_char z (take (len x) s) = false.
Proof.
  intros Hz Hp. apply prefix_take in Hp. rewrite Hp. exact Hz.
Qed.

(** After a replacement, [x] does not occur when it neither occurs in [new]
    nor holds the first or the last character of [new], and either [x] is
    the text that was replaced or [x] did not occur before. *)
Lemma replace_clears (x : string) (o : ascii) (os : string)
    (n : ascii) (ns : string) (z : ascii) :
  x <> "" ->
  last_char (String n ns) = Some z ->
  has_char n x = false -> has_char z x = false ->
  contains x (String n ns) = false ->
  forall s,
    x = String o os \/ contains x s = false ->
    contains x (replace s (String o os) (String n ns)) = false.
Proof.
  intros Hx Hlast Hn Hz Hnew s.
  remember (len s) as bound eqn:Hbound.
  assert (Hle : len s <= bound) by lia. clear Hbound.
  revert s Hle. induction bound as [|bound IH]; intros s Hle Hcase.
  - destruct s; [|simpl in Hle; lia]. rewrite replace_empty.
    apply contains_empty, Hx.
  - destruct s as [|c s]; [rewrite replace_empty; apply contains_empty, Hx|].
    simpl in Hle. rewrite replace_cons.
    destruct (String.prefix (String o os) (String c s)) eqn:Hold.
    + rewrite (contains_app x _ _ z Hx Hlast Hz), Hnew. simpl.
      apply IH.
      * pose proof (PyStrFacts.len_drop (len os) s). unfold len in *. lia.
      * destruct Hcase as [Heq|Hfree]; [left; exact Heq|right].
        apply contains_drop. rewrite contains_cons in Hfree.
        apply orb_false_iff in Hfree. tauto.
    + rewrite contains_cons. apply orb_false_iff. split.
      * destruct (String.prefix x (String c (replace s (String o os) (String n ns))))
          eqn:Hp; [|reflexivity].
        exfalso.
        assert (Hsame : String.prefix x (String c s) = true).
        { destruct x as [|a x]; [congruence|].
          rewrite prefix_cons in Hp |- *.
          destruct (Ascii.eqb a c); [|discriminate].
          simpl in Hn. apply orb_false_iff in Hn as [_ Hn].
          pose proof (has_char_take_prefix n x _ Hn Hp) as Hfree.
          apply replace_take in Hfree.
          apply prefix_take. rewrite <- Hfree. apply prefix_take. exact Hp. }
        destruct Hcase as [->|Hfree]; [congruence|].
        apply contains_prefix in Hsame. congruence.
      * apply IH; [lia|].
        destruct Hcase as [Heq|Hfree]; [left; exact Heq|right].
        rewrite contains_cons in Hfree. apply orb_false_iff in Hfree. tauto.
Qed.

(** *** Characters *)

Lemma has_char_app (c : ascii) (s t : string) :
  has_char c (s +:+ t) = has_char c s || has_char c t.
Proof.
  induction s as [|a s IH]; [reflexivity|].
  rewrite app_cons. simpl. rewrite IH, orb_assoc. reflexivity.
Qed.

Lemma contains_needs_char (c : ascii) (xs s : string) :
  has_char c s = false -> contains (String c xs) s = false.
Proof.
  induction s as [|a s IH]; [reflexivity|]. simpl has_char.
  intros H. apply orb_false_iff in H as [Hc Hs].
  rewrite contains_cons, prefix_cons, Hc, IH by exact Hs. reflexivity.
Qed.

Lemma lower_char_brace (a : ascii) :
  Ascii.eqb "{" (lower_char a) = Ascii.eqb "{" a.
Proof.
  destruct a as [[] [] [] [] [] [] [] []]; reflexivity.
Qed.

Lemma has_brace_lower (s : string) : has_char "{" (lower s) = has_char "{" s.
Proof.
  induction s as [|a s IH]; [reflexivity|]. cbn [lower has_char].
  rewrite lower_char_brace, IH. reflexivity.
Qed.

Lemma has_char_drop (c : ascii) (k : nat) (s : string) :
  has_char c s = false -> has_char c (drop k s) = false.
Proof.
  revert s. induction k as [|k IH]; intros s H; [exact H|].
  destruct s as [|a s]; [exact H|]. simpl drop. apply IH.
  simpl in H. apply orb_false_iff in H. tauto.
Qed.

Lemma has_char_replace (c : ascii) (s : string) (o : ascii) (os new : string) :
  has_char c s = false -> has_char c new = false ->
  has_char c (replace s (String o os) new) = false.
Proof.
  intros Hs Hnew. remember (len s) as bound eqn:Hbound.
  assert (Hle : len s <= bound) by lia. clear Hbound.
  revert s Hs Hle. induction bound as [|bound IH]; intros s Hs Hle.
  - destruct s; [reflexivity|simpl in Hle; lia].
  - destruct s as [|a s]; [reflexivity|]. simpl in Hle.
    rewrite replace_cons.
    pose proof Hs as Hs'. simpl in Hs'. apply orb_false_iff in Hs' as [Ha Hrest].
    destruct (String.prefix (String o os) (String a s)).
    + rewrite has_char_app, Hnew. simpl. apply IH.
      * apply has_char_drop, Hrest.
      * pose proof (PyStrFacts.len_drop (len os) s). unfold len in *. lia.
    + simpl. rewrite Ha. simpl. apply IH; [exact Hrest|lia].
Qed.

(** *** Occurrences in a concatenation *)

Lemma contains_app_r (sub s t : string) :
  PyStr.contains sub t = true -> PyStr.contains sub (s +:+ t) = true.
Proof.
  intros H. induction s as [|c s IH]; [exact H|].
  change (String c s +:+ t) with (String c (s +:+ t)).
  cbn [PyStr.contains]. rewrite IH. apply orb_true_r.
Qed.

(** An occurrence of [x] does not start in a text without the first
    character of [x]. *)
Lemma contains_app_skip (c : ascii) (xs s t : string) :
  has_char c s = false ->
  contains (String c xs) (s +:+ t) = contains (String c xs) t.
Proof.
  induction s as [|a s IH]; [reflexivity|]. simpl has_char.
  intros H. apply orb_false_iff in H as [Hc Hs].
  rewrite app_cons, contains_cons, prefix_cons, Hc, IH by exact Hs.
  reflexivity.
Qed.

End ReplaceFacts.

(** ** Chunking *)

Section Chunking.

Variable size : nat.
Hypothesis size_positive : 0 < size.

Lemma split_chunks_length (content : string) :
  length (split_chunks size content) = ceil_div (PyStr.len content) size.
Proof.
  unfold split_chunks, ceil_div.
  rewrite PyStrFacts.range_multiples by assumption.
  rewrite !length_map, length_seq. reflexivity.
Qed.

Lemma split_chunks_nth (content : string) (k : nat) :
  k < length (split_chunks size content) ->
  nth k (split_chunks size content) ""
  = PyStr.slice (k * size) ((k + 1) * size) content.
Proof.
  intros Hk. rewrite split_chunks_length in Hk. unfold ceil_div in Hk.
  unfold split_chunks.
  rewrite PyStrFacts.range_multiples by assumption.
  rewrite map_map.
  rewrite (nth_indep _ "" (PyStr.slice (0 * size) (0 * size + size) content))
    by (rewrite length_map, length_seq; exact Hk).
  rewrite (map_nth (fun k => PyStr.slice (k * size) (k * size + size) content)).
  rewrite seq_nth by exact Hk. simpl. f_equal. lia.
Qed.

Lemma split_chunks_bounded (content : string) :
  Forall (fun chunk => PyStr.len chunk <= size) (split_chunks size content).
Proof.
  clear size_positive.
  unfold split_chunks. apply List.Forall_forall. intros chunk Hin.
  apply in_map_iff in Hin as [i [<- _]].
  pose proof (PyStrFacts.len_slice i (i + size) content). lia.
Qed.

Lemma split_chunks_concat (content : string) :
  String.concat "" (split_chunks size content) = content.
Proof.
  unfold split_chunks, PyStr.range.
  rewrite PyStrFacts.concat_slices by (assumption || lia).
  reflexivity.
Qed.

End Chunking.

Lemma max_chunk_size_positive : 0 < max_chunk_size.
Proof. unfold max_chunk_size. apply Nat.lt_0_succ. Qed.

(** C7.  The split of [analyze_file] cuts a content of length L into
    ceil(L / 5000) chunks of at most 5000 characters each; chunk number k is
    the slice from k * 5000 to (k + 1) * 5000, so the chunks follow one
    another without overlap, and joined in order they give the content
    back. *)
Theorem split_chunks_partition (content : string) :
  let chunks := split_chunks max_chunk_size content in
  length chunks = ceil_div (PyStr.len content) max_chunk_size
  /\ Forall (fun chunk => PyStr.len chunk <= max_chunk_size) chunks
  /\ (forall k, k < length chunks ->
        nth k chunks ""
        = PyStr.slice (k * max_chunk_size) ((k + 1) * max_chunk_size) content)
  /\ String.concat "" chunks = content.
Proof.
  pose proof max_chunk_size_positive as Hpos.
  intros chunks. split; [|split; [|split]].
  - apply split_chunks_length; exact Hpos.
  - apply split_chunks_bounded.
  - intros k Hk. apply split_chunks_nth; [exact Hpos | exact Hk].
  - apply split_chunks_concat; exact Hpos.
Qed.

(** ** Language Model Client *)

Section Client.

Context (env : environment) (self : documenter).

Lemma analyze_with_llm_returns prompt mime schema st :
  exists answer,
    analyze_with_llm env self prompt mime schema st
    = (Ok answer, logged st (llm_request self prompt mime schema) answer).
Proof.
  unfold analyze_with_llm, logged.
  destruct (post_and_read _ _ _) as [answer|e].
  - exists answer. reflexivity.
  - exists "". destruct (is_RequestException e), (is_JSONDecodeError e); reflexivity.
Qed.

Lemma post_and_read_failed history req :
  call_failed (requests_post env history req) ->
  exists e, post_and_read env history req = Raise e.
Proof.
  unfold post_and_read, call_failed.
  destruct (requests_post env history req) as [e|r].
  - intros _. exists e. reflexivity.
  - unfold raise_for_status. intros [Hstatus|[e He]].
    + exists HTTPError.
      destruct (Z.leb_spec 400 (status_code r)); [|lia].
      destruct (Z.ltb_spec (status_code r) 600); [|lia].
      reflexivity.
    + destruct ((400 <=? status_code r)%Z && (status_code r <? 600)%Z).
      * exists HTTPError. reflexivity.
      * exists e. simpl. rewrite He. reflexivity.
Qed.

End Client.

(** C6, as amended.  [analyze_with_llm] never raises, whatever the endpoint
    does; and when the post raises, the status is a client or server error
    (400 to 599, the statuses [raise_for_status] raises for) or the body does
    not decode, it returns the empty string. *)
Theorem analyze_with_llm_failure_sentinel
    (env : environment) (self : documenter) (prompt : string)
    (mime : option string) (schema : option (gmap string jvalue)) (st : state) :
  let req := llm_request self prompt mime schema in
  (exists answer,
     analyze_with_llm env self prompt mime schema st = (Ok answer, logged st req answer))
  /\ (call_failed (requests_post env (map fst (http_log st)) req) ->
      analyze_with_llm env self prompt mime schema st = (Ok "", logged st req "")).
Proof.
  intros req. split.
  - apply analyze_with_llm_returns.
  - intros Hfailed.
    destruct (post_and_read_failed env _ _ Hfailed) as [e He].
    unfold analyze_with_llm. fold req. rewrite He.
    destruct (is_RequestException e), (is_JSONDecodeError e); reflexivity.
Qed.

Lemma analyze_with_llm_failure_sentinel_witness :
  call_failed (requests_post (offline scenario_tree) [] (llm_request sample_self "p" None None))
  /\ analyze_with_llm (offline scenario_tree) sample_self "p" None None initial_state
     = (Ok "", logged initial_state (llm_request sample_self "p" None None) "").
Proof.
  split.
  - simpl. exact I.
  - apply (analyze_with_llm_failure_sentinel (offline scenario_tree) sample_self
             "p" None None initial_state).
    simpl. exact I.
Defined.

(** C6 as stated fails: a status outside 200-299 that is no error status
    (here 300) does not make [analyze_with_llm] return the empty string. *)
Lemma analyze_with_llm_non_2xx_answer :
  requests_post multiple_choices [] (llm_request sample_self "p" None None)
  = PostReturns (answering 300 "ok")
  /\ ~ (200 <= status_code (answering 300 "ok") < 300)%Z
  /\ fst (analyze_with_llm multiple_choices sample_self "p" None None initial_state)
     = Ok "ok".
Proof.
  split; [reflexivity|]. split; [simpl; lia|]. vm_compute. reflexivity.
Qed.

(** ** Per-File Analyzer *)

Lemma mem_In (x : string) (xs : list string) : PyStr.mem x xs = true <-> In x xs.
Proof.
  unfold PyStr.mem. rewrite existsb_exists. split.
  - intros [y [Hy Heq]]. apply String.eqb_eq in Heq. subst. exact Hy.
  - intros H. exists x. split; [exact H | apply String.eqb_refl].
Qed.

Section Analyzer.

Context (env : environment) (self : documenter).

Lemma file_info_lookup path ext language content :
  let fi := file_info path ext language content in
  fi !! "path" = Some (VStr path)
  /\ fi !! "extension" = Some (VStr ext)
  /\ fi !! "language" = Some (VStr language)
  /\ fi !! "content" = Some content
  /\ fi !! "analysis" = Some VNone
  /\ fi !! "_combine_message" = None.
Proof. repeat split; reflexivity. Qed.

(** A descriptor with falsy content, or of a skipped language, comes back
    as it is and the state is untouched. *)
Lemma analyze_file_skip path ext language content st :
  truthy content = false \/ PyStr.mem language skipped_languages = true ->
  analyze_file env self (file_info path ext language content) st
  = (Ok (file_info path ext language content), st).
Proof.
  intros H. unfold analyze_file, mbind, M_bind, lift, getitem.
  destruct (file_info_lookup path ext language content) as (_ & _ & Hl & Hc & _).
  rewrite Hc. destruct (truthy content) eqn:Ht.
  - destruct H as [H|H]; [discriminate|].
    rewrite Hl. cbn -[PyStr.mem]. rewrite H. reflexivity.
  - reflexivity.
Qed.

(** The loop over the chunks makes one call for each chunk, in order, and
    keeps the answers that are not empty. *)
Lemma analyze_chunks_run template chunks acc st :
  exists answers,
    length answers = length chunks
    /\ analyze_chunks env self template chunks acc st
       = (Ok (acc ++ List.filter nonempty answers),
          {| http_log := http_log st
                         ++ combine (map (chunk_request self template) chunks) answers;
             setitem_log := setitem_log st |}).
Proof.
  revert acc st. induction chunks as [|chunk rest IH]; intros acc st.
  - exists []. split; [reflexivity|]. simpl.
    rewrite !app_nil_r. destruct st; reflexivity.
  - simpl. unfold mbind, M_bind.
    destruct (analyze_with_llm_returns env self
                (PyStr.replace template "{{chunk_content}}" chunk) None None st)
      as [answer Hcall].
    rewrite Hcall.
    destruct (IH (if String.eqb answer "" then acc else acc ++ [answer])
                 (logged st (chunk_request self template chunk) answer))
      as [answers [Hlen Hrun]].
    exists (answer :: answers). split; [simpl; congruence|].
    unfold chunk_request at 1 in Hrun. rewrite Hrun. simpl.
    unfold nonempty at 2. destruct (String.eqb answer ""); simpl;
      rewrite <- ?app_assoc; reflexivity.
Qed.

(** What [analyze_file] does to a descriptor it does analyse. *)
Lemma analyze_file_run path ext language content st :
  truthy content = true -> PyStr.mem language skipped_languages = false ->
  let fi := file_info path ext language content in
  let template :=
    prompt_template path language (PyStr.replace (PyStr.lower language) " " "") in
  let chunks := split_chunks max_chunk_size (format content) in
  exists answers,
    length answers = length chunks
    /\ let results := List.filter nonempty answers in
       let chunk_log := combine (map (chunk_request self template) chunks) answers in
       if (1 <? length results)%nat then
         exists merged,
           let message :=
             VStr (combine_message_text (PyStr.of_nat (length results)) path) in
           analyze_file env self fi st
           = (Ok (<["_combine_message" := message]> (<["analysis" := VStr merged]> fi)),
              {| http_log := http_log st ++ chunk_log
                             ++ [(consolidation_request self results, merged)];
                 setitem_log := setitem_log st
                                ++ [("analysis", VStr merged);
                                    ("_combine_message", message)] |})
       else
         let analysis :=
           VStr (match results with only :: _ => only | [] => analysis_failed end) in
         analyze_file env self fi st
         = (Ok (<["_combine_message" := VNone]> (<["analysis" := analysis]> fi)),
            {| http_log := http_log st ++ chunk_log;
               setitem_log := setitem_log st
                              ++ [("analysis", analysis); ("_combine_message", VNone)] |}).
Proof.
  intros Ht Hlang fi template chunks.
  destruct (analyze_chunks_run template chunks [] st) as [answers [Hlen Hrun]].
  exists answers. split; [exact Hlen|].
  cbv zeta. simpl app in Hrun.
  destruct (file_info_lookup path ext language content) as (Hp & _ & Hl & Hc & _).
  assert (Hstep : analyze_file env self fi st
            = (let results := List.filter nonempty answers in
               if (1 <? length results)%nat then
                 analysis ← analyze_with_llm env self (combine_prompt results) None None;
                 file_info ← setitem fi "analysis" (VStr analysis);
                 setitem file_info "_combine_message"
                   (VStr (combine_message_text (PyStr.of_nat (length results)) path))
               else
                 file_info ← setitem fi "analysis"
                   (VStr (match results with only :: _ => only | [] => analysis_failed end));
                 setitem file_info "_combine_message" VNone)
              {| http_log := http_log st
                   ++ combine (map (chunk_request self template) chunks) answers;
                 setitem_log := setitem_log st |}).
  { subst fi. unfold analyze_file, mbind, M_bind, lift, getitem.
    rewrite Hc, Ht, Hl, Hp.
    cbn -[PyStr.mem analyze_chunks split_chunks prompt_template combine_prompt
          combine_message_text PyStr.of_nat PyStr.replace PyStr.lower
          analyze_with_llm setitem Nat.ltb].
    rewrite Hlang.
    cbn -[PyStr.mem analyze_chunks split_chunks prompt_template combine_prompt
          combine_message_text PyStr.of_nat PyStr.replace PyStr.lower
          analyze_with_llm setitem Nat.ltb].
    fold template. fold chunks. rewrite Hrun. reflexivity. }
  rewrite Hstep. cbv zeta.
  destruct (1 <? length (List.filter nonempty answers))%nat.
  - destruct (analyze_with_llm_returns env self
                (combine_prompt (List.filter nonempty answers)) None None
                {| http_log := http_log st
                     ++ combine (map (chunk_request self template) chunks) answers;
                   setitem_log := setitem_log st |})
      as [merged Hcall].
    exists merged. unfold mbind, M_bind. rewrite Hcall.
    unfold setitem, logged, consolidation_request.
    simpl. rewrite <- !app_assoc. reflexivity.
  - unfold mbind, M_bind, setitem. simpl. rewrite <- !app_assoc. reflexivity.
Qed.

End Analyzer.

(** C8.  A descriptor whose content is absent, or whose language is JSON,
    YAML, TOML, Markdown or Unknown, comes back from [analyze_file] as it
    was, with no call made to the model (the state, and with it the log of
    the calls, is the one before) and its analysis still [None]. *)
Theorem analyze_file_skips
    (env : environment) (self : documenter)
    (path ext language : string) (content : pyval) (st : state) :
  content = VNone \/ In language skipped_languages ->
  let fi := file_info path ext language content in
  analyze_file env self fi st = (Ok fi, st)
  /\ http_log (snd (analyze_file env self fi st)) = http_log st
  /\ fi !! "analysis" = Some VNone.
Proof.
  intros H fi.
  assert (Hrun : analyze_file env self fi st = (Ok fi, st)).
  { apply analyze_file_skip. destruct H as [->|H].
    - left. reflexivity.
    - right. apply mem_In, H. }
  rewrite Hrun. split; [|split]; reflexivity.
Qed.

Lemma analyze_file_skips_witness :
  In "JSON" skipped_languages
  /\ analyze_file (offline scenario_tree) sample_self
       (file_info "b.json" ".json" "JSON" (VStr "{}")) initial_state
     = (Ok (file_info "b.json" ".json" "JSON" (VStr "{}")), initial_state).
Proof.
  assert (H : In "JSON" skipped_languages) by (simpl; tauto).
  split; [exact H|].
  apply (analyze_file_skips (offline scenario_tree) sample_self
           "b.json" ".json" "JSON" (VStr "{}") initial_state).
  right. exact H.
Defined.

(** C10.  A readable file that decodes to the empty string is skipped like
    an unreadable one: no call is made and the analysis stays [None],
    because the test is on the truth value of the content. *)
Theorem analyze_file_empty_content
    (env : environment) (self : documenter)
    (path ext language : string) (f : file) (st : state) :
  _read_file_content f = VStr "" ->
  let readable := file_info path ext language (_read_file_content f) in
  let unreadable := file_info path ext language VNone in
  analyze_file env self readable st = (Ok readable, st)
  /\ readable !! "analysis" = Some VNone
  /\ analyze_file env self unreadable st = (Ok unreadable, st)
  /\ unreadable !! "analysis" = Some VNone.
Proof.
  intros Hread readable unreadable. subst readable unreadable.
  rewrite Hread. split; [|split; [|split]].
  - apply analyze_file_skip. left. reflexivity.
  - reflexivity.
  - apply analyze_file_skip. left. reflexivity.
  - reflexivity.
Qed.

Lemma analyze_file_empty_content_witness :
  _read_file_content (text_file "") = VStr ""
  /\ analyze_file (offline scenario_tree) sample_self
       (file_info "empty.py" ".py" "Python" (_read_file_content (text_file "")))
       initial_state
     = (Ok (file_info "empty.py" ".py" "Python" (_read_file_content (text_file ""))),
        initial_state).
Proof.
  split; [reflexivity|].
  apply (analyze_file_empty_content (offline scenario_tree) sample_self
           "empty.py" ".py" "Python" (text_file "") initial_state).
  reflexivity.
Defined.






Section ChunkPrompt.
Import PyStr ReplaceFacts.

Context (self : documenter).

(** X4.  The prompt [analyze_file] sends for a chunk does not hold the chunk.
    For a path and a language without an opening brace the prompt is the
    template itself, whatever the chunk: the template is an f-string, so it
    holds [{chunk_content}] with single braces, and the search for
    [{{chunk_content}}] finds nothing to replace. *)
Theorem chunk_prompt_ignores_chunk (path language chunk : string) :
  has_char "{" path = false -> has_char "{" language = false ->
  let template :=
    prompt_template path language (replace (lower language) " " "") in
  chunk_request self template chunk = llm_request self template None None
  /\ contains "{chunk_content}" template = true.
Proof.
  intros Hpath Hlanguage template.
  assert (Htag : has_char "{" (replace (lower language) " " "") = false).
  { apply has_char_replace; [|reflexivity]. rewrite has_brace_lower. exact Hlanguage. }
  split.
  - unfold chunk_request. f_equal. apply replace_absent.
    subst template. unfold prompt_template.
    repeat (rewrite contains_app_skip
              by first [assumption | vm_compute; reflexivity]).
    vm_compute. reflexivity.
  - subst template. unfold prompt_template.
    repeat apply contains_app_r. vm_compute. reflexivity.
Qed.

End ChunkPrompt.

Lemma chunk_prompt_ignores_chunk_witness :
  let template := prompt_template "a.py" "Python" "python" in
  chunk_request sample_self template "print(1)"
  = llm_request sample_self template None None
  /\ PyStr.contains "{chunk_content}" template = true.
Proof.
  apply (chunk_prompt_ignores_chunk sample_self "a.py" "Python" "print(1)");
    reflexivity.
Defined.

(** ** Project Summary Synthesizer *)

Lemma required_keys_cases (P : string -> Prop) :
  P "project_description" -> P "project_overview_content" ->
  P "features_content" -> P "technologies_content" ->
  P "installation_content" -> P "usage_examples_content" ->
  P "project_structure_description" ->
  forall key, In key required_keys -> P key.
Proof.
  intros H1 H2 H3 H4 H5 H6 H7 key Hin. simpl in Hin.
  repeat (destruct Hin as [<-|Hin]; [assumption|]). destruct Hin.
Qed.

Lemma fallback_object_keys (key : string) :
  holds_key fallback_object key <-> In key required_keys.
Proof.
  split.
  - unfold holds_key, fallback_object. intros [v Hv].
    apply elem_of_list_to_map_2 in Hv.
    apply list_elem_of_In in Hv. simpl in Hv.
    repeat (destruct Hv as [Hv|Hv];
            [injection Hv as <- _; simpl; tauto|]).
    destruct Hv.
  - revert key. apply required_keys_cases; vm_compute; eexists; reflexivity.
Qed.

(** C3, as amended.  When the answer of the model does not parse, the
    sections are the fallback object: it holds exactly the seven required
    keys, each with its fixed placeholder text, none of them empty.  When
    the answer parses to a JSON object, that object is used as it is: each
    section is taken from its own key when the object has it and is the
    fixed default of that key otherwise. *)
Theorem synthesized_sections (env : environment) :
  generated_sections None = fallback_object
  /\ (forall key, holds_key fallback_object key <-> In key required_keys)
  /\ (forall key, In key required_keys ->
        exists placeholder,
          assoc key fallback_sections = Some placeholder
          /\ placeholder <> ""
          /\ section env (generated_sections None) key = Ok placeholder)
  /\ (forall fields key,
        section env (generated_sections (Some (JObj fields))) key
        = Ok (match fields !! key with
              | Some (JStr text) => text
              | Some other => str_of_json env other
              | None => section_default key
              end)).
Proof.
  split; [reflexivity|]. split; [exact fallback_object_keys|]. split.
  - apply required_keys_cases; eexists;
      (split; [reflexivity|]); (split; [discriminate|]); vm_compute; reflexivity.
  - intros fields key. unfold section, section_get, generated_sections.
    destruct (fields !! key) as [[]|]; reflexivity.
Qed.

(** C3 as stated fails: an answer that is valid JSON with one of the seven
    fields is kept as a partial object, and the sections it lacks are
    defaulted one by one. *)
Lemma partial_sections_are_kept :
  let answer := JObj (<["project_description" := JStr "A tool."]> ∅) in
  partial_sections (generated_sections (Some answer))
  /\ section (offline scenario_tree) (generated_sections (Some answer))
       "project_description" = Ok "A tool."
  /\ section (offline scenario_tree) (generated_sections (Some answer))
       "features_content" = Ok (section_default "features_content").
Proof.
  split; [|split; vm_compute; reflexivity].
  exists "project_description", "features_content".
  split; [simpl; tauto|]. split; [simpl; tauto|]. split.
  - vm_compute. eexists. reflexivity.
  - vm_compute. intros [v Hv]. discriminate.
Qed.

(** ** The three traversals *)

#[local] Arguments PyStr.mem : simpl never.
#[local] Arguments assoc : simpl never.
#[local] Arguments file_info : simpl never.
#[local] Arguments OsPath.relpath : simpl never.
#[local] Arguments OsPath.basename : simpl never.
#[local] Arguments PyStr.count : simpl never.

(** Induction on a directory tree, through its list of sub-directories. *)
Lemma dir_induction (P : dir -> Prop) :
  (forall subdirs files,
      Forall (fun entry : string * dir => P (snd entry)) subdirs ->
      P (MkDir subdirs files)) ->
  forall d, P d.
Proof.
  intros step. fix IH 1. intros [subdirs files]. apply step.
  induction subdirs as [|[name sub] rest IHrest]; constructor.
  - apply IH.
  - exact IHrest.
Qed.

Section Walk.

Variables keep : string -> bool.

(** Pruning only removes steps from the walk. *)
Lemma os_walk_pruned (d : dir) :
  forall top path item,
    In item (os_walk keep top path d) ->
    In item (os_walk (fun _ => true) top path d).
Proof.
  induction d as [subdirs files IH] using dir_induction.
  intros top path item. simpl. intros [Hhere|Hbelow]; [left; exact Hhere|].
  right. apply in_flat_map in Hbelow as [[name sub] [Hentry Hitem]].
  apply in_flat_map. exists (name, sub). split; [exact Hentry|].
  destruct (keep name); [|destruct Hitem].
  rewrite List.Forall_forall in IH. apply (IH (name, sub) Hentry). exact Hitem.
Qed.

End Walk.

(** In a clean tree nothing is pruned, and no step lists an ignored file. *)
Lemma os_walk_clean (d : dir) :
  forall top path,
    clean_tree d = true ->
    os_walk keep_dir top path d = os_walk (fun _ => true) top path d.
Proof.
  induction d as [subdirs files IH] using dir_induction.
  intros top path. simpl. intros Hclean.
  apply andb_true_iff in Hclean as [_ Hsubs]. f_equal.
  revert IH Hsubs. induction subdirs as [|[name sub] rest IHrest]; intros IH Hsubs.
  - reflexivity.
  - simpl in Hsubs. apply andb_true_iff in Hsubs as [Hhead Hrest].
    apply andb_true_iff in Hhead as [Hkeep Hsub].
    inversion IH as [|? ? Hhere Hothers]; subst.
    simpl. rewrite Hkeep. f_equal.
    + apply Hhere. exact Hsub.
    + apply IHrest; assumption.
Qed.

Lemma os_walk_clean_files (keep : string -> bool) (d : dir) :
  forall top path item,
    clean_tree d = true ->
    In item (os_walk keep top path d) -> none_ignored item.
Proof.
  induction d as [subdirs files IH] using dir_induction.
  intros top path item. simpl. intros Hclean [<-|Hbelow].
  - apply andb_true_iff in Hclean as [Hfiles _].
    intros entry Hin. simpl in Hin.
    rewrite forallb_forall in Hfiles. apply Hfiles in Hin.
    apply negb_true_iff in Hin. exact Hin.
  - apply andb_true_iff in Hclean as [_ Hsubs].
    apply in_flat_map in Hbelow as [[name sub] [Hentry Hitem]].
    rewrite forallb_forall in Hsubs. specialize (Hsubs _ Hentry). simpl in Hsubs.
    apply andb_true_iff in Hsubs as [_ Hsub].
    destruct (keep name); [|destruct Hitem].
    rewrite List.Forall_forall in IH. exact (IH _ Hentry _ _ _ Hsub Hitem).
Qed.

Section Steps.

Context (self : documenter) (item : walk_item).

Lemma descriptor_path_file_info path ext language content :
  descriptor_path (file_info path ext language content) = path.
Proof. reflexivity. Qed.

Lemma classified_file_info path ext language content :
  classified (file_info path ext language content)
  = match assoc ext file_extensions with Some _ => true | None => false end.
Proof. reflexivity. Qed.

(** At each step of the walk the listing and the project structure hold the
    same files. *)
Lemma listed_step_rendered :
  map descriptor_path (scan_directory item)
  = flat_map rendered_path (structure_of self item).
Proof.
  unfold scan_directory, structure_of. simpl.
  induction (filenames item) as [|[file f] rest IH]; [reflexivity|].
  simpl. destruct (PyStr.mem file ignore_files); simpl; [exact IH|].
  rewrite descriptor_path_file_info. f_equal. exact IH.
Qed.

(** At each step every listed file of a known extension is counted. *)
Lemma classified_step_tallied (d : descriptor) :
  In d (scan_directory item) -> classified d = true ->
  In (descriptor_path d) (map fst (tallied_in item)).
Proof.
  unfold scan_directory, tallied_in.
  induction (filenames item) as [|[file f] rest IH]; [intros []|].
  simpl. intros Hin Hknown. rewrite map_app. apply in_or_app.
  destruct (PyStr.mem file ignore_files).
  - right. apply IH; assumption.
  - destruct Hin as [<-|Hin]; [|right; apply IH; assumption].
    left. rewrite classified_file_info in Hknown.
    rewrite descriptor_path_file_info.
    destruct (assoc (file_ext_of file) file_extensions); [|discriminate].
    left. reflexivity.
Qed.

(** Where no file is ignored, the counted files are the listed files of a
    known extension. *)
Lemma tallied_step_clean :
  none_ignored item ->
  map fst (tallied_in item)
  = map descriptor_path (List.filter classified (scan_directory item)).
Proof.
  unfold none_ignored, scan_directory, tallied_in.
  induction (filenames item) as [|[file f] rest IH]; [reflexivity|].
  intros Hclean. simpl.
  pose proof (Hclean (file, f) (or_introl eq_refl)) as Hfile. simpl in Hfile.
  rewrite Hfile. simpl.
  rewrite classified_file_info, map_app, IH
    by (intros entry Hin; apply Hclean; right; exact Hin).
  destruct (assoc (file_ext_of file) file_extensions); reflexivity.
Qed.

(** The counters are the tally of the counted files. *)
Lemma tally_step (stats : list (string * nat)) :
  fold_left (fun stats entry => tally stats (fst entry)) (filenames item) stats
  = fold_left (fun stats entry => increment (snd entry) stats) (tallied_in item) stats.
Proof.
  unfold tallied_in. revert stats.
  induction (filenames item) as [|[file f] rest IH]; intros stats; [reflexivity|].
  simpl. rewrite fold_left_app, IH. unfold tally.
  destruct (assoc (file_ext_of file) file_extensions); reflexivity.
Qed.

End Steps.

Section Traversal.

Context (env : environment) (self : documenter).

Lemma listed_paths_steps :
  listed_paths env self
  = flat_map (fun item => map descriptor_path (scan_directory item))
             (os_walk keep_dir (repo_path self) [] (repo_tree env)).
Proof.
  unfold listed_paths, _scan_repository.
  induction (os_walk keep_dir (repo_path self) [] (repo_tree env)) as [|item rest IH];
    [reflexivity|].
  simpl. rewrite map_app, IH. reflexivity.
Qed.

Lemma rendered_paths_steps :
  rendered_paths env self
  = flat_map (fun item => flat_map rendered_path (structure_of self item))
             (os_walk (fun _ => true) (repo_path self) [] (repo_tree env)).
Proof.
  unfold rendered_paths, structure_lines.
  induction (os_walk (fun _ => true) (repo_path self) [] (repo_tree env))
    as [|item rest IH]; [reflexivity|].
  cbn [flat_map]. rewrite flat_map_app, IH. reflexivity.
Qed.

Lemma listed_in_rendered (p : string) :
  In p (listed_paths env self) -> In p (rendered_paths env self).
Proof.
  rewrite listed_paths_steps, rendered_paths_steps.
  intros Hin. apply in_flat_map in Hin as [item [Hitem Hp]].
  apply in_flat_map. exists item. split.
  - apply (os_walk_pruned keep_dir). exact Hitem.
  - rewrite <- listed_step_rendered. exact Hp.
Qed.

Lemma classified_in_tallied (d : descriptor) :
  In d (_scan_repository env self) -> classified d = true ->
  In (descriptor_path d) (map fst (tallied_files env self)).
Proof.
  unfold _scan_repository, tallied_files. intros Hin Hknown.
  apply in_flat_map in Hin as [item [Hitem Hd]].
  apply in_map_iff.
  pose proof (classified_step_tallied item d Hd Hknown) as Hstep.
  apply in_map_iff in Hstep as [entry [Hpath Hentry]].
  exists entry. split; [exact Hpath|].
  apply in_flat_map. exists item. split; assumption.
Qed.

Lemma language_stats_tally :
  _get_language_stats env self
  = fold_left (fun stats entry => increment (snd entry) stats)
              (tallied_files env self) [].
Proof.
  unfold _get_language_stats, tallied_files. generalize (@nil (string * nat)).
  induction (os_walk keep_dir (repo_path self) [] (repo_tree env)) as [|item rest IH];
    intros stats; [reflexivity|].
  cbn [fold_left flat_map]. rewrite fold_left_app, <- tally_step. apply IH.
Qed.

Lemma clean_listed_rendered :
  clean_tree (repo_tree env) = true ->
  listed_paths env self = rendered_paths env self.
Proof.
  intros Hclean. rewrite listed_paths_steps, rendered_paths_steps.
  rewrite os_walk_clean by exact Hclean.
  induction (os_walk (fun _ => true) (repo_path self) [] (repo_tree env))
    as [|item rest IH]; [reflexivity|].
  cbn [flat_map]. rewrite IH, (listed_step_rendered self). reflexivity.
Qed.

Lemma clean_tallied_listed :
  clean_tree (repo_tree env) = true ->
  map fst (tallied_files env self)
  = map descriptor_path (List.filter classified (_scan_repository env self)).
Proof.
  intros Hclean. unfold tallied_files, _scan_repository.
  pose proof (fun item =>
                os_walk_clean_files keep_dir (repo_tree env) (repo_path self) [] item Hclean)
    as Hfiles.
  induction (os_walk keep_dir (repo_path self) [] (repo_tree env)) as [|item rest IH];
    [reflexivity|].
  cbn [flat_map]. rewrite List.filter_app, !map_app.
  rewrite IH by (intros other Hin; apply Hfiles; right; exact Hin).
  rewrite tallied_step_clean by (apply Hfiles; left; reflexivity).
  reflexivity.
Qed.

End Traversal.

(** What the three traversals share.  Every file of the scanned listing is
    shown in the project structure, and every listed file whose extension is
    in the classification table is counted in the language statistics.  On a
    tree with no excluded directory name and no ignored file name the
    listing and the project structure hold the same files, and the counted
    files are the listed files of a known extension. *)
Theorem traversals_agree (env : environment) (self : documenter) :
  (forall p, In p (listed_paths env self) -> In p (rendered_paths env self))
  /\ (forall d, In d (_scan_repository env self) -> classified d = true ->
        In (descriptor_path d) (map fst (tallied_files env self)))
  /\ _get_language_stats env self
     = fold_left (fun stats entry => increment (snd entry) stats)
                 (tallied_files env self) []
  /\ (clean_tree (repo_tree env) = true ->
      listed_paths env self = rendered_paths env self
      /\ map fst (tallied_files env self)
         = map descriptor_path (List.filter classified (_scan_repository env self))).
Proof.
  split; [exact (listed_in_rendered env self)|].
  split; [exact (classified_in_tallied env self)|].
  split; [exact (language_stats_tally env self)|].
  intros Hclean. split.
  - apply clean_listed_rendered, Hclean.
  - apply clean_tallied_listed, Hclean.
Qed.

Lemma traversals_agree_witness :
  clean_tree (repo_tree (offline tidy_tree)) = true
  /\ listed_paths (offline tidy_tree) sample_self
     = rendered_paths (offline tidy_tree) sample_self.
Proof.
  assert (Hclean : clean_tree (repo_tree (offline tidy_tree)) = true) by reflexivity.
  split; [exact Hclean|].
  destruct (traversals_agree (offline tidy_tree) sample_self) as (_ & _ & _ & H).
  exact (proj1 (H Hclean)).
Defined.

(** C1 at the failing input: a repository with a [.git] directory that
    holds [hook.py], and with [main.py] and [README.md] at its top; every
    file has an extension of the table.  The three traversals see three
    different sets of files.  [_scan_repository] leaves out [README.md] (an
    ignored name) and what lies below [.git] (an excluded directory);
    [_get_language_stats] prunes [.git] but has no test on the file name, so
    it counts [README.md]; the walk of [_postprocess_readme] tests the file
    name but prunes nothing, so it shows [.git/hook.py]. *)
Lemma traversals_disagree :
  let env := offline hooked_tree in
  forallb known_extension (tree_files env sample_self) = true
  /\ listed_paths env sample_self = ["main.py"]
  /\ map fst (tallied_files env sample_self) = ["main.py"; "README.md"]
  /\ _get_language_stats env sample_self = [("Python", 1); ("Markdown", 1)]
  /\ rendered_paths env sample_self = ["main.py"; ".git/hook.py"]
  /\ ~ (forall p, In p (listed_paths env sample_self)
                  <-> In p (map fst (tallied_files env sample_self)))
  /\ ~ (forall p, In p (listed_paths env sample_self)
                  <-> In p (rendered_paths env sample_self))
  /\ ~ (forall p, In p (map fst (tallied_files env sample_self))
                  <-> In p (rendered_paths env sample_self)).
Proof.
  intros env.
  assert (Hlisted : listed_paths env sample_self = ["main.py"])
    by (vm_compute; reflexivity).
  assert (Htallied : map fst (tallied_files env sample_self) = ["main.py"; "README.md"])
    by (vm_compute; reflexivity).
  assert (Hrendered : rendered_paths env sample_self = ["main.py"; ".git/hook.py"])
    by (vm_compute; reflexivity).
  split; [vm_compute; reflexivity|].
  split; [exact Hlisted|]. split; [exact Htallied|].
  split; [vm_compute; reflexivity|]. split; [exact Hrendered|].
  rewrite Hlisted, Htallied, Hrendered. split; [|split].
  - intros H. destruct (proj2 (H "README.md")) as [E|[]];
      [simpl; tauto|discriminate].
  - intros H. destruct (proj2 (H ".git/hook.py")) as [E|[]];
      [simpl; tauto|discriminate].
  - intros H. destruct (proj1 (H "README.md")) as [E|[E|[]]];
      [simpl; tauto|discriminate..].
Qed.

(** ** Document Renderer *)

Section Renderer.
Import PyStr ReplaceFacts.

Context (env : environment) (self : documenter).

(** The search for the license succeeds on well-formed descriptors and is
    the search for the first descriptor whose lower-cased path is
    ["license"]. *)
Lemma find_license_find (files : list descriptor) :
  Forall has_path files ->
  find_license files
  = Ok (option_map descriptor_path (List.find is_license files)).
Proof.
  intros Hall. induction Hall as [|d files [path Hpath] _ IH]; [reflexivity|].
  cbn [find_license List.find]. unfold getitem, is_license, descriptor_path.
  rewrite Hpath. cbn [mbind result_bind val_lower format].
  destruct (String.eqb (lower path) "license"); [|exact IH].
  cbn [option_map]. rewrite Hpath. reflexivity.
Qed.

(** The structure block is the join of pieces that each end in a newline. *)
Lemma project_structure_pieces :
  project_structure_str env self
  = String.concat "" ([fence] ++ map render_line (structure_lines env self) ++ [fence]).
Proof.
  unfold project_structure_str.
  rewrite !concat_pieces_app. change (String.concat "" [fence]) with fence.
  unfold fence. rewrite app_assoc. reflexivity.
Qed.

Lemma render_line_newline (l : tree_line) :
  last_char (render_line l) = Some (ascii_of_nat 10).
Proof.
  destruct l; unfold render_line;
    repeat (apply last_char_app); reflexivity.
Qed.

End Renderer.

Section Substitution.
Import PyStr ReplaceFacts.

Context (env : environment) (self : documenter).

(** [replace_clears], for a replacement text given by its first and last
    character. *)
Lemma replace_clears_token (x old new : string) (n z : ascii) (s : string) :
  x <> "" -> old <> "" ->
  (exists ns, new = String n ns) ->
  last_char new = Some z ->
  has_char n x = false -> has_char z x = false ->
  contains x new = false ->
  x = old \/ contains x s = false ->
  contains x (replace s old new) = false.
Proof.
  intros Hx Hold [ns ->] Hlast Hn Hz Hnew Hcase.
  destruct old as [|o os]; [congruence|].
  exact (replace_clears x o os n ns z Hx Hlast Hn Hz Hnew s Hcase).
Qed.

(** On well-formed descriptors the renderer is three replacements in a
    row: the structure block, the contribution text, the license
    sentence. *)
Lemma postprocess_replaces (content : string) (info : repo_info) :
  Forall has_path (files info) ->
  _postprocess_readme env self content info
  = Ok (replace
          (replace
             (replace content project_structure_token (project_structure_str env self))
             contributing_token contributing_text)
          license_token (license_sentence (files info) (remote_url info))).
Proof.
  intros Hfiles. unfold _postprocess_readme.
  rewrite (find_license_find (files info) Hfiles).
  cbn [mbind result_bind].
  set (first := if contains project_structure_token content
                then replace content project_structure_token
                       (project_structure_str env self)
                else content).
  assert (Hfirst : first = replace content project_structure_token
                             (project_structure_str env self)).
  { subst first. destruct (contains project_structure_token content) eqn:E;
      [reflexivity|]. symmetry. apply replace_absent, E. }
  set (second := if contains contributing_token first
                 then replace first contributing_token contributing_text
                 else first).
  assert (Hsecond : second = replace first contributing_token contributing_text).
  { subst second. destruct (contains contributing_token first) eqn:E;
      [reflexivity|]. symmetry. apply replace_absent, E. }
  rewrite <- Hfirst, <- Hsecond.
  unfold license_sentence.
  destruct (contains license_token second) eqn:E.
  - destruct (List.find is_license (files info)); reflexivity.
  - rewrite replace_absent by exact E. reflexivity.
Qed.

Lemma structure_str_free (x : string) :
  x <> "" -> has_char (ascii_of_nat 10) x = false ->
  contains x fence = false ->
  Forall (fun line => contains x (render_line line) = false) (structure_lines env self) ->
  contains x (project_structure_str env self) = false.
Proof.
  intros Hx Hnl Hfence Hlines. rewrite project_structure_pieces.
  apply (contains_concat x (ascii_of_nat 10)); [exact Hx|exact Hnl|].
  apply Forall_app. split; [|apply Forall_app; split].
  - constructor; [|constructor]. split; [reflexivity|exact Hfence].
  - apply Forall_map. eapply Forall_impl; [exact Hlines|].
    intros line Hline. split; [apply render_line_newline|exact Hline].
  - constructor; [|constructor]. split; [reflexivity|exact Hfence].
Qed.

Lemma structure_str_ends :
  (exists ns, project_structure_str env self = String "`"%char ns)
  /\ last_char (project_structure_str env self) = Some (ascii_of_nat 10).
Proof.
  unfold project_structure_str. split; [eexists; reflexivity|].
  repeat (apply last_char_app). reflexivity.
Qed.

Lemma license_sentence_free (files : list descriptor) (remote_url : string) :
  has_char "{" remote_url = false ->
  has_char "{" (license_sentence files remote_url) = false.
Proof.
  intros Hurl. unfold license_sentence.
  destruct (List.find is_license files) as [d|] eqn:Hfind; [|reflexivity].
  apply find_some in Hfind as [_ Hd]. unfold is_license in Hd.
  apply String.eqb_eq in Hd.
  assert (Hpath : has_char "{" (descriptor_path d) = false).
  { rewrite <- has_brace_lower, Hd. reflexivity. }
  unfold license_found_sentence.
  rewrite !has_char_app, Hpath, Hurl. reflexivity.
Qed.

Lemma license_sentence_ends (files : list descriptor) (remote_url : string) :
  (exists ns, license_sentence files remote_url = String (ascii_of_nat 208) ns)
  /\ last_char (license_sentence files remote_url) = Some "."%char.
Proof.
  unfold license_sentence. destruct (List.find is_license files) as [d|].
  - split; [eexists; reflexivity|].
    unfold license_found_sentence. repeat (apply last_char_app). reflexivity.
  - split; [eexists; reflexivity|reflexivity].
Qed.

End Substitution.

Section Completeness.
Import PyStr ReplaceFacts.

Context (env : environment) (self : documenter).

(** X1.  When the text handed to the renderer does hold the tokens, none is left:
    provided no line of the structure block holds the structure token and
    the remote URL holds no opening brace. *)
Theorem postprocess_resolves_tokens (content : string) (info : repo_info) :
  Forall has_path (files info) ->
  Forall (fun line => contains project_structure_token (render_line line) = false)
         (structure_lines env self) ->
  has_char "{" (remote_url info) = false ->
  exists document,
    _postprocess_readme env self content info = Ok document
    /\ contains project_structure_token document = false
    /\ contains contributing_token document = false
    /\ contains license_token document = false.
Proof.
  intros Hfiles Hlines Hurl. rewrite (postprocess_replaces env self) by exact Hfiles.
  eexists. split; [reflexivity|].
  set (structure := project_structure_str env self).
  set (sentence := license_sentence (files info) (remote_url info)).
  set (first := replace content project_structure_token structure).
  set (second := replace first contributing_token contributing_text).
  assert (Hstructure : contains project_structure_token structure = false).
  { apply structure_str_free; [discriminate|reflexivity|reflexivity|exact Hlines]. }
  assert (Hbrace : has_char "{" sentence = false)
    by (apply license_sentence_free; exact Hurl).
  destruct (license_sentence_ends (files info) (remote_url info)) as [Hhead Hlast].
  fold sentence in Hhead, Hlast.
  destruct (structure_str_ends env self) as [Hopen Hclose].
  fold structure in Hopen, Hclose.
  assert (Htext : exists ns, contributing_text = String (ascii_of_nat 208) ns)
    by (eexists; reflexivity).
  assert (H1 : contains project_structure_token first = false).
  { apply (replace_clears_token _ _ _ "`"%char (ascii_of_nat 10));
      [discriminate | discriminate | exact Hopen | exact Hclose
      | reflexivity | reflexivity | exact Hstructure | left; reflexivity]. }
  assert (H1' : contains project_structure_token second = false).
  { apply (replace_clears_token _ _ _ (ascii_of_nat 208) "!"%char);
      [discriminate | discriminate | exact Htext | reflexivity
      | reflexivity | reflexivity | vm_compute; reflexivity | right; exact H1]. }
  assert (H2 : contains contributing_token second = false).
  { apply (replace_clears_token _ _ _ (ascii_of_nat 208) "!"%char);
      [discriminate | discriminate | exact Htext | reflexivity
      | reflexivity | reflexivity | vm_compute; reflexivity | left; reflexivity]. }
  split; [|split].
  - apply (replace_clears_token _ _ _ (ascii_of_nat 208) "."%char);
      [discriminate | discriminate | exact Hhead | exact Hlast
      | reflexivity | reflexivity | apply contains_needs_char, Hbrace
      | right; exact H1'].
  - apply (replace_clears_token _ _ _ (ascii_of_nat 208) "."%char);
      [discriminate | discriminate | exact Hhead | exact Hlast
      | reflexivity | reflexivity | apply contains_needs_char, Hbrace
      | right; exact H2].
  - apply (replace_clears_token _ _ _ (ascii_of_nat 208) "."%char);
      [discriminate | discriminate | exact Hhead | exact Hlast
      | reflexivity | reflexivity | apply contains_needs_char, Hbrace
      | left; reflexivity].
Qed.

End Completeness.

Lemma postprocess_resolves_tokens_witness :
  let env := offline scenario_tree in
  exists document,
    _postprocess_readme env sample_self token_text (get_repo_info env sample_self)
    = Ok document
    /\ PyStr.contains project_structure_token document = false
    /\ PyStr.contains contributing_token document = false
    /\ PyStr.contains license_token document = false.
Proof.
  intros env.
  apply (postprocess_resolves_tokens env sample_self token_text
           (get_repo_info env sample_self)).
  - repeat constructor; eexists; reflexivity.
  - repeat constructor.
  - reflexivity.
Defined.

Section LicenseChoice.
Import PyStr ReplaceFacts.

Context (env : environment) (self : documenter).

(** X2.  The license sentence.  In a text that holds the license token and
    neither of the two others, the renderer puts the sentence that links to
    the first scanned descriptor whose lower-cased path is ["license"], and
    the default MIT sentence when there is no such descriptor. *)
Theorem license_sentence_choice (content : string) (info : repo_info) :
  Forall has_path (files info) ->
  contains project_structure_token content = false ->
  contains contributing_token content = false ->
  _postprocess_readme env self content info
  = Ok (replace content license_token
          (match List.find is_license (files info) with
           | Some d => license_found_sentence (descriptor_path d) (remote_url info)
           | None => license_default_sentence
           end)).
Proof.
  intros Hfiles H1 H2. rewrite (postprocess_replaces env self) by exact Hfiles.
  rewrite (replace_absent content) by exact H1.
  rewrite (replace_absent content) by exact H2.
  reflexivity.
Qed.

(** A relative path that ends in a file name that is not ignored is not
    [LICENSE]. *)
Lemma relpath_not_ignored (below : list string) (file : string) :
  mem file ignore_files = false -> OsPath.relpath below file <> "LICENSE".
Proof.
  intros Hfile. unfold OsPath.relpath, join. destruct below as [|b bs].
  - simpl. intros ->. discriminate.
  - intros Heq. assert (H : has_char "/" "LICENSE" = true); [|discriminate].
    rewrite <- Heq. clear Heq.
    change (String.concat OsPath.sep ((b :: bs) ++ [file]))
      with (String.concat OsPath.sep (b :: (bs ++ [file]))).
    destruct (bs ++ [file]) as [|x xs] eqn:E.
    { destruct bs; discriminate. }
    cbn [String.concat]. rewrite !has_char_app.
    rewrite orb_true_iff. right. reflexivity.
Qed.

(** X3.  The path of a scanned descriptor is never [LICENSE]: the name is
    ignored, and a path below the root holds a separator.  So the license
    search over the scanned files never selects a file named LICENSE. *)
Theorem license_file_never_listed :
  (forall d, In d (_scan_repository env self) -> descriptor_path d <> "LICENSE")
  /\ (forall d, List.find is_license (_scan_repository env self) = Some d ->
        descriptor_path d <> "LICENSE").
Proof.
  assert (Hlisted : forall d, In d (_scan_repository env self) ->
                              descriptor_path d <> "LICENSE").
  { intros d Hin. unfold _scan_repository in Hin.
    apply in_flat_map in Hin as [item [_ Hd]]. unfold scan_directory in Hd.
    apply in_flat_map in Hd as [[file f] [_ Hd]].
    destruct (mem file ignore_files) eqn:Hfile; [destruct Hd|].
    destruct Hd as [<-|[]]. rewrite descriptor_path_file_info.
    apply relpath_not_ignored, Hfile. }
  split; [exact Hlisted|].
  intros d Hfind. apply find_some in Hfind as [Hin _]. apply Hlisted, Hin.
Qed.

End LicenseChoice.

Lemma license_sentence_choice_witness :
  let env := offline licensed_tree in
  let info := get_repo_info env sample_self in
  _postprocess_readme env sample_self license_token info
  = Ok (PyStr.replace license_token license_token
          (match List.find is_license (files info) with
           | Some d => license_found_sentence (descriptor_path d) (remote_url info)
           | None => license_default_sentence
           end)).
Proof.
  intros env info.
  apply (license_sentence_choice env sample_self license_token info).
  - repeat constructor; eexists; reflexivity.
  - reflexivity.
  - reflexivity.
Defined.


(** ** The documents of a run *)

(** The template [generate_readme] builds always holds the three
    placeholders with single braces: its last literal is part of an
    f-string, where a doubled brace stands for one brace. *)
Lemma readme_sections_placeholders
    (description overview features technologies installation usage structure : string) :
  let template :=
    readme_sections description overview features technologies installation
                    usage structure in
  PyStr.contains "{project_structure_content}" template = true
  /\ PyStr.contains "{contributing_content}" template = true
  /\ PyStr.contains "{license_content}" template = true.
Proof.
  unfold readme_sections.
  split; [|split]; do 14 apply ReplaceFacts.contains_app_r; vm_compute; reflexivity.
Qed.

(** X5.  Every template [generate_readme] hands to the renderer holds the
    three placeholders with single braces, whatever the repository and the
    sections are. *)
Theorem template_placeholders
    (env : environment) (info : repo_info) (sections : jvalue) (content : string) :
  readme_template_content env info sections = Ok content ->
  PyStr.contains "{project_structure_content}" content = true
  /\ PyStr.contains "{contributing_content}" content = true
  /\ PyStr.contains "{license_content}" content = true.
Proof.
  unfold readme_template_content.
  destruct (github_parts env (remote_url info)) as [github_user github_repo_name].
  cbn [mbind result_bind].
  repeat match goal with
         | |- context [section env sections ?key] =>
             destruct (section env sections key); [|discriminate]
         end.
  intros [= <-].
  match goal with
  | |- context [readme_sections ?a ?b ?c ?d ?e ?f ?g] =>
      destruct (readme_sections_placeholders a b c d e f g) as (H1 & H2 & H3)
  end.
  split; [|split]; apply ReplaceFacts.contains_app_r; assumption.
Qed.

Lemma template_placeholders_witness :
  exists content,
    readme_template_content (offline scenario_tree)
      (get_repo_info (offline scenario_tree) sample_self) fallback_object
    = Ok content
    /\ PyStr.contains "{license_content}" content = true.
Proof.
  destruct (readme_template_content (offline scenario_tree)
              (get_repo_info (offline scenario_tree) sample_self) fallback_object)
    as [content|e] eqn:E.
  - exists content. split; [reflexivity|].
    exact (proj2 (proj2 (template_placeholders _ _ _ _ E))).
  - exfalso. vm_compute in E. discriminate.
Defined.

(** A text without the three tokens comes back from the renderer as it
    is. *)
Lemma postprocess_without_tokens
    (env : environment) (self : documenter) (content : string) (info : repo_info) :
  PyStr.contains project_structure_token content = false ->
  PyStr.contains contributing_token content = false ->
  PyStr.contains license_token content = false ->
  _postprocess_readme env self content info = Ok content.
Proof.
  intros H1 H2 H3. unfold _postprocess_readme. rewrite H1, H2, H3. reflexivity.
Qed.

(** C5 at the failing input (the repository of the scenario, the model not
    reachable): the document [generate_readme] returns still holds the three
    placeholders, as [{project_structure_content}], [{contributing_content}]
    and [{license_content}], and none of the three texts that should stand
    in their place. *)
Lemma rendered_document_keeps_placeholders :
  let env := offline scenario_tree in
  let run := generate_readme env sample_self (get_repo_info env sample_self)
                             initial_state in
  document_has "{project_structure_content}" run = true
  /\ document_has "{contributing_content}" run = true
  /\ document_has "{license_content}" run = true
  /\ document_has (project_structure_str env sample_self) run = false
  /\ document_has contributing_text run = false
  /\ document_has project_structure_token run = false.
Proof. by_evaluation. Qed.

(** C2 at the failing input (the repository of the scenario, which has a
    LICENSE): the document holds neither license sentence.  The scanner
    never lists LICENSE, so even a text that does hold the license token
    gets the default sentence. *)
Lemma license_sentence_missing :
  let env := offline scenario_tree in
  let info := get_repo_info env sample_self in
  let run := generate_readme env sample_self info initial_state in
  document_has license_default_sentence run = false
  /\ document_has (license_found_sentence "LICENSE" (remote_url info)) run = false
  /\ map descriptor_path (files info) = ["a.py"; "b.json"]
  /\ _postprocess_readme env sample_self license_token info
     = Ok license_default_sentence.
Proof. by_evaluation. Qed.

(** ** What the model client returns *)

Module StripFacts.
Import PyStr.

(** The white space of [str.isspace] among the code points 0 to 255. *)
Lemma is_space_table (c : ascii) :
  is_space c
  = existsb (Nat.eqb (nat_of_ascii c)) [9; 10; 11; 12; 13; 28; 29; 30; 31; 32; 133; 160].
Proof. destruct c as [[] [] [] [] [] [] [] []]; reflexivity. Qed.

(** A no-break space and a next-line character go like a blank. *)
Lemma strip_latin1_space :
  strip (String (ascii_of_nat 160) ("a b" +:+ String (ascii_of_nat 133) " ")) = "a b"
  /\ strip (String (ascii_of_nat 160) "") = "".
Proof. split; reflexivity. Qed.

Lemma lstrip_head (s : string) :
  match lstrip s with
  | "" => True
  | String c _ => is_space c = false
  end.
Proof.
  induction s as [|a s IH]; [exact I|]. cbn [lstrip].
  destruct (is_space a) eqn:E; [exact IH | exact E].
Qed.

Lemma rstrip_head (c : ascii) (r : string) :
  is_space c = false -> exists r', rstrip (String c r) = String c r'.
Proof.
  intros H. cbn [rstrip]. destruct (rstrip r); [rewrite H|]; eexists; reflexivity.
Qed.

Lemma rstrip_last (s : string) (z : ascii) :
  last_char (rstrip s) = Some z -> is_space z = false.
Proof.
  revert z. induction s as [|a s IH]; intros z; [discriminate|].
  cbn [rstrip]. destruct (rstrip s) as [|b t] eqn:E.
  - destruct (is_space a) eqn:Ea; [discriminate|].
    cbn. intros [= <-]. exact Ea.
  - change (last_char (String a (String b t)))
      with (match last_char (String b t) with None => Some a | Some y => Some y end).
    destruct (last_char (String b t)) as [y|] eqn:Ey.
    + intros [= <-]. apply IH. reflexivity.
    + cbn in Ey. destruct (last_char t); discriminate.
Qed.

Lemma strip_trimmed (s : string) : trimmed (strip s) = true.
Proof.
  unfold strip, trimmed. pose proof (lstrip_head s) as Hhead.
  destruct (lstrip s) as [|c r] eqn:E; [reflexivity|].
  destruct (rstrip_head c r Hhead) as [r' Hr]. rewrite Hr, Hhead. cbn [negb andb].
  rewrite <- Hr.
  destruct (last_char (rstrip (String c r))) as [z|] eqn:Ez; [|reflexivity].
  apply rstrip_last in Ez. rewrite Ez. reflexivity.
Qed.

End StripFacts.

Section Answers.

Context (env : environment) (self : documenter).

(** What the body of the [try] returns when it returns. *)
Lemma post_and_read_ok history req answer :
  post_and_read env history req = Ok answer
  <-> exists r fields,
        requests_post env history req = PostReturns r
        /\ ~ (400 <= status_code r < 600)%Z
        /\ json r = JsonReturns (JObj fields)
        /\ match fields !! "response" with
           | None => answer = PyStr.strip ""
           | Some (JStr body) => answer = PyStr.strip body
           | Some _ => False
           end.
Proof.
  unfold post_and_read, raise_for_status. split.
  - destruct (requests_post env history req) as [e|r]; [discriminate|].
    destruct (Z.leb_spec 400 (status_code r)), (Z.ltb_spec (status_code r) 600);
      cbn [andb mbind result_bind]; try discriminate;
      (destruct (json r) as [e|[| | | | |fields]] eqn:Hjson; try discriminate;
       intros Hanswer; exists r, fields;
       split; [reflexivity|]; split; [lia|]; split; [exact Hjson|];
       destruct (fields !! "response") as [[]|]; congruence).
  - intros (r & fields & -> & Hstatus & -> & Hfield).
    destruct (Z.leb_spec 400 (status_code r)), (Z.ltb_spec (status_code r) 600);
      cbn [andb mbind result_bind]; try lia;
      (destruct (fields !! "response") as [[]|]; try contradiction; congruence).
Qed.

End Answers.

(** X6.  Whatever the endpoint does, the text [analyze_with_llm] returns
    neither begins nor ends with a white-space character: it is the stripped
    [response] field, or the empty string.  White space is that of
    [str.isspace] on the characters a [string] holds: 9 to 13, 28 to 32,
    U+0085 and U+00A0. *)
Theorem analyze_with_llm_trimmed
    (env : environment) (self : documenter) (prompt : string)
    (mime : option string) (schema : option (gmap string jvalue)) (st : state) :
  exists answer,
    fst (analyze_with_llm env self prompt mime schema st) = Ok answer
    /\ trimmed answer = true.
Proof.
  unfold analyze_with_llm.
  destruct (post_and_read env (map fst (http_log st))
              (llm_request self prompt mime schema)) as [answer|e] eqn:Hread.
  - exists answer. split; [reflexivity|].
    apply post_and_read_ok in Hread as (r & fields & _ & _ & _ & Hfield).
    destruct (fields !! "response") as [[]|]; try contradiction; subst answer;
      apply StripFacts.strip_trimmed.
  - exists "". destruct (is_RequestException e), (is_JSONDecodeError e);
      split; reflexivity.
Qed.

(** X7.  [analyze_with_llm] returns a text that is not empty in one case
    only: the post returned a response whose status is not an error status
    (400 to 599), the body decodes to a JSON object, and the [response] field
    of that object is a string with something else than white space in it.
    The text is then that string, stripped.  A body that is no object, a
    [response] that is no string, a missing [response] all give the empty
    string, like a failed call; so does a [response] made of white space
    only, the no-break space U+00A0 and the next-line character U+0085
    included. *)
Theorem analyze_with_llm_answer
    (env : environment) (self : documenter) (prompt : string)
    (mime : option string) (schema : option (gmap string jvalue)) (st : state)
    (answer : string) :
  let req := llm_request self prompt mime schema in
  (fst (analyze_with_llm env self prompt mime schema st) = Ok answer /\ answer <> "")
  <-> (exists r fields body,
         requests_post env (map fst (http_log st)) req = PostReturns r
         /\ ~ (400 <= status_code r < 600)%Z
         /\ json r = JsonReturns (JObj fields)
         /\ fields !! "response" = Some (JStr body)
         /\ answer = PyStr.strip body
         /\ answer <> "").
Proof.
  intros req. unfold analyze_with_llm. fold req.
  destruct (post_and_read env (map fst (http_log st)) req) as [text|e] eqn:Hread.
  - cbn [fst]. split.
    + intros [[= <-] Hne].
      apply post_and_read_ok in Hread as (r & fields & Hpost & Hstatus & Hjson & Hfield).
      destruct (fields !! "response") as [[| | |body| |]|] eqn:Hresp;
        try contradiction.
      exists r, fields, body. repeat (split; [assumption|]). exact Hne.
    + intros (r & fields & body & Hpost & Hstatus & Hjson & Hresp & -> & Hne).
      split; [|exact Hne]. f_equal.
      assert (Hok : post_and_read env (map fst (http_log st)) req = Ok (PyStr.strip body)).
      { apply post_and_read_ok. exists r, fields.
        repeat (split; [assumption|]). rewrite Hresp. reflexivity. }
      congruence.
  - split.
    + intros [Hrun Hne]. exfalso. apply Hne.
      destruct (is_RequestException e), (is_JSONDecodeError e); cbn in Hrun; congruence.
    + intros (r & fields & body & Hpost & Hstatus & Hjson & Hresp & -> & Hne).
      exfalso.
      assert (Hok : post_and_read env (map fst (http_log st)) req = Ok (PyStr.strip body)).
      { apply post_and_read_ok. exists r, fields.
        repeat (split; [assumption|]). rewrite Hresp. reflexivity. }
      congruence.
Qed.

(** ** The traversals as filters of one file list *)

Section Pruning.

Variable keep : string -> bool.

Lemma os_walk_below (d : dir) :
  forall top path item,
    In item (os_walk (fun _ => true) top path d) ->
    exists rest, below item = path ++ rest.
Proof.
  induction d as [subdirs files IH] using dir_induction.
  intros top path item. simpl. intros [<-|Hbelow].
  - exists []. simpl. rewrite app_nil_r. reflexivity.
  - apply in_flat_map in Hbelow as [[name sub] [Hentry Hitem]].
    rewrite List.Forall_forall in IH.
    destruct (IH (name, sub) Hentry _ _ _ Hitem) as [rest Hrest].
    exists (name :: rest). rewrite Hrest, <- app_assoc. reflexivity.
Qed.

Lemma filter_nothing {A : Type} (f : A -> bool) (l : list A) :
  (forall x, In x l -> f x = false) -> List.filter f l = [].
Proof.
  induction l as [|x l IH]; intros H; [reflexivity|].
  simpl. rewrite (H x) by (left; reflexivity).
  apply IH. intros y Hy. apply H. right. exact Hy.
Qed.

Lemma filter_flat_map {A B : Type} (f : B -> bool) (g : A -> list B) (l : list A) :
  List.filter f (flat_map g l) = flat_map (fun x => List.filter f (g x)) l.
Proof.
  induction l as [|x l IH]; [reflexivity|].
  simpl. rewrite List.filter_app, IH. reflexivity.
Qed.

(** The pruned walk is the steps of the full walk that every directory name
    on the way passes. *)
Lemma os_walk_filter (d : dir) :
  forall top path,
    forallb keep path = true ->
    os_walk keep top path d
    = List.filter (fun item => forallb keep (below item))
                  (os_walk (fun _ => true) top path d).
Proof.
  induction d as [subdirs files IH] using dir_induction.
  intros top path Hpath. cbn [os_walk List.filter below]. rewrite Hpath. f_equal.
  rewrite filter_flat_map. rewrite List.Forall_forall in IH.
  induction subdirs as [|[name sub] rest IHrest]; [reflexivity|].
  cbn [flat_map]. f_equal.
  - destruct (keep name) eqn:Hname.
    + apply (IH (name, sub)); [left; reflexivity|].
      rewrite forallb_app, Hpath. simpl. rewrite Hname. reflexivity.
    + symmetry. apply filter_nothing. intros item Hitem.
      destruct (os_walk_below sub _ _ _ Hitem) as [more ->].
      rewrite !forallb_app. simpl. rewrite Hname.
      rewrite andb_false_r. reflexivity.
  - apply IHrest. intros entry Hentry. apply IH. right. exact Hentry.
Qed.

End Pruning.

Section Located.

Context (self : documenter).

Lemma listed_located (item : walk_item) :
  map descriptor_path (scan_directory item)
  = map path_of (List.filter not_ignored (located_in item)).
Proof.
  unfold scan_directory, located_in.
  induction (filenames item) as [|[file f] rest IH]; [reflexivity|].
  cbn [flat_map map List.filter]. unfold not_ignored at 1. cbn [snd fst].
  destruct (PyStr.mem file ignore_files); cbn [negb]; [exact IH|].
  cbn [app map]. rewrite descriptor_path_file_info, IH. reflexivity.
Qed.

Lemma tallied_located (item : walk_item) :
  map fst (tallied_in item)
  = map path_of (List.filter known_extension (located_in item)).
Proof.
  unfold tallied_in, located_in.
  induction (filenames item) as [|[file f] rest IH]; [reflexivity|].
  cbn [flat_map map List.filter]. unfold known_extension at 1. cbn [snd fst].
  rewrite map_app, IH.
  destruct (assoc (file_ext_of file) file_extensions); reflexivity.
Qed.

Lemma rendered_located (item : walk_item) :
  flat_map rendered_path (structure_of self item)
  = map path_of (List.filter not_ignored (located_in item)).
Proof.
  rewrite <- listed_located. symmetry. apply listed_step_rendered.
Qed.

Lemma located_kept (item : walk_item) (f : list string * string -> bool) :
  List.filter (fun located => in_kept_dirs located && f located) (located_in item)
  = if forallb keep_dir (below item) then List.filter f (located_in item) else [].
Proof.
  unfold located_in, in_kept_dirs.
  induction (filenames item) as [|[file x] rest IH].
  - destruct (forallb keep_dir (below item)); reflexivity.
  - cbn [map List.filter fst]. rewrite IH.
    destruct (forallb keep_dir (below item)); reflexivity.
Qed.

(** A walk that keeps the steps below kept directories, and at each step
    the files [f] passes, sees the files of the full walk that lie below kept
    directories and pass [f]. *)
Lemma kept_steps (f : list string * string -> bool) (walk : list walk_item) :
  flat_map (fun item => map path_of (List.filter f (located_in item)))
           (List.filter (fun item => forallb keep_dir (below item)) walk)
  = map path_of
        (List.filter (fun located => in_kept_dirs located && f located)
                     (flat_map located_in walk)).
Proof.
  induction walk as [|item rest IH]; [reflexivity|].
  cbn [List.filter flat_map]. rewrite List.filter_app, map_app, <- IH, located_kept.
  destruct (forallb keep_dir (below item)); reflexivity.
Qed.

End Located.

(** X8.  The three traversals are three filters of one list, the files of
    the tree in walk order.  The listing of [_scan_repository] holds the
    files that lie below no excluded directory name and have no ignored
    name; [_get_language_stats] counts the files that lie below no excluded
    directory name and have an extension of the table, ignored names
    included; the project structure shows every file without an ignored
    name, below excluded directories too. *)
Theorem traversals_filter (env : environment) (self : documenter) :
  listed_paths env self
  = map path_of
        (List.filter (fun located => in_kept_dirs located && not_ignored located)
                     (tree_files env self))
  /\ map fst (tallied_files env self)
     = map path_of
           (List.filter (fun located => in_kept_dirs located && known_extension located)
                        (tree_files env self))
  /\ rendered_paths env self
     = map path_of (List.filter not_ignored (tree_files env self)).
Proof.
  unfold tree_files. split; [|split].
  - rewrite listed_paths_steps, (os_walk_filter keep_dir) by reflexivity.
    rewrite <- kept_steps. apply flat_map_ext. intros item. apply listed_located.
  - unfold tallied_files.
    rewrite (os_walk_filter keep_dir) by reflexivity.
    rewrite <- kept_steps.
    induction (List.filter (fun item => forallb keep_dir (below item))
                 (os_walk (fun _ => true) (repo_path self) [] (repo_tree env)))
      as [|item rest IH]; [reflexivity|].
    cbn [flat_map]. rewrite map_app, IH, tallied_located. reflexivity.
  - rewrite rendered_paths_steps.
    induction (os_walk (fun _ => true) (repo_path self) [] (repo_tree env))
      as [|item rest IH]; [reflexivity|].
    cbn [flat_map]. rewrite List.filter_app, map_app, IH, (rendered_located self).
    reflexivity.
Qed.

(** ** The language statistics *)

Section Counters.

Lemma assoc_increment (k lang : string) (stats : list (string * nat)) :
  assoc lang (increment k stats)
  = if String.eqb lang k then Some (default 0 (assoc lang stats) + 1)
    else assoc lang stats.
Proof.
  induction stats as [|[k' n] rest IH].
  - cbn [increment]. unfold assoc at 1. destruct (String.eqb lang k); reflexivity.
  - cbn [increment]. destruct (String.eqb_spec k k') as [->|Hk].
    + unfold assoc; fold (@assoc nat).
      destruct (String.eqb lang k'); reflexivity.
    + unfold assoc; fold (@assoc nat).
      destruct (String.eqb_spec lang k') as [->|Hl].
      * destruct (String.eqb_spec k' k); [congruence|reflexivity].
      * exact IH.
Qed.

Lemma keys_increment (k : string) (stats : list (string * nat)) :
  map fst (increment k stats)
  = if PyStr.mem k (map fst stats) then map fst stats else map fst stats ++ [k].
Proof.
  induction stats as [|[k' n] rest IH]; [reflexivity|].
  cbn [increment map fst]. unfold PyStr.mem. cbn [existsb].
  destruct (String.eqb k k'); [reflexivity|].
  cbn [map fst orb]. rewrite IH. unfold PyStr.mem.
  destruct (existsb (String.eqb k) (map fst rest)); reflexivity.
Qed.

Lemma sum_increment (k : string) (stats : list (string * nat)) :
  list_sum (map snd (increment k stats)) = S (list_sum (map snd stats)).
Proof.
  induction stats as [|[k' n] rest IH]; [reflexivity|].
  cbn [increment]. destruct (String.eqb k k'); cbn [map snd list_sum fold_right].
  - lia.
  - unfold list_sum in IH. rewrite IH. lia.
Qed.

Lemma nodup_increment (k : string) (stats : list (string * nat)) :
  List.NoDup (map fst stats) -> List.NoDup (map fst (increment k stats)).
Proof.
  intros H. rewrite keys_increment.
  destruct (PyStr.mem k (map fst stats)) eqn:E; [exact H|].
  apply List.NoDup_app; [exact H | repeat constructor; intros [] |].
  intros x Hx [<-|[]].
  apply mem_In in Hx. congruence.
Qed.

Variable tallied : list (string * string).

Lemma tally_nodup (stats : list (string * nat)) :
  List.NoDup (map fst stats) ->
  List.NoDup
    (map fst (fold_left (fun stats entry => increment (snd entry) stats) tallied stats)).
Proof.
  revert stats.
  induction tallied as [|entry rest IH]; intros stats H; [exact H|].
  cbn [fold_left]. apply IH, nodup_increment, H.
Qed.

Lemma tally_sum (stats : list (string * nat)) :
  list_sum
    (map snd (fold_left (fun stats entry => increment (snd entry) stats) tallied stats))
  = list_sum (map snd stats) + length tallied.
Proof.
  revert stats.
  induction tallied as [|entry rest IH]; intros stats; [simpl; lia|].
  cbn [fold_left length]. rewrite IH, sum_increment. lia.
Qed.

Lemma tally_count (lang : string) (stats : list (string * nat)) :
  assoc lang (fold_left (fun stats entry => increment (snd entry) stats) tallied stats)
  = match count_occ string_dec (map snd tallied) lang with
    | 0 => assoc lang stats
    | S n => Some (default 0 (assoc lang stats) + S n)
    end.
Proof.
  revert stats.
  induction tallied as [|[path k] rest IH]; intros stats; [reflexivity|].
  cbn [fold_left map snd count_occ]. rewrite IH, assoc_increment.
  destruct (string_dec k lang) as [->|Hk].
  - rewrite String.eqb_refl.
    destruct (count_occ string_dec (map snd rest) lang); cbn [from_option id];
      f_equal; lia.
  - destruct (String.eqb_spec lang k); [congruence|]. reflexivity.
Qed.

Lemma tally_keys (stats : list (string * nat)) (lang : string) :
  In lang
     (map fst (fold_left (fun stats entry => increment (snd entry) stats) tallied stats)) ->
  In lang (map fst stats) \/ In lang (map snd tallied).
Proof.
  revert stats.
  induction tallied as [|[path k] rest IH]; intros stats H; [left; exact H|].
  cbn [fold_left snd] in H. apply IH in H as [H|H]; [|right; right; exact H].
  rewrite keys_increment in H.
  destruct (PyStr.mem k (map fst stats)); [left; exact H|].
  apply in_app_or in H as [H|[<-|[]]]; [left; exact H|].
  right. left. reflexivity.
Qed.

End Counters.

Lemma tallied_languages (item : walk_item) (lang : string) :
  In lang (map snd (tallied_in item)) -> In lang (map snd file_extensions).
Proof.
  unfold tallied_in. intros H. apply in_map_iff in H as [[path l] [<- H]].
  apply in_flat_map in H as [[file f] [_ H]]. cbn [fst] in H.
  destruct (assoc (file_ext_of file) file_extensions) as [found|] eqn:E;
    [|destruct H].
  destruct H as [[= _ <-]|[]]. cbn [snd].
  clear -E. unfold assoc in E.
  induction file_extensions as [|[ext l] rest IH]; [discriminate|].
  cbn [map snd]. destruct (String.eqb (file_ext_of file) ext).
  - injection E as ->. left. reflexivity.
  - right. apply IH, E.
Qed.

(** X9.  The dictionary [_get_language_stats] returns has no key twice, and
    every key is a language of the extension table.  A language is a key
    exactly when some counted file has it, and its counter is then the
    number of counted files of that language; so the counters add up to the
    number of counted files (the files below no excluded directory whose
    extension is in the table). *)
Theorem language_stats_counts (env : environment) (self : documenter) :
  let stats := _get_language_stats env self in
  let counted := map snd (tallied_files env self) in
  List.NoDup (map fst stats)
  /\ Forall (fun lang => In lang (map snd file_extensions)) (map fst stats)
  /\ (forall lang,
        assoc lang stats
        = match count_occ string_dec counted lang with
          | 0 => None
          | n => Some n
          end)
  /\ list_sum (map snd stats) = length counted.
Proof.
  intros stats counted. subst stats counted. rewrite language_stats_tally.
  split; [|split; [|split]].
  - apply tally_nodup. constructor.
  - apply List.Forall_forall. intros lang H.
    apply tally_keys in H as [[]|H].
    unfold tallied_files in H. apply in_map_iff in H as [entry [<- H]].
    apply in_flat_map in H as [item [_ H]].
    apply (tallied_languages item). apply in_map. exact H.
  - intros lang. rewrite tally_count.
    destruct (count_occ string_dec (map snd (tallied_files env self)) lang);
      reflexivity.
  - rewrite tally_sum, length_map. reflexivity.
Qed.

(** ** The name of the repository *)

Module SplitFacts.
Import PyStr ReplaceFacts.

Lemma split_nonempty (c : ascii) (s : string) : split c s <> [].
Proof.
  destruct s as [|a r]; [discriminate|]. cbn [split].
  destruct (Ascii.eqb a c); [discriminate|]. destruct (split c r); discriminate.
Qed.

(** No piece of a split holds the separator. *)
Lemma split_pieces (c : ascii) (s : string) :
  Forall (fun piece => has_char c piece = false) (split c s).
Proof.
  induction s as [|a r IH]; [repeat constructor|]. cbn [split].
  destruct (Ascii.eqb_spec a c) as [->|Hne].
  - constructor; [reflexivity|exact IH].
  - destruct (split c r) as [|w ws]; [repeat constructor; simpl|].
    + destruct (Ascii.eqb_spec c a); [congruence|reflexivity].
    + inversion IH as [|? ? Hw Hws]; subst. constructor; [|exact Hws].
      simpl. rewrite Hw. destruct (Ascii.eqb_spec c a); [congruence|reflexivity].
Qed.

(** After a separator at the very end comes one more piece, the empty
    one. *)
Lemma split_trailing (c : ascii) (s : string) :
  split c (s +:+ String c "") = split c s ++ [""].
Proof.
  induction s as [|a r IH].
  - change ("" +:+ String c "") with (String c ""). cbn [split].
    rewrite Ascii.eqb_refl. reflexivity.
  - rewrite app_cons. cbn [split]. rewrite IH.
    destruct (Ascii.eqb a c); [reflexivity|].
    pose proof (split_nonempty c r) as Hne.
    destruct (split c r) as [|w ws]; [congruence|reflexivity].
Qed.

Lemma last_piece (c : ascii) (s : string) :
  has_char c (List.last (split c s) "") = false.
Proof.
  pose proof (split_pieces c s) as H.
  induction H as [|piece pieces Hpiece _ IH]; [reflexivity|].
  destruct pieces; [exact Hpiece|exact IH].
Qed.

Lemma has_char_take (c : ascii) (n : nat) (s : string) :
  has_char c s = false -> has_char c (take n s) = false.
Proof.
  revert s. induction n as [|n IH]; intros [|a s]; try reflexivity.
  simpl. intros H. apply orb_false_iff in H as [Ha Hs].
  rewrite Ha, IH by exact Hs. reflexivity.
Qed.

End SplitFacts.

(** X10.  The repository name [get_repo_info] returns never holds a slash:
    it is the last piece of the remote URL's path, with one [.git] taken off
    its end, or the base name of the local path, or the fixed text for an
    unknown name. *)
Theorem repo_name_single_segment (env : environment) (self : documenter) :
  has_char "/" (name (get_repo_info env self)) = false.
Proof.
  unfold get_repo_info. cbn [name].
  destruct (negb (String.eqb (git_remote_url env) "")).
  - pose proof (SplitFacts.last_piece "/" (urlparse_path env (git_remote_url env)))
      as Hlast.
    destruct (PyStr.endswith _ ".git"); [|exact Hlast].
    apply SplitFacts.has_char_take, Hlast.
  - destruct (negb (String.eqb (repo_path self) "")); [|reflexivity].
    apply SplitFacts.last_piece.
Qed.

(** X11.  A remote URL whose path ends in a slash gives the empty
    repository name: the name is what follows the last slash of the path. *)
Theorem repo_name_trailing_slash
    (env : environment) (self : documenter) (front : string) :
  git_remote_url env <> "" ->
  urlparse_path env (git_remote_url env) = front +:+ "/" ->
  name (get_repo_info env self) = "".
Proof.
  intros Hurl Hpath. unfold get_repo_info. cbn [name].
  destruct (String.eqb_spec (git_remote_url env) ""); [contradiction|].
  cbn [negb]. rewrite Hpath, SplitFacts.split_trailing, last_last. reflexivity.
Qed.

Lemma repo_name_trailing_slash_witness :
  let env := cloned_from "https://github.com/user/repo/" "/user/repo/" in
  name (get_repo_info env sample_self) = ""
  /\ github_parts env (git_remote_url env) = ("user", "repo").
Proof.
  intros env. split.
  - apply (repo_name_trailing_slash env sample_self "/user/repo");
      [discriminate|reflexivity].
  - vm_compute. reflexivity.
Defined.

(** ** The name of the saved file *)

Module FileNameFacts.
Import PyStr ReplaceFacts.

(** Replacing one character. *)
Lemma replace_char (c a : ascii) (s new : string) :
  replace (String a s) (String c "") new
  = if Ascii.eqb c a then new +:+ replace s (String c "") new
    else String a (replace s (String c "") new).
Proof.
  rewrite replace_cons, prefix_cons, prefix_empty.
  destruct (Ascii.eqb c a); reflexivity.
Qed.

Lemma replace_char_clears (c : ascii) (s new : string) :
  has_char c new = false -> has_char c (replace s (String c "") new) = false.
Proof.
  intros Hnew. induction s as [|a s IH]; [reflexivity|].
  rewrite replace_char. destruct (Ascii.eqb c a) eqn:E.
  - rewrite has_char_app, Hnew, IH. reflexivity.
  - simpl. rewrite E, IH. reflexivity.
Qed.

Lemma replace_char_len (c d : ascii) (s : string) :
  len (replace s (String c "") (String d "")) = len s.
Proof.
  induction s as [|a s IH]; [reflexivity|].
  rewrite replace_char. unfold len in *.
  destruct (Ascii.eqb c a).
  - change (String d "" +:+ replace s (String c "") (String d ""))
      with (String d (replace s (String c "") (String d ""))).
    cbn [String.length]. rewrite IH. reflexivity.
  - cbn [String.length]. rewrite IH. reflexivity.
Qed.

Lemma len_app (s t : string) : len (s +:+ t) = len s + len t.
Proof.
  induction s as [|a s IH]; [reflexivity|]. rewrite app_cons.
  unfold len in *. cbn [String.length]. rewrite IH. reflexivity.
Qed.

End FileNameFacts.

(** X12.  Whatever the name of the repository, the name of the saved file
    holds no space, no slash and no backslash, so the document is written
    into the working directory; it is as long as the repository name and the
    fourteen characters of [README_FOR_] and [.md]. *)
Theorem output_path_flat (name : string) :
  has_char " " (output_path name) = false
  /\ has_char "/" (output_path name) = false
  /\ has_char "\" (output_path name) = false
  /\ PyStr.len (output_path name) = PyStr.len name + 14.
Proof.
  unfold output_path, repo_name_for_file.
  assert (H1 : has_char " " (PyStr.replace name " " "_") = false)
    by (apply FileNameFacts.replace_char_clears; reflexivity).
  assert (H2 : has_char "/" (PyStr.replace (PyStr.replace name " " "_") "/" "_") = false)
    by (apply FileNameFacts.replace_char_clears; reflexivity).
  split; [|split; [|split]].
  - rewrite !ReplaceFacts.has_char_app.
    rewrite ReplaceFacts.has_char_replace; [reflexivity| |reflexivity].
    apply ReplaceFacts.has_char_replace; [exact H1|reflexivity].
  - rewrite !ReplaceFacts.has_char_app.
    rewrite ReplaceFacts.has_char_replace; [reflexivity|exact H2|reflexivity].
  - rewrite !ReplaceFacts.has_char_app.
    rewrite FileNameFacts.replace_char_clears by reflexivity. reflexivity.
  - rewrite !FileNameFacts.len_app, !FileNameFacts.replace_char_len.
    change (PyStr.len "README_FOR_") with 11. change (PyStr.len ".md") with 3. lia.
Qed.

(** ** The whole run *)

Section Run.

Context (env : environment) (self : documenter).

Lemma scan_scanned : Forall scanned (_scan_repository env self).
Proof.
  apply List.Forall_forall. intros d Hin. unfold _scan_repository in Hin.
  apply in_flat_map in Hin as [item [_ Hd]]. unfold scan_directory in Hd.
  apply in_flat_map in Hd as [[file f] [_ Hd]].
  destruct (PyStr.mem file ignore_files); [destruct Hd|].
  destruct Hd as [<-|[]]. eexists _, _, _, _. reflexivity.
Qed.

Lemma chunks_of_file_info path ext language content :
  chunks_of (file_info path ext language content)
  = if truthy content && negb (PyStr.mem language skipped_languages)
    then length (split_chunks max_chunk_size (format content))
    else 0.
Proof.
  unfold chunks_of.
  destruct (file_info_lookup path ext language content) as (_ & _ & Hl & Hc & _).
  rewrite Hc, Hl. cbn [val_in].
  rewrite split_chunks_length by exact max_chunk_size_positive. reflexivity.
Qed.

Lemma analysed_insert (d : descriptor) (k : string) (v : pyval) :
  k = "analysis" \/ k = "_combine_message" -> analysed d -> analysed (<[k := v]> d).
Proof.
  intros Hk ([path Hp] & [language Hl] & [a Ha]). split; [|split].
  - exists path. rewrite lookup_insert_ne by (destruct Hk; subst; discriminate).
    exact Hp.
  - exists language. rewrite lookup_insert_ne by (destruct Hk; subst; discriminate).
    exact Hl.
  - destruct Hk as [->| ->].
    + rewrite lookup_insert_eq. eexists. reflexivity.
    + rewrite lookup_insert_ne by discriminate. eexists. exact Ha.
Qed.

Lemma analysed_file_info path ext language content :
  analysed (file_info path ext language content).
Proof.
  split; [|split]; eexists; reflexivity.
Qed.

(** The bounds on the calls made for one descriptor. *)
Lemma analyze_file_calls path ext language content st :
  let fi := file_info path ext language content in
  exists fi' st' calls,
    analyze_file env self fi st = (Ok fi', st')
    /\ analysed fi'
    /\ http_log st' = http_log st ++ calls
    /\ chunks_of fi <= length calls
    /\ length calls <= chunks_of fi + (if many_chunks fi then 1 else 0).
Proof.
  intros fi. unfold many_chunks. subst fi. rewrite chunks_of_file_info.
  destruct (truthy content) eqn:Ht;
    [destruct (PyStr.mem language skipped_languages) eqn:Hlang|]; cbn [andb negb].
  - eexists _, _, []. split; [apply analyze_file_skip; right; exact Hlang|].
    split; [apply analysed_file_info|]. rewrite app_nil_r.
    split; [reflexivity|]. simpl. lia.
  - destruct (analyze_file_run env self path ext language content st Ht Hlang)
      as [answers [Hlen Hrun]].
    cbv zeta in Hrun.
    set (chunks := split_chunks max_chunk_size (format content)) in *.
    set (template := prompt_template path language
                       (PyStr.replace (PyStr.lower language) " " "")) in *.
    assert (Hlog : length (combine (map (chunk_request self template) chunks) answers)
                   = length chunks).
    { rewrite length_combine, length_map, Hlen. apply Nat.min_id. }
    pose proof (List.filter_length_le nonempty answers) as Hresults.
    destruct (1 <? length (List.filter nonempty answers))%nat eqn:Hmany.
    + destruct Hrun as [merged Hrun]. rewrite Hrun.
      eexists _, _, _. split; [reflexivity|].
      split; [do 2 (apply analysed_insert; [tauto|]); apply analysed_file_info|].
      cbn [http_log]. split; [reflexivity|].
      rewrite length_app, Hlog. cbn [length].
      apply Nat.ltb_lt in Hmany.
      destruct (Nat.ltb_spec 1 (length chunks)); lia.
    + rewrite Hrun. eexists _, _, _. split; [reflexivity|].
      split; [do 2 (apply analysed_insert; [tauto|]); apply analysed_file_info|].
      cbn [http_log]. split; [reflexivity|].
      rewrite Hlog. destruct (1 <? length chunks)%nat; lia.
  - eexists _, _, []. split; [apply analyze_file_skip; left; exact Ht|].
    split; [apply analysed_file_info|]. rewrite app_nil_r.
    split; [reflexivity|]. simpl. lia.
Qed.

(** The first loop of [generate_readme] on scanned descriptors. *)
Lemma analyze_files_calls (files : list descriptor) :
  Forall scanned files ->
  forall st,
    exists files' st' calls,
      analyze_files env self files st = (Ok files', st')
      /\ Forall analysed files'
      /\ http_log st' = http_log st ++ calls
      /\ list_sum (map chunks_of files) <= length calls
      /\ length calls
         <= list_sum (map chunks_of files) + length (List.filter many_chunks files).
Proof.
  intros Hall. induction Hall as [|d files (path & ext & language & content & ->) _ IH];
    intros st.
  - exists [], st, []. rewrite app_nil_r. repeat split; try constructor; simpl; lia.
  - destruct (analyze_file_calls path ext language content st)
      as (fi' & st1 & calls1 & Hrun1 & Hfi & Hlog1 & Hlow1 & Hhigh1).
    destruct (IH st1) as (files' & st2 & calls2 & Hrun2 & Hfiles & Hlog2 & Hlow2 & Hhigh2).
    exists (fi' :: files'), st2, (calls1 ++ calls2).
    split.
    { cbn [analyze_files]. unfold mbind at 1, M_bind at 1. rewrite Hrun1.
      unfold mbind at 1, M_bind at 1. rewrite Hrun2. reflexivity. }
    split; [constructor; assumption|].
    split; [rewrite Hlog2, Hlog1, <- app_assoc; reflexivity|].
    rewrite length_app. cbn [map list_sum fold_right List.filter].
    fold (list_sum (map chunks_of files)).
    destruct (many_chunks (file_info path ext language content)); cbn [length]; lia.
Qed.

Lemma format_files_ok (files : list descriptor) :
  Forall analysed files ->
  forall formatted, exists out, format_files files formatted = Ok out.
Proof.
  intros Hall. induction Hall as [|d files ([path Hp] & [language Hl] & [a Ha]) _ IH];
    intros formatted.
  - exists formatted. reflexivity.
  - cbn [format_files]. unfold getitem. rewrite Ha, Hp, Hl.
    cbn [mbind result_bind].
    destruct (truthy a && negb (String.eqb (format a) analysis_failed)); apply IH.
Qed.

Lemma analysed_has_path (files : list descriptor) :
  Forall analysed files -> Forall has_path files.
Proof.
  intros H. eapply Forall_impl; [exact H|]. intros d (Hp & _). exact Hp.
Qed.

Lemma section_ok (fields : gmap string jvalue) (key : string) :
  exists text, section env (JObj fields) key = Ok text.
Proof.
  unfold section, section_get. destruct (fields !! key) as [[]|]; eexists; reflexivity.
Qed.

(** The template is built for every section object, and for nothing else:
    a parsed answer that is no object has no [get]. *)
Lemma template_outcome (info : repo_info) (sections : jvalue) :
  match sections with
  | JObj _ => exists content, readme_template_content env info sections = Ok content
  | _ => readme_template_content env info sections = Raise AttributeError
  end.
Proof.
  unfold readme_template_content.
  destruct (github_parts env (remote_url info)) as [github_user github_repo_name].
  destruct sections as [| | | | |fields]; try reflexivity.
  repeat match goal with
         | |- context [section env (JObj fields) ?key] =>
             let text := fresh "text" in
             let H := fresh "H" in
             destruct (section_ok fields key) as [text H]; rewrite H; clear H
         end.
  cbn [mbind result_bind]. eexists. reflexivity.
Qed.

End Run.

Section Pipeline.

Context (env : environment) (self : documenter).

(** [generate_readme] on scanned descriptors: the analyses, one request
    for the sections, then the template and the renderer. *)
Lemma generate_readme_run (info : repo_info) (st : state) :
  Forall scanned (files info) ->
  exists analyzed st1 calls prompt answer,
    Forall analysed analyzed
    /\ http_log st1 = http_log st ++ calls
    /\ list_sum (map chunks_of (files info)) <= length calls
    /\ length calls
       <= list_sum (map chunks_of (files info))
          + length (List.filter many_chunks (files info))
    /\ fst (analyze_with_llm env self prompt (Some "application/json")
                             (Some response_schema) st1) = Ok answer
    /\ generate_readme env self info st
       = (content ← readme_template_content env (with_files info analyzed)
                      (generated_sections (json_loads env answer));
          _postprocess_readme env self content (with_files info analyzed),
          logged st1 (sections_request self prompt) answer).
Proof.
  intros Hscanned.
  destruct (analyze_files_calls env self (files info) Hscanned st)
    as (analyzed & st1 & calls & Hrun & Hanalysed & Hlog & Hlow & Hhigh).
  destruct (format_files_ok analyzed Hanalysed []) as [formatted Hformat].
  exists analyzed, st1, calls.
  set (files_analysis := match formatted with
                         | [] => files_analysis_unavailable
                         | _ => PyStr.join PyStr.nl formatted
                         end).
  set (info' := with_files info analyzed).
  set (prompt :=
         llm_prompt_for_sections (name info') (remote_url info')
           match language_stats info' with
           | [] => languages_undetermined
           | stats => PyStr.join ", " (map fst stats)
           end
           (default unknown_text (last_commit info' !! "message"))
           (default unknown_text (last_commit info' !! "author"))
           (default unknown_text (last_commit info' !! "date"))
           files_analysis).
  destruct (analyze_with_llm_returns env self prompt (Some "application/json")
              (Some response_schema) st1) as [answer Hcall].
  exists prompt, answer.
  split; [exact Hanalysed|]. split; [exact Hlog|].
  split; [exact Hlow|]. split; [exact Hhigh|].
  split; [rewrite Hcall; reflexivity|].
  unfold generate_readme.
  unfold mbind at 1, M_bind at 1. rewrite Hrun.
  unfold mbind at 1, M_bind at 1, lift at 1, _format_files_analysis.
  cbn [files with_files]. rewrite Hformat. cbn [mbind result_bind].
  fold files_analysis. fold info'.
  unfold mbind at 1, M_bind at 1.
  change (analyze_with_llm env self _ (Some "application/json") (Some response_schema) st1)
    with (analyze_with_llm env self prompt (Some "application/json")
            (Some response_schema) st1).
  rewrite Hcall.
  unfold mbind at 1, M_bind at 1, lift, sections_request.
  destruct (readme_template_content env info'
              (generated_sections (json_loads env answer))); reflexivity.
Qed.

End Pipeline.

(** X13.  On the repository information [get_repo_info] returns,
    [generate_readme] raises in one case only: the answer to the request for
    the sections parses as JSON that is no object (a list, a string, a
    number, true, false or null), and the exception is then the
    AttributeError of its [get].  When the answer does not parse, or parses
    to an object, a document is returned. *)
Theorem generate_readme_outcome
    (env : environment) (self : documenter) (st : state) :
  let run := generate_readme env self (get_repo_info env self) st in
  match json_loads env (List.last (answers_of run) "") with
  | None | Some (JObj _) => exists document, fst run = Ok document
  | Some _ => fst run = Raise AttributeError
  end.
Proof.
  intros run.
  destruct (generate_readme_run env self (get_repo_info env self) st
              (scan_scanned env self))
    as (analyzed & st1 & calls & prompt & answer & Hanalysed & _ & _ & _ & _ & Hrun).
  subst run. rewrite Hrun. clear Hrun.
  unfold answers_of, logged. cbn [snd fst http_log].
  rewrite map_app. cbn [map snd]. rewrite last_last.
  set (info := with_files (get_repo_info env self) analyzed).
  assert (Hobject : forall fields,
             exists document,
               (content ← readme_template_content env info (JObj fields);
                _postprocess_readme env self content info) = Ok document).
  { intros fields.
    destruct (template_outcome env info (JObj fields)) as [content Hcontent].
    rewrite Hcontent. cbn [mbind result_bind].
    rewrite (postprocess_replaces env self)
      by (apply analysed_has_path; exact Hanalysed).
    eexists. reflexivity. }
  assert (Hother : forall sections,
             match sections with JObj _ => False | _ => True end ->
             (content ← readme_template_content env info sections;
              _postprocess_readme env self content info) = Raise AttributeError).
  { intros sections Hsections.
    pose proof (template_outcome env info sections) as H.
    destruct sections; try contradiction; rewrite H; reflexivity. }
  destruct (json_loads env answer) as [[| | | | |fields]|]; cbn [generated_sections];
    try (apply Hother; exact I).
  - apply Hobject.
  - apply Hobject.
Qed.

(** X14.  The calls of a run.  On the repository information
    [get_repo_info] returns, [generate_readme] first makes the calls of the
    file analyses: at least one for each chunk of 5000 characters of every
    file it analyses, and at most one more for each file of two chunks or
    more.  Then it makes exactly one call more, the request for the
    sections, whose body asks for the format [json] and carries the schema
    under [options.response_schema]. *)
Theorem generate_readme_calls
    (env : environment) (self : documenter) (st : state) :
  let info := get_repo_info env self in
  let run := generate_readme env self info st in
  let chunks := list_sum (map chunks_of (files info)) in
  let long := length (List.filter many_chunks (files info)) in
  exists calls prompt answer,
    http_log (snd run) = http_log st ++ calls ++ [(sections_request self prompt, answer)]
    /\ chunks <= length calls
    /\ length calls <= chunks + long
    /\ data_format (sections_request self prompt) = Some "json"
    /\ data_options (sections_request self prompt)
       = Some (<["response_schema" := JObj response_schema]> ∅).
Proof.
  intros info run chunks long.
  destruct (generate_readme_run env self info st (scan_scanned env self))
    as (analyzed & st1 & calls & prompt & answer & _ & Hlog & Hlow & Hhigh & _ & Hrun).
  exists calls, prompt, answer. subst run. rewrite Hrun.
  unfold logged. cbn [snd http_log]. rewrite Hlog, <- app_assoc.
  split; [reflexivity|]. split; [exact Hlow|]. split; [exact Hhigh|].
  split; [reflexivity|].
  unfold sections_request, llm_request. cbn [data_options].
  assert (Hsize : size response_schema = 3) by (vm_compute; reflexivity).
  rewrite Hsize. reflexivity.
Qed.

(** ** Placeholders that stay *)

Section Unfilled.
Import PyStr ReplaceFacts.

Context (env : environment) (self : documenter).

Lemma assoc_In {V : Type} (k : string) (v : V) (table : list (string * V)) :
  assoc k table = Some v -> In (k, v) table.
Proof.
  unfold assoc. induction table as [|[k' v'] rest IH]; [discriminate|].
  destruct (String.eqb_spec k k') as [->|_].
  - intros [= ->]. left. reflexivity.
  - intros H. right. apply IH, H.
Qed.

Lemma devicon_map_free (lang icon : string) :
  assoc lang devicon_map = Some icon ->
  has_char "{" lang = false /\ has_char "{" icon = false.
Proof.
  intros H. apply assoc_In in H.
  assert (Hall : forallb (fun entry : string * string =>
                            negb (has_char "{" (fst entry))
                            && negb (has_char "{" (snd entry)))
                         devicon_map = true) by (vm_compute; reflexivity).
  rewrite forallb_forall in Hall. apply Hall in H. cbn [fst snd] in H.
  apply andb_true_iff in H as [H1 H2].
  apply negb_true_iff in H1, H2. split; assumption.
Qed.

Lemma devicons_free (language_stats : list (string * nat)) :
  has_char "{" (devicons language_stats) = false.
Proof.
  unfold devicons. generalize (eq_refl : has_char "{" "" = false).
  generalize "". induction language_stats as [|[lang n] rest IH]; intros acc Hacc.
  - exact Hacc.
  - cbn [fold_left fst]. apply IH.
    destruct (assoc lang devicon_map) as [icon|] eqn:E; [|exact Hacc].
    destruct (devicon_map_free lang icon E) as [Hlang Hicon].
    unfold devicon_img. rewrite !has_char_app, Hacc, Hlang, Hicon. reflexivity.
Qed.

Lemma split_free (x c : ascii) (s : string) :
  has_char x s = false -> Forall (fun piece => has_char x piece = false) (split c s).
Proof.
  induction s as [|a r IH]; [repeat constructor|]. cbn [has_char split].
  intros H. apply orb_false_iff in H as [Ha Hr]. specialize (IH Hr).
  destruct (Ascii.eqb a c).
  - constructor; [reflexivity|exact IH].
  - destruct (split c r) as [|w ws]; [repeat constructor; simpl; rewrite Ha; reflexivity|].
    inversion IH as [|? ? Hw Hws]; subst. constructor; [|exact Hws].
    simpl. rewrite Ha, Hw. reflexivity.
Qed.

Lemma forall_nth {A : Type} (P : A -> Prop) (l : list A) (n : nat) (d : A) :
  Forall P l -> P d -> P (nth n l d).
Proof.
  intros Hl Hd. revert n. induction Hl as [|x l Hx _ IH]; intros [|n]; simpl; auto.
Qed.

Lemma forall_last {A : Type} (P : A -> Prop) (l : list A) (d : A) :
  Forall P l -> P d -> P (List.last l d).
Proof.
  intros Hl Hd. induction Hl as [|x l Hx Hl IH]; [exact Hd|].
  destruct l; [exact Hx|exact IH].
Qed.

Lemma github_parts_free (remote_url : string) :
  has_char "{" (urlparse_path env remote_url) = false ->
  has_char "{" (fst (github_parts env remote_url)) = false
  /\ has_char "{" (snd (github_parts env remote_url)) = false.
Proof.
  intros Hpath. unfold github_parts.
  destruct (contains "github.com" remote_url); [|split; reflexivity].
  set (path_parts := List.filter _ _).
  assert (Hparts : Forall (fun piece => has_char "{" piece = false) path_parts).
  { subst path_parts. apply List.Forall_forall. intros piece Hin.
    apply filter_In in Hin as [Hin _].
    pose proof (split_free "{" "/" _ Hpath) as Hall.
    rewrite List.Forall_forall in Hall. apply Hall, Hin. }
  destruct (2 <=? length path_parts)%nat; [|split; reflexivity].
  cbn [fst snd]. split.
  - apply forall_nth; [exact Hparts|reflexivity].
  - apply has_char_replace; [|reflexivity].
    apply forall_last; [exact Hparts|reflexivity].
Qed.

Lemma has_char_skip (c : ascii) (s t : string) :
  has_char c s = false -> has_char c (s +:+ t) = has_char c t.
Proof. intros H. rewrite has_char_app, H. reflexivity. Qed.

Lemma readme_head_free (info : repo_info) (github_user github_repo_name : string) :
  has_char "{" (name info) = false ->
  has_char "{" github_user = false -> has_char "{" github_repo_name = false ->
  has_char "{"
    (readme_banner (name info) +:+ devicons (language_stats info)
     +:+ nl +:+ "</p>" +:+ nl +:+ nl
     +:+ (if negb (String.eqb github_user "") && negb (String.eqb github_repo_name "")
          then project_badges github_user github_repo_name else "")) = false.
Proof.
  intros Hname Huser Hrepo.
  assert (Hbanner : has_char "{" (readme_banner (name info)) = false).
  { unfold readme_banner.
    repeat (rewrite has_char_skip by first [assumption | vm_compute; reflexivity]).
    vm_compute. reflexivity. }
  assert (Hbadges : has_char "{" (project_badges github_user github_repo_name) = false).
  { unfold project_badges.
    repeat (rewrite has_char_skip by first [assumption | vm_compute; reflexivity]).
    vm_compute. reflexivity. }
  rewrite !has_char_app, Hbanner, devicons_free.
  destruct (negb (String.eqb github_user "") && negb (String.eqb github_repo_name ""));
    [rewrite Hbadges|]; reflexivity.
Qed.

Lemma required_key (key : string) :
  PyStr.mem key required_keys = true -> In key required_keys.
Proof. apply mem_In. Qed.

(** Seven results in a row. *)
Lemma seven_results (r1 r2 r3 r4 r5 r6 r7 : result string)
    (build : string -> string -> string -> string -> string -> string -> string -> string)
    (content : string) :
  (a ← r1; b ← r2; c ← r3; d ← r4; e ← r5; f ← r6; g ← r7;
   Ok (build a b c d e f g)) = Ok content ->
  exists a b c d e f g,
    r1 = Ok a /\ r2 = Ok b /\ r3 = Ok c /\ r4 = Ok d /\ r5 = Ok e /\ r6 = Ok f
    /\ r7 = Ok g /\ content = build a b c d e f g.
Proof.
  destruct r1 as [a|]; [|discriminate]. destruct r2 as [b|]; [|discriminate].
  destruct r3 as [c|]; [|discriminate]. destruct r4 as [d|]; [|discriminate].
  destruct r5 as [e|]; [|discriminate]. destruct r6 as [f|]; [|discriminate].
  destruct r7 as [g|]; [|discriminate].
  cbn [mbind result_bind]. intros [= <-].
  exists a, b, c, d, e, f, g. repeat split; reflexivity.
Qed.

(** No text that begins with an opening brace twice occurs in the
    template, when none of the texts put into it holds an opening brace:
    its own braces are the single ones around the three placeholders. *)
Lemma template_token_free (token_tail : string) (info : repo_info) (sections : jvalue)
    (content : string) :
  contains (String "{" (String "{" token_tail))
           (readme_sections "" "" "" "" "" "" "") = false ->
  has_char "{" (name info) = false ->
  has_char "{" (urlparse_path env (remote_url info)) = false ->
  (forall key text,
      In key required_keys ->
      section env sections key = Ok text -> has_char "{" text = false) ->
  readme_template_content env info sections = Ok content ->
  contains (String "{" (String "{" token_tail)) content = false.
Proof.
  intros Hfixed Hname Hurl Hsections. unfold readme_template_content.
  destruct (github_parts_free (remote_url info) Hurl) as [Huser Hrepo].
  destruct (github_parts env (remote_url info)) as [github_user github_repo_name].
  cbn [fst snd] in Huser, Hrepo.
  intros Hcontent. apply seven_results in Hcontent
    as (a & b & c & d & e & f & g & Ha & Hb & Hc & Hd & He & Hf & Hg & ->).
  apply Hsections in Ha, Hb, Hc, Hd, He, Hf, Hg;
    try (apply required_key; vm_compute; reflexivity).
  rewrite contains_app_skip.
  - unfold readme_sections in Hfixed |- *.
    repeat (rewrite contains_app_skip
              by first [assumption | vm_compute; reflexivity]).
    repeat (rewrite contains_app_skip in Hfixed by (vm_compute; reflexivity)).
    exact Hfixed.
  - apply readme_head_free; assumption.
Qed.

(** X15.  The renderer gives back the template [generate_readme] builds,
    unchanged, whenever the repository name, the path of the remote URL and
    the section texts hold no opening brace: the template carries its
    placeholders with single braces, and the renderer looks for doubled
    ones.  So the structure block, the contribution text and the license
    sentence are never put in. *)
Theorem template_comes_back
    (info : repo_info) (sections : jvalue) (content : string) :
  readme_template_content env info sections = Ok content ->
  has_char "{" (name info) = false ->
  has_char "{" (urlparse_path env (remote_url info)) = false ->
  (forall key text,
      In key required_keys ->
      section env sections key = Ok text -> has_char "{" text = false) ->
  _postprocess_readme env self content info = Ok content.
Proof.
  intros Hcontent Hname Hurl Hsections.
  apply postprocess_without_tokens;
    (eapply template_token_free;
     [vm_compute; reflexivity | exact Hname | exact Hurl | exact Hsections
     | exact Hcontent]).
Qed.

End Unfilled.

Lemma fallback_sections_free (env : environment) (key text : string) :
  In key required_keys ->
  section env fallback_object key = Ok text -> has_char "{" text = false.
Proof.
  intros Hkey. revert text. revert key Hkey.
  apply (required_keys_cases
           (fun key => forall text,
                section env fallback_object key = Ok text ->
                has_char "{" text = false));
    intros text H; vm_compute in H;
    injection H as <-; vm_compute; reflexivity.
Qed.

Lemma template_comes_back_witness :
  let env := offline scenario_tree in
  let info := get_repo_info env sample_self in
  exists content,
    readme_template_content env info fallback_object = Ok content
    /\ _postprocess_readme env sample_self content info = Ok content.
Proof.
  intros env info.
  destruct (readme_template_content env info fallback_object) as [content|e] eqn:E.
  - exists content. split; [reflexivity|].
    apply (template_comes_back env sample_self info fallback_object content E).
    + reflexivity.
    + reflexivity.
    + apply fallback_sections_free.
  - exfalso. vm_compute in E. discriminate.
Defined.

(** ** What the template carries *)

Section Carried.
Import PyStr ReplaceFacts.

Context (env : environment).

Lemma prefix_app_l (x s t : string) :
  String.prefix x s = true -> String.prefix x (s +:+ t) = true.
Proof.
  revert s. induction x as [|b x IH]; intros s H; [apply prefix_empty|].
  destruct s as [|c s]; [discriminate|].
  rewrite app_cons, prefix_cons. rewrite prefix_cons in H.
  destruct (Ascii.eqb b c); [apply IH, H|discriminate].
Qed.

Lemma prefix_refl (x : string) : String.prefix x x = true.
Proof.
  induction x as [|a x IH]; [reflexivity|].
  rewrite prefix_cons, Ascii.eqb_refl. exact IH.
Qed.

Lemma contains_app_l (x s t : string) :
  contains x s = true -> contains x (s +:+ t) = true.
Proof.
  induction s as [|a s IH].
  - intros H. apply prefix_of_empty in H. subst x.
    apply contains_prefix, prefix_empty.
  - rewrite app_cons, !contains_cons. intros H.
    apply orb_true_iff in H as [H|H]; apply orb_true_iff.
    + left. rewrite <- app_cons. apply prefix_app_l, H.
    + right. apply IH, H.
Qed.

Lemma contains_here (x t : string) : contains x (x +:+ t) = true.
Proof. apply contains_app_l, contains_prefix, prefix_refl. Qed.

(** The template holds the name and the seven section texts. *)
Lemma template_holds (info : repo_info) (sections : jvalue) (content : string) :
  readme_template_content env info sections = Ok content ->
  contains (name info) content = true
  /\ forall key text,
       In key required_keys ->
       section env sections key = Ok text -> contains text content = true.
Proof.
  unfold readme_template_content.
  destruct (github_parts env (remote_url info)) as [github_user github_repo_name].
  intros Hcontent. apply seven_results in Hcontent
    as (a & b & c & d & e & f & g & Ha & Hb & Hc & Hd & He & Hf & Hg & ->).
  split.
  - do 2 apply contains_app_l. unfold readme_banner.
    repeat first [apply contains_here | apply contains_app_r].
  - intros key text Hkey. revert text. revert key Hkey.
    apply (required_keys_cases
             (fun key => forall text, section env sections key = Ok text -> _));
      intros text Htext;
      [rewrite Ha in Htext | rewrite Hb in Htext | rewrite Hc in Htext
      | rewrite Hd in Htext | rewrite He in Htext | rewrite Hf in Htext
      | rewrite Hg in Htext];
      injection Htext as <-; apply contains_app_r; unfold readme_sections;
      repeat first [apply contains_here | apply contains_app_r].
Qed.

(** X16.  The template [generate_readme] builds holds the name of the
    repository and, for each of the seven sections, the text taken for it:
    the text of the section object under that key, or the default of the
    key. *)
Theorem template_carries (info : repo_info) (sections : jvalue) (content : string) :
  readme_template_content env info sections = Ok content ->
  contains (name info) content = true
  /\ forall key text,
       In key required_keys ->
       section env sections key = Ok text -> contains text content = true.
Proof.
  intros Hcontent. destruct (template_holds info sections content Hcontent) as [Hname Hkeys].
  split; [exact Hname|exact Hkeys].
Qed.

End Carried.

Lemma template_carries_witness :
  let env := offline scenario_tree in
  let info := get_repo_info env sample_self in
  exists content,
    readme_template_content env info fallback_object = Ok content
    /\ PyStr.contains "repo" content = true.
Proof.
  intros env info.
  destruct (readme_template_content env info fallback_object) as [content|e] eqn:E.
  - exists content. split; [reflexivity|].
    exact (proj1 (template_carries env info fallback_object content E)).
  - exfalso. vm_compute in E. discriminate.
Defined.

(** ** The analyses handed to the sections prompt *)

Section Entries.

Lemma format_files_entries (files : list descriptor) :
  Forall analysed files ->
  forall formatted,
    format_files files formatted
    = Ok (formatted ++ map analysis_entry (List.filter usable_analysis files)).
Proof.
  intros Hall. induction Hall as [|d files ([path Hp] & [language Hl] & [a Ha]) _ IH];
    intros formatted.
  - rewrite app_nil_r. reflexivity.
  - cbn [format_files List.filter]. unfold getitem, usable_analysis.
    rewrite Ha, Hp, Hl. cbn [mbind result_bind].
    destruct (truthy a && negb (String.eqb (format a) analysis_failed)).
    + rewrite IH. cbn [map]. rewrite <- app_assoc. cbn [app].
      unfold analysis_entry, descriptor_text. rewrite Ha, Hp, Hl. reflexivity.
    + apply IH.
Qed.

(** X17.  [_format_files_analysis] writes one entry for each descriptor
    whose analysis is a text that is neither empty nor the failure sentence
    of [analyze_file], in the order of the list, and joins the entries with
    newlines; a descriptor that was skipped (analysis [None]) or whose
    analysis failed is left out.  When no descriptor is left it returns the
    fixed sentence that no analysis is available. *)
Theorem format_files_analysis_entries (files : list descriptor) :
  Forall analysed files ->
  _format_files_analysis files
  = Ok (match List.filter usable_analysis files with
        | [] => files_analysis_unavailable
        | kept => PyStr.join PyStr.nl (map analysis_entry kept)
        end).
Proof.
  intros Hall. unfold _format_files_analysis.
  rewrite (format_files_entries files Hall). cbn [mbind result_bind app].
  destruct (List.filter usable_analysis files); reflexivity.
Qed.

End Entries.

Lemma format_files_analysis_entries_witness :
  Forall analysed analysed_pair
  /\ _format_files_analysis analysed_pair
     = Ok (file_analysis_entry "main.py" "Python" "Entry point.").
Proof.
  assert (H : Forall analysed analysed_pair).
  { repeat constructor; eexists; reflexivity. }
  split; [exact H|].
  rewrite (format_files_analysis_entries analysed_pair H).
  vm_compute. reflexivity.
Defined.

(** ** The working copy *)

Section WorkingCopy.
Import Lifecycle.

Context (h : host).

Lemma retries_succ (dir : string) (k : nat) :
  retries dir (S k) = [Rmtree dir; Sleep 1] ++ retries dir k.
Proof. reflexivity. Qed.

(** The loop of [cleanup] from round [i] on, [n] rounds being left. *)
Lemma remove_temp_dir_rounds (dir : string) (n : nat) :
  forall i done,
    i + n = max_retries -> 0 < n ->
    exists k,
      k < n
      /\ remove_temp_dir h dir (seq i n) done = done ++ retries dir k ++ [Rmtree dir]
      /\ (forall j, j < k ->
            rmtree h (done ++ retries dir j) dir = RaisesPermissionError)
      /\ (k < n - 1 -> rmtree h (done ++ retries dir k) dir <> RaisesPermissionError).
Proof.
  induction n as [|n IH]; intros i done Hrounds Hpos; [lia|].
  cbn [seq remove_temp_dir].
  destruct (rmtree h done dir) eqn:Hfirst.
  - exists 0. split; [lia|]. split; [reflexivity|]. split; [intros j Hj; lia|].
    intros _. cbn [retries repeat concat]. rewrite app_nil_r, Hfirst. discriminate.
  - destruct n as [|n].
    + assert (Hlt : (i <? max_retries - 1)%nat = false).
      { apply Nat.ltb_ge. unfold max_retries in *. lia. }
      rewrite Hlt. cbn [seq remove_temp_dir].
      exists 0. split; [lia|]. split; [reflexivity|].
      split; [intros j Hj; lia|intros Hk; lia].
    + assert (Hlt : (i <? max_retries - 1)%nat = true).
      { apply Nat.ltb_lt. unfold max_retries in *. lia. }
      rewrite Hlt.
      destruct (IH (S i) (done ++ [Rmtree dir] ++ [Sleep 1])) as (k & Hk & Hrun & Hbefore & Hlast);
        [lia|lia|].
      exists (S k). split; [lia|]. split.
      { rewrite Hrun, retries_succ, <- !app_assoc. reflexivity. }
      split.
      * intros [|j] Hj.
        -- cbn [retries repeat concat]. rewrite app_nil_r. exact Hfirst.
        -- rewrite retries_succ, app_assoc. apply Hbefore. lia.
      * intros Hlt'. rewrite retries_succ, app_assoc. apply Hlast. lia.
  - exists 0. split; [lia|]. split; [reflexivity|]. split; [intros j Hj; lia|].
    intros _. cbn [retries repeat concat]. rewrite app_nil_r, Hfirst. discriminate.
Qed.

(** X18.  [cleanup] of a documenter that holds a temporary directory which
    exists: after closing the repository it calls [rmtree] on that
    directory, and on nothing else, at most five times.  An attempt is
    repeated only after a PermissionError, with a pause of one second before
    the next one, so a run pauses four seconds at most; the first attempt
    that removes the directory, or fails in another way, is the last. *)
Theorem cleanup_attempts (self : instance) (done : list operation) (dir : string) :
  temp_dir self = Some dir -> dir <> "" -> path_exists h done dir = true ->
  let start := done ++ (if repo self then [CloseRepo] else []) in
  exists k,
    k < max_retries
    /\ snd (cleanup h self done) = start ++ retries dir k ++ [Rmtree dir]
    /\ (forall j, j < k ->
          rmtree h (start ++ retries dir j) dir = RaisesPermissionError)
    /\ (k < max_retries - 1 ->
        rmtree h (start ++ retries dir k) dir <> RaisesPermissionError).
Proof.
  intros Hdir Hne Hexists start. unfold cleanup. rewrite Hdir, Hexists.
  destruct (String.eqb_spec dir ""); [contradiction|]. cbn [negb andb].
  change (PyStr.range 0 max_retries 1) with (seq 0 max_retries).
  assert (Hrounds : forall from,
             exists k,
               k < max_retries
               /\ remove_temp_dir h dir (seq 0 max_retries) from
                  = from ++ retries dir k ++ [Rmtree dir]
               /\ (forall j, j < k ->
                     rmtree h (from ++ retries dir j) dir = RaisesPermissionError)
               /\ (k < max_retries - 1 ->
                   rmtree h (from ++ retries dir k) dir <> RaisesPermissionError)).
  { intros from. apply remove_temp_dir_rounds; unfold max_retries; lia. }
  subst start. destruct (repo self).
  - destruct (close_repo h done); cbn [snd]; apply Hrounds.
  - cbn [snd]. rewrite app_nil_r. apply Hrounds.
Qed.

(** X19.  A documenter made for a local path touches nothing: the only
    operation of its constructor is opening the repository at that path
    (none at all when the path does not exist), no directory is created,
    cloned into or removed, the path stays the one given, and [cleanup]
    afterwards does nothing. *)
Theorem local_repository_untouched (path : string) :
  startswith_url path = false ->
  let run := __init__ h path in
  (snd run = [] \/ snd run = [OpenRepo path])
  /\ forall self,
       fst run = Returns self ->
       repo_path self = path /\ cleanup h self (snd run) = (self, snd run).
Proof.
  intros Hlocal run. subst run. unfold __init__, initialize_repository.
  cbn [repo_path temp_dir]. rewrite Hlocal.
  destruct (path_exists h [] path); cbn [negb].
  - destruct (open_repo h [] path); cbn [fst snd app].
    + split; [right; reflexivity|]. intros self [= <-]. split; reflexivity.
    + split; [right; reflexivity|]. intros self [=].
  - cbn [fst snd]. split; [left; reflexivity|]. intros self [=].
Qed.

(** X20.  A constructor that returns has set [self.repo]; one that raises
    leaves it [None].  So the documenter the script gets always holds a
    repository. *)
Theorem constructed_has_repository (path : string) :
  match fst (__init__ h path) with
  | Returns self => repo self = true
  | Raises self => repo self = false
  end.
Proof.
  unfold __init__, initialize_repository. cbn [repo_path temp_dir repo].
  destruct (startswith_url path).
  - destruct (makedirs h [] _); cbn [negb]; [|reflexivity].
    destruct (path_exists h _ _).
    + destruct (rmtree h _ _); try reflexivity.
      destruct (clone_from h _ _ _); reflexivity.
    + destruct (clone_from h _ _ _); reflexivity.
  - destruct (path_exists h [] path); cbn [negb]; [|reflexivity].
    destruct (open_repo h [] path); reflexivity.
Qed.

End WorkingCopy.

Lemma cleanup_attempts_witness :
  let done :=
    [Lifecycle.Makedirs "/opt/tool/temp_repos";
     Lifecycle.CloneFrom "https://github.com/user/repo.git" "/opt/tool/temp_repos/repo"] in
  let start := done ++ [Lifecycle.CloseRepo] in
  exists k,
    k < Lifecycle.max_retries
    /\ snd (Lifecycle.cleanup busy_host cloned_instance done)
       = start ++ retries "/opt/tool/temp_repos" k
         ++ [Lifecycle.Rmtree "/opt/tool/temp_repos"]
    /\ (forall j, j < k ->
          Lifecycle.rmtree busy_host (start ++ retries "/opt/tool/temp_repos" j)
                           "/opt/tool/temp_repos"
          = Lifecycle.RaisesPermissionError)
    /\ (k < Lifecycle.max_retries - 1 ->
        Lifecycle.rmtree busy_host (start ++ retries "/opt/tool/temp_repos" k)
                         "/opt/tool/temp_repos"
        <> Lifecycle.RaisesPermissionError).
Proof.
  intros done start.
  apply (cleanup_attempts busy_host cloned_instance done "/opt/tool/temp_repos");
    [reflexivity|discriminate|reflexivity].
Defined.

Lemma local_repository_untouched_witness :
  let run := Lifecycle.__init__ busy_host "/home/user/project" in
  (snd run = [] \/ snd run = [Lifecycle.OpenRepo "/home/user/project"])
  /\ forall self,
       fst run = Lifecycle.Returns self ->
       Lifecycle.repo_path self = "/home/user/project"
       /\ Lifecycle.cleanup busy_host self (snd run) = (self, snd run).
Proof.
  apply (local_repository_untouched busy_host "/home/user/project"). reflexivity.
Defined.

(** ** The files that go to the model *)

Section Sent.

Context (env : environment) (self : documenter).

Lemma chunks_positive (content : pyval) :
  truthy content = true ->
  0 < length (split_chunks max_chunk_size (format content)).
Proof.
  intros Ht. rewrite split_chunks_length by exact max_chunk_size_positive.
  destruct content as [|s]; [discriminate|]. cbn [format].
  destruct s as [|a s]; [discriminate|].
  unfold ceil_div, max_chunk_size, PyStr.len. cbn [String.length].
  apply Nat.div_str_pos. lia.
Qed.

(** X22.  Which scanned files go to the model.  A descriptor of the listing
    is analysed, with at least one call, exactly when its content was read
    and is not empty and the table gives its lower-cased extension a
    language other than JSON, YAML, TOML and Markdown.  Every other
    descriptor (unreadable or empty file, unknown extension, one of the four
    languages) comes back as it is without any call. *)
Theorem scanned_files_sent :
  Forall (fun d =>
            forall st,
              let run := analyze_file env self d st in
              if sent_to_model d
              then exists d' call calls,
                     fst run = Ok d'
                     /\ http_log (snd run) = http_log st ++ call :: calls
              else run = (Ok d, st))
         (_scan_repository env self).
Proof.
  apply List.Forall_forall. intros d Hin st. unfold _scan_repository in Hin.
  apply in_flat_map in Hin as [item [_ Hd]]. unfold scan_directory in Hd.
  apply in_flat_map in Hd as [[file f] [_ Hd]].
  destruct (PyStr.mem file ignore_files); [destruct Hd|].
  destruct Hd as [<-|[]].
  set (path := OsPath.relpath (below item) file).
  set (ext := file_ext_of file).
  set (content := _read_file_content f).
  assert (Hsent : sent_to_model
                    (file_info path ext (default "Unknown" (assoc ext file_extensions))
                               content)
                  = truthy content
                    && negb (PyStr.mem (default "Unknown" (assoc ext file_extensions))
                                       skipped_languages)).
  { unfold sent_to_model.
    destruct (file_info_lookup path ext (default "Unknown" (assoc ext file_extensions))
                content) as (_ & He & _ & Hc & _).
    rewrite Hc, He. destruct (assoc ext file_extensions); reflexivity. }
  cbv zeta. rewrite Hsent.
  destruct (truthy content) eqn:Ht;
    [destruct (PyStr.mem (default "Unknown" (assoc ext file_extensions))
                         skipped_languages) eqn:Hlang|]; cbn [andb negb].
  - apply analyze_file_skip. right. exact Hlang.
  - destruct (analyze_file_calls env self path ext
                (default "Unknown" (assoc ext file_extensions)) content st)
      as (fi' & st' & calls & Hrun & _ & Hlog & Hlow & _).
    rewrite chunks_of_file_info, Ht, Hlang in Hlow. cbn [andb negb] in Hlow.
    pose proof (chunks_positive content Ht) as Hpos.
    destruct calls as [|call calls]; [simpl in Hlow; lia|].
    exists fi', call, calls. rewrite Hrun. split; [reflexivity|exact Hlog].
  - apply analyze_file_skip. left. exact Ht.
Qed.

End Sent.

(** ** A run without the model *)

Section Offline.
Import PyStr ReplaceFacts.

Context (env : environment) (self : documenter).

Lemma failed_call_empty prompt mime schema st :
  call_failed (requests_post env (map fst (http_log st))
                 (llm_request self prompt mime schema)) ->
  fst (analyze_with_llm env self prompt mime schema st) = Ok "".
Proof.
  intros Hfailed.
  destruct (post_and_read_failed env _ _ Hfailed) as [e He].
  unfold analyze_with_llm. rewrite He.
  destruct (is_RequestException e), (is_JSONDecodeError e); reflexivity.
Qed.

Lemma repo_name_free :
  has_char "{" (repo_path self) = false ->
  has_char "{" (urlparse_path env (git_remote_url env)) = false ->
  has_char "{" (name (get_repo_info env self)) = false.
Proof.
  intros Hpath Hurl. unfold get_repo_info. cbn [name].
  destruct (negb (String.eqb (git_remote_url env) "")).
  - assert (Hlast : has_char "{"
                      (List.last (split "/" (urlparse_path env (git_remote_url env))) "")
                    = false).
    { apply (forall_last (fun piece => has_char "{" piece = false));
        [apply split_free, Hurl|reflexivity]. }
    destruct (endswith _ ".git"); [|exact Hlast].
    apply SplitFacts.has_char_take, Hlast.
  - destruct (negb (String.eqb (repo_path self) "")); [|reflexivity].
    unfold OsPath.basename.
    apply (forall_last (fun piece => has_char "{" piece = false));
      [apply split_free, Hpath|reflexivity].
Qed.

Lemma fallback_sections_texts (key text : string) :
  assoc key fallback_sections = Some text ->
  In key required_keys /\ section env fallback_object key = Ok text.
Proof.
  intros H. apply assoc_In in H. simpl in H.
  repeat (destruct H as [H|H];
          [injection H as <- <-; split; [simpl; tauto|vm_compute; reflexivity]|]).
  destruct H.
Qed.

(** X23.  A run without the model.  When every call to the endpoint fails
    and [json.loads] refuses the empty string, [generate_readme] still
    returns a document for the repository information of [get_repo_info],
    and the document holds the seven fallback sentences of the sections.
    (The repository path and the path of the remote URL are taken to hold
    no opening brace.) *)
Theorem offline_document (st : state) :
  (forall history req, call_failed (requests_post env history req)) ->
  json_loads env "" = None ->
  has_char "{" (repo_path self) = false ->
  has_char "{" (urlparse_path env (git_remote_url env)) = false ->
  exists document,
    fst (generate_readme env self (get_repo_info env self) st) = Ok document
    /\ forall key text,
         assoc key fallback_sections = Some text -> contains text document = true.
Proof.
  intros Hfail Hloads Hpath Hurl.
  destruct (generate_readme_run env self (get_repo_info env self) st
              (scan_scanned env self))
    as (analyzed & st1 & calls & prompt & answer & Hanalysed & _ & _ & _ & Hanswer & Hrun).
  rewrite (failed_call_empty prompt _ _ st1 (Hfail _ _)) in Hanswer.
  injection Hanswer as <-.
  rewrite Hrun, Hloads. cbn [fst generated_sections].
  set (info := with_files (get_repo_info env self) analyzed).
  destruct (template_outcome env info fallback_object) as [content Hcontent].
  rewrite Hcontent. cbn [mbind result_bind].
  assert (Hname : has_char "{" (name info) = false)
    by (apply repo_name_free; assumption).
  assert (Hsame : _postprocess_readme env self content info = Ok content).
  { apply postprocess_without_tokens;
      (eapply template_token_free;
       [vm_compute; reflexivity | exact Hname | exact Hurl
       | apply fallback_sections_free | exact Hcontent]). }
  exists content. split; [exact Hsame|].
  intros key text Htext. apply fallback_sections_texts in Htext as [Hkey Hsection].
  destruct (template_holds env info fallback_object content Hcontent) as [_ Hkeys].
  exact (Hkeys key text Hkey Hsection).
Qed.

End Offline.

Lemma offline_document_witness :
  exists document,
    fst (generate_readme (offline scenario_tree) sample_self
           (get_repo_info (offline scenario_tree) sample_self) initial_state)
    = Ok document
    /\ forall key text,
         assoc key fallback_sections = Some text ->
         PyStr.contains text document = true.
Proof.
  apply (offline_document (offline scenario_tree) sample_self initial_state).
  - intros history req. exact I.
  - reflexivity.
  - reflexivity.
  - reflexivity.
Defined.

(** ** Indentation of the project structure *)

Module CountFacts.
Import PyStr ReplaceFacts.

(** Counting one character. *)
Lemma count_char_cons (c a : ascii) (s : string) :
  count (String a s) (String c "")
  = (if Ascii.eqb c a then 1 else 0) + count s (String c "").
Proof.
  unfold count. cbn [count_from]. rewrite prefix_cons, prefix_empty.
  destruct (Ascii.eqb c a); reflexivity.
Qed.

Lemma count_char_app (c : ascii) (s t : string) :
  count (s +:+ t) (String c "") = count s (String c "") + count t (String c "").
Proof.
  induction s as [|a s IH]; [reflexivity|].
  rewrite app_cons, !count_char_cons, IH. lia.
Qed.

Lemma count_char_none (c : ascii) (s : string) :
  has_char c s = false -> count s (String c "") = 0.
Proof.
  induction s as [|a s IH]; [reflexivity|]. simpl has_char.
  intros H. apply orb_false_iff in H as [Ha Hs].
  rewrite count_char_cons, Ha, IH by exact Hs. reflexivity.
Qed.

Lemma drop_app (s t : string) : drop (len s) (s +:+ t) = t.
Proof. induction s as [|a s IH]; [reflexivity|exact IH]. Qed.

(** The first occurrence of [old] in [old +:+ t] is the one at the front. *)
Lemma replace_front (old t : string) :
  old <> "" -> replace (old +:+ t) old "" = replace t old "".
Proof.
  destruct old as [|o os]; [congruence|]. intros _.
  assert (Hp : String.prefix (String o os) (String o (os +:+ t)) = true)
    by exact (prefix_app_l _ _ t (prefix_refl (String o os))).
  rewrite app_cons, replace_cons, Hp, drop_app. reflexivity.
Qed.

(** Taking out occurrences of a text without the character leaves the
    number of occurrences of the character as it was. *)
Lemma count_replace_free (c : ascii) (old s : string) :
  old <> "" -> has_char c old = false ->
  count (replace s old "") (String c "") = count s (String c "").
Proof.
  destruct old as [|o os]; [congruence|]. intros _ Hold.
  remember (len s) as bound eqn:Hbound.
  assert (Hle : len s <= bound) by lia. clear Hbound.
  revert s Hle. induction bound as [|bound IH]; intros s Hle.
  - destruct s; [reflexivity|simpl in Hle; lia].
  - destruct s as [|a s]; [reflexivity|]. simpl in Hle.
    rewrite replace_cons.
    destruct (String.prefix (String o os) (String a s)) eqn:Hp.
    + change ("" +:+ ?x) with x.
      rewrite IH by (pose proof (PyStrFacts.len_drop (len os) s); unfold len in *; lia).
      apply prefix_take in Hp.
      rewrite <- (PyStrFacts.take_drop (len (String o os)) (String a s)) at 1.
      rewrite Hp, count_char_app, (count_char_none c _ Hold). reflexivity.
    + rewrite !count_char_cons, IH by lia. reflexivity.
Qed.

(** A text that ends in a character has it as its last one. *)
Lemma endswith_char (c : ascii) (s : string) :
  endswith s (String c "") = true -> last_char s = Some c.
Proof.
  induction s as [|a s IH]; [discriminate|].
  unfold endswith. change (len (String c "")) with 1.
  change (len (String a s)) with (S (len s)).
  replace (S (len s) - 1) with (len s) by lia. cbn [Nat.leb andb].
  destruct s as [|b r].
  - cbn. destruct (Ascii.eqb_spec a c) as [->|_]; [reflexivity|discriminate].
  - change (drop (len (String b r)) (String a (String b r)))
      with (drop (len r) (String b r)).
    intros H.
    assert (Hr : endswith (String b r) (String c "") = true).
    { unfold endswith. change (len (String c "")) with 1.
      change (len (String b r)) with (S (len r)).
      replace (S (len r) - 1) with (len r) by lia. exact H. }
    apply IH in Hr.
    change (last_char (String a (String b r)))
      with (match last_char (String b r) with None => Some a | Some z => Some z end).
    rewrite Hr. reflexivity.
Qed.

Lemma last_char_in (s : string) (z : ascii) :
  last_char s = Some z -> has_char z s = true.
Proof.
  induction s as [|a s IH]; [discriminate|]. cbn [last_char has_char].
  destruct (last_char s) as [y|].
  - intros [= <-]. rewrite IH by reflexivity. apply orb_true_r.
  - intros [= <-]. rewrite Ascii.eqb_refl. reflexivity.
Qed.

Lemma last_char_some (a : ascii) (s : string) : exists z, last_char (String a s) = Some z.
Proof.
  cbn [last_char]. destruct (last_char s); eexists; reflexivity.
Qed.

End CountFacts.

Section Levels.
Import PyStr ReplaceFacts CountFacts.

Lemma proper_name_facts (n : string) :
  proper_name n = true -> n <> "" /\ has_char "/" n = false.
Proof.
  unfold proper_name. intros H. apply andb_true_iff in H as [H1 H2].
  apply negb_true_iff in H1, H2. split; [|exact H2].
  intros ->. discriminate.
Qed.

(** After a proper name no separator stands at the end. *)
Lemma endswith_proper (s n : string) :
  proper_name n = true -> endswith (s +:+ n) OsPath.sep = false.
Proof.
  intros Hn. apply proper_name_facts in Hn as [Hne Hfree].
  destruct (endswith (s +:+ n) OsPath.sep) eqn:E; [|reflexivity].
  apply endswith_char in E.
  destruct n as [|a n]; [congruence|].
  destruct (last_char_some a n) as [z Hz].
  rewrite (last_char_app s _ z Hz) in E. injection E as ->.
  apply last_char_in in Hz. congruence.
Qed.

Lemma join_proper (top n : string) :
  top <> "" -> endswith top OsPath.sep = false -> proper_name n = true ->
  OsPath.join top n = top +:+ OsPath.sep +:+ n.
Proof.
  intros Htop Hend Hn. apply proper_name_facts in Hn as [Hne Hfree].
  unfold OsPath.join. rewrite Hend.
  destruct n as [|a n]; [congruence|].
  cbn [has_char] in Hfree. apply orb_false_iff in Hfree as [Ha _].
  unfold OsPath.sep at 1. rewrite prefix_cons, Ha.
  destruct (String.eqb_spec top ""); [contradiction|]. reflexivity.
Qed.

Lemma below_path_cons (n : string) (more : list string) :
  below_path (n :: more) = OsPath.sep +:+ n +:+ below_path more.
Proof.
  unfold below_path. cbn [map]. rewrite concat_cons, app_assoc. reflexivity.
Qed.

(** The roots of a walk: the top, and a separator and a name for each
    directory on the way down. *)
Lemma walk_roots (d : dir) :
  forall top path item,
    proper_names d = true -> top <> "" -> endswith top OsPath.sep = false ->
    In item (os_walk (fun _ => true) top path d) ->
    exists more,
      below item = path ++ more
      /\ root item = top +:+ below_path more
      /\ Forall (fun n => has_char "/" n = false) more.
Proof.
  induction d as [subdirs files IH] using dir_induction.
  intros top path item Hproper Htop Hend. simpl. intros [<-|Hbelow].
  - exists []. cbn [below root below_path map String.concat].
    rewrite app_nil_r, app_empty_r. repeat split. constructor.
  - apply in_flat_map in Hbelow as [[name sub] [Hentry Hitem]].
    simpl in Hproper. apply andb_true_iff in Hproper as [_ Hsubs].
    rewrite forallb_forall in Hsubs. specialize (Hsubs _ Hentry).
    cbn [fst snd] in Hsubs. apply andb_true_iff in Hsubs as [Hname Hsub].
    rewrite List.Forall_forall in IH.
    rewrite (join_proper top name Htop Hend Hname) in Hitem.
    assert (Htop' : top +:+ OsPath.sep +:+ name <> "")
      by (destruct top; [congruence|discriminate]).
    assert (Hend' : endswith (top +:+ OsPath.sep +:+ name) OsPath.sep = false)
      by (rewrite <- app_assoc; apply endswith_proper, Hname).
    destruct (IH (name, sub) Hentry _ _ _ Hsub Htop' Hend' Hitem)
      as (more & Hmore & Hroot & Hfree).
    exists (name :: more). split; [rewrite Hmore, <- List.app_assoc; reflexivity|].
    split.
    * rewrite Hroot, below_path_cons, !app_assoc. reflexivity.
    * constructor; [apply proper_name_facts, Hname|exact Hfree].
Qed.

Lemma count_below_path (more : list string) :
  Forall (fun n => has_char "/" n = false) more ->
  count (below_path more) OsPath.sep = length more.
Proof.
  intros H. induction H as [|n more Hn _ IH]; [reflexivity|].
  rewrite below_path_cons. unfold OsPath.sep in *.
  rewrite !count_char_app, (count_char_none _ _ Hn), IH. reflexivity.
Qed.

Context (env : environment) (self : documenter).

Lemma level_of_root (item : walk_item) :
  level_of self item = count (replace (root item) (repo_path self) "") OsPath.sep.
Proof. reflexivity. Qed.

(** X24.  The indentation of the project structure.  For a repository
    path that is not empty and does not end in a slash, the level of a
    directory line is the number of slashes left in the path of the
    directory below the top once every occurrence of the repository path in
    it is taken out, because [root.replace(self.repo_path, '')] replaces
    everywhere.  So the level is the depth of the directory when the
    repository path does not occur again below the top, and always when the
    repository path holds no slash. *)
Theorem structure_levels :
  repo_path self <> "" ->
  endswith (repo_path self) "/" = false ->
  proper_names (repo_tree env) = true ->
  Forall (fun item =>
            root item = repo_path self +:+ below_path (below item)
            /\ level_of self item
               = count (replace (below_path (below item)) (repo_path self) "") "/"
            /\ (contains (repo_path self) (below_path (below item)) = false ->
                level_of self item = length (below item))
            /\ (has_char "/" (repo_path self) = false ->
                level_of self item = length (below item)))
         (os_walk (fun _ => true) (repo_path self) [] (repo_tree env)).
Proof.
  intros Hpath Hend Hproper. apply List.Forall_forall. intros item Hitem.
  destruct (walk_roots (repo_tree env) _ _ _ Hproper Hpath Hend Hitem)
    as (more & Hmore & Hroot & Hfree).
  cbn [app] in Hmore. subst more.
  assert (Hlevel : level_of self item
                   = count (replace (below_path (below item)) (repo_path self) "") "/").
  { rewrite level_of_root, Hroot, replace_front by exact Hpath. reflexivity. }
  split; [exact Hroot|]. split; [exact Hlevel|]. split.
  - intros Habsent. rewrite Hlevel, replace_absent by exact Habsent.
    apply count_below_path, Hfree.
  - intros Hflat. rewrite Hlevel, count_replace_free by assumption.
    apply count_below_path, Hfree.
Qed.

End Levels.

Lemma structure_levels_witness :
  Forall (fun item =>
            root item = repo_path relative_self +:+ below_path (below item)
            /\ level_of relative_self item
               = PyStr.count (PyStr.replace (below_path (below item))
                                            (repo_path relative_self) "") "/"
            /\ (PyStr.contains (repo_path relative_self) (below_path (below item)) = false ->
                level_of relative_self item = length (below item))
            /\ (has_char "/" (repo_path relative_self) = false ->
                level_of relative_self item = length (below item)))
         (os_walk (fun _ => true) (repo_path relative_self) []
                  (repo_tree (offline tidy_tree))).
Proof.
  apply (structure_levels (offline tidy_tree) relative_self).
  - discriminate.
  - reflexivity.
  - reflexivity.
Defined.

(** ** Files without an extension *)

Section Extensionless.
Import PyStr.

Lemma split_single (c : ascii) (s : string) :
  has_char c s = false -> split c s = [s].
Proof.
  induction s as [|a r IH]; [reflexivity|]. cbn [has_char split].
  intros H. apply orb_false_iff in H as [Ha Hr].
  rewrite Ascii.eqb_sym in Ha. rewrite Ha, IH by exact Hr. reflexivity.
Qed.

Lemma file_ext_none (file : string) :
  has_char "." file = false -> file_ext_of file = "".
Proof.
  intros Hfile. unfold file_ext_of, OsPath.splitext_ext.
  assert (Hname : has_char "." (OsPath.basename file) = false).
  { unfold OsPath.basename.
    apply (forall_last (fun piece => has_char "." piece = false));
      [apply split_free, Hfile|reflexivity]. }
  rewrite (split_single "." _ Hname). reflexivity.
Qed.

(** X25.  A file whose name holds no dot (Makefile, Dockerfile) has the
    empty extension, which is not in the table.  When its name is not
    ignored it is listed with the language Unknown; it is not counted in
    the language statistics and it is never sent to the model. *)
Theorem extensionless_files (file : string) :
  has_char "." file = false ->
  file_ext_of file = ""
  /\ (forall item f,
        In (file, f) (filenames item) -> mem file ignore_files = false ->
        In (file_info (OsPath.relpath (below item) file) "" "Unknown"
                      (_read_file_content f))
           (scan_directory item))
  /\ (forall below, known_extension (below, file) = false)
  /\ (forall path content, sent_to_model (file_info path "" "Unknown" content) = false).
Proof.
  intros Hfile. pose proof (file_ext_none file Hfile) as Hext.
  split; [exact Hext|]. split; [|split].
  - intros item f Hin Hkept. unfold scan_directory.
    apply in_flat_map. exists (file, f). split; [exact Hin|].
    rewrite Hkept, Hext. left. reflexivity.
  - intros below. unfold known_extension. cbn [snd]. rewrite Hext. reflexivity.
  - intros path content. unfold sent_to_model.
    destruct (file_info_lookup path "" "Unknown" content) as (_ & He & _ & Hc & _).
    rewrite Hc, He. cbn [assoc]. apply andb_false_r.
Qed.

End Extensionless.

Lemma extensionless_files_witness :
  file_ext_of "Dockerfile" = ""
  /\ forall below, known_extension (below, "Dockerfile") = false.
Proof.
  destruct (extensionless_files "Dockerfile" eq_refl) as (Hext & _ & Hknown & _).
  split; [exact Hext|exact Hknown].
Defined.

(** ** The path of the clone *)

Module LastPieceFacts.
Import PyStr ReplaceFacts SplitFacts.

(** A split of one piece is the text itself. *)
Lemma split_one (c : ascii) (s w : string) : split c s = [w] -> w = s.
Proof.
  revert w. induction s as [|a r IH]; intros w; cbn [split].
  - intros [= <-]. reflexivity.
  - destruct (Ascii.eqb a c).
    + pose proof (split_nonempty c r). destruct (split c r); [contradiction|discriminate].
    + destruct (split c r) as [|v vs] eqn:Hsplit.
      * destruct (split_nonempty c r Hsplit).
      * intros [= <- ->]. rewrite (IH v) by reflexivity. reflexivity.
Qed.

(** The last piece of a split is what follows the last separator: the text
    before it is empty or ends in the separator. *)
Lemma last_piece_suffix (c : ascii) (s : string) :
  exists before,
    s = before +:+ List.last (split c s) ""
    /\ (before = "" \/ last_char before = Some c).
Proof.
  induction s as [|a r IH]; [exists ""; split; [reflexivity|left; reflexivity]|].
  destruct IH as (before & Hr & Hbefore). cbn [split].
  destruct (Ascii.eqb_spec a c) as [->|Hne].
  - exists (String c before). split.
    + rewrite app_cons. f_equal.
      pose proof (split_nonempty c r). destruct (split c r); [contradiction|exact Hr].
    + right. cbn [last_char]. destruct Hbefore as [-> | ->]; reflexivity.
  - destruct (split c r) as [|w [|w2 ws]] eqn:Hsplit.
    + destruct (split_nonempty c r Hsplit).
    + exists "". split; [|left; reflexivity].
      apply split_one in Hsplit as ->. reflexivity.
    + exists (String a before). split; [rewrite app_cons; f_equal; exact Hr|].
      right. cbn [last_char]. destruct Hbefore as [-> | ->]; [|reflexivity].
      exfalso.
      pose proof (last_piece c r) as Hfree. rewrite Hsplit in Hfree.
      change ("" +:+ List.last (w :: w2 :: ws) "") with (List.last (w :: w2 :: ws) "") in Hr.
      rewrite <- Hr in Hfree. apply split_single in Hfree.
      rewrite Hfree in Hsplit. discriminate.
Qed.

End LastPieceFacts.

Section ClonePath.
Import Lifecycle.

Context (h : host).

(** The path of [temp_repos] is not empty and does not end in a separator. *)
Lemma temp_repos_path :
  let temp := OsPath.join (script_dir h) "temp_repos" in
  temp <> "" /\ PyStr.endswith temp OsPath.sep = false.
Proof.
  unfold OsPath.join.
  change (String.prefix OsPath.sep "temp_repos") with false. cbv iota.
  destruct (String.eqb (script_dir h) "" || PyStr.endswith (script_dir h) OsPath.sep).
  - split; [destruct (script_dir h); discriminate|].
    apply endswith_proper. reflexivity.
  - rewrite <- ReplaceFacts.app_assoc.
    split; [destruct (script_dir h); discriminate|].
    apply endswith_proper. reflexivity.
Qed.

(** Joining a path with a name that holds no separator puts one separator
    between them; the name may be empty. *)
Lemma join_segment (top name : string) :
  top <> "" -> PyStr.endswith top OsPath.sep = false -> has_char "/" name = false ->
  OsPath.join top name = top +:+ OsPath.sep +:+ name.
Proof.
  intros Htop Hend Hfree. unfold OsPath.join. rewrite Hend.
  destruct (String.eqb_spec top ""); [contradiction|].
  destruct name as [|a name]; [reflexivity|].
  cbn [has_char] in Hfree. apply orb_false_iff in Hfree as [Ha _].
  unfold OsPath.sep at 1. rewrite ReplaceFacts.prefix_cons, Ha. reflexivity.
Qed.

(** X21.  The path a URL is cloned to.  With [piece] what follows the last
    slash of the URL's path, and [name] that piece without one [.git] at
    its end, the clone path is the path of [temp_repos] (next to the
    script), one slash, and [name]; [name] holds no slash.  The constructor
    creates [temp_repos], removes at most that one path when it exists
    already, and clones into it; it returns only after the clone, with
    [repo_path] set to the clone path and [temp_dir] to [temp_repos].
    Nothing more is required of [name]: it can be empty, or two dots. *)
Theorem clone_path_of_url (url : string) :
  startswith_url url = true ->
  let run := __init__ h url in
  let temp := OsPath.join (script_dir h) "temp_repos" in
  let piece := List.last (PyStr.split "/" (urlparse_path h url)) "" in
  let name :=
    if PyStr.endswith piece ".git"
    then PyStr.take (PyStr.len piece - 4) piece else piece in
  let clone_path := temp +:+ "/" +:+ name in
  (exists before,
     urlparse_path h url = before +:+ piece
     /\ (before = "" \/ last_char before = Some "/"%char))
  /\ has_char "/" piece = false
  /\ has_char "/" name = false
  /\ OsPath.join temp name = clone_path
  /\ In (snd run)
        [[Makedirs temp];
         [Makedirs temp; CloneFrom url clone_path];
         [Makedirs temp; Rmtree clone_path];
         [Makedirs temp; Rmtree clone_path; CloneFrom url clone_path]]
  /\ forall self,
       fst run = Returns self ->
       self = {| repo_path := clone_path; temp_dir := Some temp; repo := true |}
       /\ List.last (snd run) CloseRepo = CloneFrom url clone_path.
Proof.
  intros Hurl run temp piece name clone_path.
  assert (Hpiece : has_char "/" piece = false)
    by apply SplitFacts.last_piece.
  assert (Hname : has_char "/" name = false).
  { subst name. destruct (PyStr.endswith piece ".git"); [|exact Hpiece].
    apply SplitFacts.has_char_take, Hpiece. }
  assert (Hjoin : OsPath.join temp name = clone_path).
  { destruct temp_repos_path as [Hne Hend]. apply join_segment; assumption. }
  split; [apply LastPieceFacts.last_piece_suffix|].
  split; [exact Hpiece|]. split; [exact Hname|]. split; [exact Hjoin|].
  subst run. unfold __init__, initialize_repository. cbn [repo_path temp_dir repo].
  rewrite Hurl. fold temp. fold piece. fold name. rewrite Hjoin. cbn [app].
  destruct (makedirs h [] temp); cbn [negb].
  - destruct (path_exists h [Makedirs temp] clone_path).
    + destruct (rmtree h [Makedirs temp] clone_path).
      * destruct (clone_from h _ url clone_path); cbn [fst snd app].
        -- split; [simpl; tauto|]. intros self [= <-]. split; reflexivity.
        -- split; [simpl; tauto|]. intros self [=].
      * cbn [fst snd app]. split; [simpl; tauto|]. intros self [=].
      * cbn [fst snd app]. split; [simpl; tauto|]. intros self [=].
    + destruct (clone_from h _ url clone_path); cbn [fst snd app].
      * split; [simpl; tauto|]. intros self [= <-]. split; reflexivity.
      * split; [simpl; tauto|]. intros self [=].
  - cbn [fst snd]. split; [simpl; tauto|]. intros self [=].
Qed.

End ClonePath.

Lemma clone_path_of_url_witness :
  let url := "https://github.com/user/repo.git" in
  let run := Lifecycle.__init__ busy_host url in
  let temp := "/opt/tool/temp_repos" in
  let clone_path := "/opt/tool/temp_repos/repo" in
  (exists before,
     "/user/repo.git" = before +:+ "repo.git"
     /\ (before = "" \/ last_char before = Some "/"%char))
  /\ has_char "/" "repo.git" = false
  /\ has_char "/" "repo" = false
  /\ OsPath.join temp "repo" = clone_path
  /\ In (snd run)
        [[Lifecycle.Makedirs temp];
         [Lifecycle.Makedirs temp; Lifecycle.CloneFrom url clone_path];
         [Lifecycle.Makedirs temp; Lifecycle.Rmtree clone_path];
         [Lifecycle.Makedirs temp; Lifecycle.Rmtree clone_path;
          Lifecycle.CloneFrom url clone_path]]
  /\ forall self,
       fst run = Lifecycle.Returns self ->
       self = {| Lifecycle.repo_path := clone_path;
                 Lifecycle.temp_dir := Some temp;
                 Lifecycle.repo := true |}
       /\ List.last (snd run) Lifecycle.CloseRepo = Lifecycle.CloneFrom url clone_path.
Proof.
  apply (clone_path_of_url busy_host "https://github.com/user/repo.git").
  reflexivity.
Defined.

(** A URL whose path ends in two dots: the path that is removed and cloned
    into is [temp_repos/..], the directory of the script. *)
Lemma clone_path_two_dots :
  let url := "https://github.com/user/.." in
  Lifecycle.__init__ dotted_host url
  = (Lifecycle.Returns {| Lifecycle.repo_path := "/opt/tool/temp_repos/..";
                          Lifecycle.temp_dir := Some "/opt/tool/temp_repos";
                          Lifecycle.repo := true |},
     [Lifecycle.Makedirs "/opt/tool/temp_repos";
      Lifecycle.Rmtree "/opt/tool/temp_repos/..";
      Lifecycle.CloneFrom url "/opt/tool/temp_repos/.."]).
Proof. vm_compute. reflexivity. Qed.
